(** * Nordedge GeoGrid: grid geometry, ranking classification and export

    A shallow embedding of the computational core of the dashboard:
    - [GoogleMap.initializeMap] (grid points and ranking markers),
    - [DetailedGridView] (parameter fallbacks, ranking helpers, CSV export,
      ranking-marker loops, inline haversine distance).

    JavaScript numbers are IEEE-754 binary64 values.  The arithmetic of the
    source is written once, over an interface [Number] (the four operations
    and integer literals) and [MathLib] (the [Math] object), and read in two
    ways:
    - [Binary64]: Rocq's primitive floats, bit-for-bit the arithmetic the
      program performs; used for every concrete evaluation, for NaN, and for
      the laws that follow from the IEEE specification of the operations;
    - [Exact]: the real numbers, i.e. the same expressions without rounding;
      used for the algebraic laws that hold only up to rounding.
    Grid sizes, loop indices and ranks are integers ([Z]). *)

From Stdlib Require Import Floats.PrimFloat.
From Stdlib Require Uint63.
From Stdlib Require Floats.SpecFloat Floats.FloatOps Floats.FloatAxioms.
From Stdlib Require Import ZArith List String Ascii Bool Lia.
From Stdlib Require Import Reals Lra.
From Stdlib Require Import DecimalString.
From Stdlib Require Import Sorted Permutation.
From Stdlib Require FinFun.
Import ListNotations.

Set Implicit Arguments.

(** ** Numbers *)

Class Number (N : Type) : Type := {
  add : N -> N -> N;
  sub : N -> N -> N;
  mul : N -> N -> N;
  div : N -> N -> N;
  ofZ : Z -> N
}.

(** The part of the [Math] object the program uses. *)
Class MathLib (N : Type) : Type := {
  Math_PI : N;
  Math_cos : N -> N;
  Math_sin : N -> N;
  Math_sqrt : N -> N;
  Math_atan2 : N -> N -> N
}.

Declare Scope js_scope.
Delimit Scope js_scope with js.
Infix "+" := add : js_scope.
Infix "-" := sub : js_scope.
Infix "*" := mul : js_scope.
Infix "/" := div : js_scope.

(** A decimal literal [m / 10^e], e.g. [dec 110574 3] for [110.574].  On
    binary64 the quotient of two exactly representable integers is correctly
    rounded, which is the value the literal denotes. *)
Definition dec {N : Type} `{Number N} (m : Z) (e : Z) : N :=
  (ofZ m / ofZ (10 ^ e))%js.

(** *** Exact reading *)

Module Exact.

#[export] Instance number : Number R := {
  add := Rplus; sub := Rminus; mul := Rmult; div := Rdiv; ofZ := IZR
}.

(** Two-argument arctangent, by quadrant. *)
Definition atan2 (y x : R) : R :=
  if Rlt_dec 0 x then atan (y / x)
  else if Rlt_dec x 0 then
    (if Rle_dec 0 y then atan (y / x) + PI else atan (y / x) - PI)%R
  else if Rlt_dec 0 y then (PI / 2)%R
  else if Rlt_dec y 0 then (- (PI / 2))%R
  else 0%R.

#[export] Instance math : MathLib R := {
  Math_PI := PI; Math_cos := cos; Math_sin := sin;
  Math_sqrt := sqrt; Math_atan2 := atan2
}.

End Exact.

(** *** Binary64 reading *)

Module Binary64.

Definition float_ofZ (z : Z) : float :=
  if (z <? 0)%Z then PrimFloat.opp (PrimFloat.of_uint63 (Uint63.of_Z (- z)))
  else PrimFloat.of_uint63 (Uint63.of_Z z).

#[export] Instance number : Number float := {
  add := PrimFloat.add; sub := PrimFloat.sub;
  mul := PrimFloat.mul; div := PrimFloat.div; ofZ := float_ofZ
}.

(** [Math.PI] is the double nearest to pi; [Math.sqrt] is the IEEE square
    root.  The trigonometric functions are implementation-approximated and
    stay parameters. *)
Definition math (cosf sinf : float -> float) (atan2f : float -> float -> float)
  : MathLib float := {|
  Math_PI := 0x1.921fb54442d18p+1%float;
  Math_cos := cosf; Math_sin := sinf;
  Math_sqrt := PrimFloat.sqrt; Math_atan2 := atan2f
|}.

End Binary64.

(** ** Data model *)

Record LatLng (N : Type) : Type := mkLatLng { lat : N; lng : N }.
Arguments mkLatLng {N} _ _.

(** [for (let i = 0; i < n; i++)] visits [0, 1, ..., n-1]; no iteration when
    [n <= 0]. *)
Definition range (n : Z) : list Z := map Z.of_nat (seq 0 (Z.to_nat n)).

(** [a[k]] on an array: [undefined] outside the bounds. *)
Definition at_index {A : Type} (a : list A) (k : Z) : option A :=
  if (k <? 0)%Z then None else nth_error a (Z.to_nat k).

(** An entry [gridData[i][j]] of the rank matrix that is defined and
    nonzero. *)
Definition ranked (rows : list (list Z)) (i j : Z) : Prop :=
  exists (row : list Z) (r : Z),
    at_index rows i = Some row /\ at_index row j = Some r /\ r <> 0%Z.

(** ** GoogleMap.initializeMap: grid point generation *)

Module GoogleMap.
Section Grid.
Context {N : Type} {num : Number N} {libm : MathLib N}.
Local Open Scope js_scope.

(** [((i - offset) * pointDistance) / 69] *)
Definition latOffset (gridSize : Z) (pointDistance : N) (i : Z) : N :=
  let offset := (gridSize / 2)%Z in
  ((ofZ i - ofZ offset) * pointDistance) / ofZ 69.

(** [((j - offset) * pointDistance) / (69 * Math.cos(center.lat * (Math.PI / 180)))] *)
Definition lngOffset (center : LatLng N) (gridSize : Z) (pointDistance : N)
    (j : Z) : N :=
  let offset := (gridSize / 2)%Z in
  ((ofZ j - ofZ offset) * pointDistance)
  / (ofZ 69 * Math_cos (lat center * (Math_PI / ofZ 180))).

Definition pointLat (center : LatLng N) gridSize pointDistance i : N :=
  lat center + latOffset gridSize pointDistance i.

Definition pointLng (center : LatLng N) gridSize pointDistance j : N :=
  lng center + lngOffset center gridSize pointDistance j.

Definition gridPoint (center : LatLng N) gridSize pointDistance (i j : Z)
  : LatLng N :=
  {| lat := pointLat center gridSize pointDistance i;
     lng := pointLng center gridSize pointDistance j |}.

(** The nested loops pushing onto [points]. *)
Definition points (center : LatLng N) (gridSize : Z) (pointDistance : N)
  : list (LatLng N) :=
  flat_map (fun i => map (fun j => gridPoint center gridSize pointDistance i j)
                         (range gridSize))
           (range gridSize).
End Grid.
End GoogleMap.

(** ** DetailedGridView: grid coordinates (CSV export and marker loops) *)

Module DetailedGridView.
Section Coordinates.
Context {N : Type} {num : Number N} {libm : MathLib N}.
Local Open Scope js_scope.

(** [1 / 110.574] *)
Definition latKmRatio : N := ofZ 1 / dec 110574 3.

(** [1 / (111.32 * Math.cos((location.lat * Math.PI) / 180))] *)
Definition lngKmRatio (location : LatLng N) : N :=
  ofZ 1 / (dec 11132 2 * Math_cos ((lat location * Math_PI) / ofZ 180)).

(** [location.lat - (distance * latKmRatio * (gridSize - 1)) / 2] *)
Definition startLat (location : LatLng N) (distance : N) (gridSize : Z) : N :=
  lat location - (distance * latKmRatio * (ofZ gridSize - ofZ 1)) / ofZ 2.

Definition startLng (location : LatLng N) (distance : N) (gridSize : Z) : N :=
  lng location
  - (distance * lngKmRatio location * (ofZ gridSize - ofZ 1)) / ofZ 2.

(** [startLat + rowIndex * distance * latKmRatio] *)
Definition cellLat (location : LatLng N) distance gridSize (i : Z) : N :=
  startLat location distance gridSize + ofZ i * distance * latKmRatio.

Definition cellLng (location : LatLng N) distance gridSize (j : Z) : N :=
  startLng location distance gridSize
  + ofZ j * distance * lngKmRatio location.

Definition cellCoordinate (location : LatLng N) distance gridSize (i j : Z)
  : LatLng N :=
  {| lat := cellLat location distance gridSize i;
     lng := cellLng location distance gridSize j |}.
End Coordinates.
End DetailedGridView.

(** ** The coordinate formula of the specification

    [lat + (i - floor(n/2)) * s / 110.574] and
    [lng + (j - floor(n/2)) * s / (111.32 * cos(lat * pi/180))]. *)

Module GridSpec.
Section Formula.
Context {N : Type} {num : Number N} {libm : MathLib N}.
Local Open Scope js_scope.

Definition specLat (center : LatLng N) (n : Z) (s : N) (i : Z) : N :=
  lat center + ofZ (i - n / 2) * s / dec 110574 3.

Definition specLng (center : LatLng N) (n : Z) (s : N) (j : Z) : N :=
  lng center
  + ofZ (j - n / 2) * s
    / (dec 11132 2 * Math_cos (lat center * Math_PI / ofZ 180)).
End Formula.
End GridSpec.

(** ** Strings *)

(** [n.toString()] and [`${n}`] on an integer-valued number. *)
Definition toString (z : Z) : string := NilZero.string_of_int (Z.to_int z).

Definition newline : string := String (ascii_of_nat 10) EmptyString.

(** [a.forEach((x, index) => ...)] where the callback appends to an output
    (a string being built, markers being created): the outputs of the calls
    in index order, the index counting up from [k]. *)
Fixpoint forEachFrom {A B : Type} (k : Z) (f : A -> Z -> list B) (a : list A)
  : list B :=
  match a with
  | [] => []
  | x :: rest => f x k ++ forEachFrom (k + 1) f rest
  end.

Definition forEach {A B : Type} (f : A -> Z -> list B) (a : list A) : list B :=
  forEachFrom 0 f a.

(** ** Control outcome of a computation inside [try { ... } catch] *)

Inductive Outcome (A : Type) : Type :=
| Returned (value : A)
| Threw (message : string).
Arguments Returned {A} _.
Arguments Threw {A} _.

(** ** GoogleMap.initializeMap: ranking markers *)

Module GoogleMapMarkers.

Record Marker (N : Type) : Type := mkMarker {
  position : LatLng N;
  iconColor : string;
  iconText : string;
  zIndex : Z;
  ranking : Z
}.

Definition iconColorOf (ranking : Z) : string :=
  if (ranking <=? 3)%Z then "#4CAF50"
  else if (ranking <=? 7)%Z then "#8BC34A"
  else if (ranking <=? 10)%Z then "#FFC107"
  else if (ranking <=? 15)%Z then "#FF9800"
  else if (ranking <=? 20)%Z then "#F44336"
  else "#9E9E9E".

Definition iconTextOf (ranking : Z) : string :=
  if (ranking <=? 3)%Z then toString ranking
  else if (ranking <=? 7)%Z then toString ranking
  else if (ranking <=? 10)%Z then toString ranking
  else if (ranking <=? 15)%Z then toString ranking
  else if (ranking <=? 20)%Z then toString ranking
  else "20+".

(** [30 - (ranking > 20 ? 21 : ranking)] *)
Definition zIndexOf (ranking : Z) : Z :=
  (30 - (if (ranking >? 20) then 21 else ranking))%Z.

Section Markers.
Context {N : Type} {num : Number N} {libm : MathLib N}.

(** The body of [points.forEach((point, index) => ...)]. *)
Definition markerAt (gridSize : Z) (gridData : list (list Z))
    (point : LatLng N) (index : Z) : option (Marker N) :=
  let row := (index / gridSize)%Z in
  let col := Z.rem index gridSize in
  match at_index gridData row with
  | None => None
  | Some gridRow =>
    match at_index gridRow col with
    | None => None
    | Some ranking =>
      if (ranking =? 0)%Z then None
      else Some {| position := point;
                   iconColor := iconColorOf ranking;
                   iconText := iconTextOf ranking;
                   zIndex := zIndexOf ranking;
                   ranking := ranking |}
    end
  end.

(** The markers created, each with the index of the [forEach] call that
    created it.  [gridData] is an optional prop. *)
Definition markers (center : LatLng N) (gridSize : Z) (pointDistance : N)
    (gridData : option (list (list Z))) : list (Z * Marker N) :=
  match gridData with
  | None => []
  | Some rows =>
    if (Z.of_nat (List.length rows) >? 0)%Z then
      forEach (fun point index =>
                 match markerAt gridSize rows point index with
                 | Some m => [(index, m)]
                 | None => []
                 end)
              (GoogleMap.points center gridSize pointDistance)
    else []
  end.

End Markers.
End GoogleMapMarkers.

(** ** DetailedGridView: ranking helpers and marker loops *)

Module DetailedGridViewMarkers.

Definition getRankingColor (ranking : Z) : string :=
  if (ranking <=? 3)%Z then "#059669"
  else if (ranking <=? 7)%Z then "#10b981"
  else if (ranking <=? 10)%Z then "#f59e0b"
  else if (ranking <=? 15)%Z then "#f97316"
  else if (ranking >=? 16)%Z then "#ef4444"
  else "#ef4444".

Definition formatRankingLabel (ranking : Z) : string :=
  if (ranking >=? 20)%Z then "20+" else toString ranking.

Inductive Icon : Type :=
| IconUrl (url : string)
| IconCircle (fillColor : string).

Record Marker (N : Type) : Type := mkMarker {
  position : LatLng N;
  icon : Icon;
  label : option string;
  zIndex : Z
}.

(** [ranking <= 20 ? `/images/rank-icons/${ranking}.png` : `/images/rank-icons/X.png`] *)
Definition rankIconUrl (ranking : Z) : string :=
  if (ranking <=? 20)%Z
  then ("/images/rank-icons/" ++ toString ranking ++ ".png")%string
  else "/images/rank-icons/X.png".

(** The three copies of the component differ in the marker they build. *)

(** [zIndex: ranking <= 20 ? (21 - ranking) : 0] *)
Definition zIndex_rankIcons (ranking : Z) : Z :=
  if (ranking <=? 20)%Z then (21 - ranking)%Z else 0%Z.

(** [zIndex: 100 - ranking] *)
Definition zIndex_circles (ranking : Z) : Z := (100 - ranking)%Z.

(** [zIndex: 100 - (i * gridSize + j)] *)
Definition zIndex_byCell (gridSize i j : Z) : Z :=
  (100 - (i * gridSize + j))%Z.

Section Loops.
Context {N : Type} {num : Number N} {libm : MathLib N}.

Definition MarkerMaker : Type := Z -> Z -> Z -> Z -> LatLng N -> Marker N.

(** First copy: rank icons, z-order by rank. *)
Definition rankIconMarker : MarkerMaker := fun gridSize i j ranking pos =>
  {| position := pos; icon := IconUrl (rankIconUrl ranking);
     label := None; zIndex := zIndex_rankIcons ranking |}.

(** Second copy: coloured circles with a text label. *)
Definition circleMarker : MarkerMaker := fun gridSize i j ranking pos =>
  {| position := pos; icon := IconCircle (getRankingColor ranking);
     label := Some (formatRankingLabel ranking);
     zIndex := zIndex_circles ranking |}.

(** Third copy: rank icons, z-order by cell position. *)
Definition cellOrderMarker : MarkerMaker := fun gridSize i j ranking pos =>
  {| position := pos; icon := IconUrl (rankIconUrl ranking);
     label := Some (toString ranking);
     zIndex := zIndex_byCell gridSize i j |}.

(** One iteration of the "Add ranking markers" loops:
    [if (!gridData || !gridData[i] || typeof gridData[i][j] === 'undefined') continue;]
    [if (ranking === 0) continue;] then the marker. *)
Definition markerFor (make : MarkerMaker) (location : LatLng N)
    (distance : N) (gridSize : Z) (gridData : list (list Z)) (i j : Z)
  : option (Marker N) :=
  let pos := DetailedGridView.cellCoordinate location distance gridSize i j in
  match at_index gridData i with
  | None => None
  | Some gridRow =>
    match at_index gridRow j with
    | None => None
    | Some ranking =>
      if (ranking =? 0)%Z then None
      else Some (make gridSize i j ranking pos)
    end
  end.

(** The markers created by the nested loops, each with the cell of the
    iteration that created it. *)
Definition rankingMarkers (make : MarkerMaker) (location : LatLng N)
    (distance : N) (gridSize : Z) (gridData : list (list Z))
  : list (Z * Z * Marker N) :=
  flat_map (fun i =>
    flat_map (fun j =>
      match markerFor make location distance gridSize gridData i j with
      | Some m => [(i, j, m)]
      | None => []
      end) (range gridSize)) (range gridSize).
End Loops.
End DetailedGridViewMarkers.

(** ** DetailedGridView.handleCSVDownload: the grid section of the file *)

Module CSV.
Section Rows.
Context {N : Type} {num : Number N} {libm : MathLib N}.
(** [x.toFixed(6)] *)
Variable toFixed6 : N -> string.
Local Open Scope string_scope.

Definition header : string :=
  "Row,Column,Latitude,Longitude,Ranking" ++ newline.

(** [`${rowIndex + 1},${colIndex + 1},${lat.toFixed(6)},${lng.toFixed(6)},${ranking}\n`] *)
Definition dataRow (location : LatLng N) (distance : N) (gridSize : Z)
    (rowIndex colIndex ranking : Z) : string :=
  let lat := DetailedGridView.cellLat location distance gridSize rowIndex in
  let lng := DetailedGridView.cellLng location distance gridSize colIndex in
  toString (rowIndex + 1) ++ "," ++ toString (colIndex + 1) ++ ","
  ++ toFixed6 lat ++ "," ++ toFixed6 lng ++ "," ++ toString ranking
  ++ newline.

(** The chunks appended to [csvContent] by
    [gridData.forEach((row, rowIndex) => row.forEach((ranking, colIndex) => ...))]. *)
Definition dataRows (location : LatLng N) (distance : N) (gridSize : Z)
    (gridData : list (list Z)) : list string :=
  forEach (fun row rowIndex =>
    forEach (fun ranking colIndex =>
               [dataRow location distance gridSize rowIndex colIndex ranking])
            row)
    gridData.

Definition gridSection (location : LatLng N) (distance : N) (gridSize : Z)
    (gridData : list (list Z)) : string :=
  header ++ String.concat "" (dataRows location distance gridSize gridData).
End Rows.
End CSV.

(** ** DetailedGridView.showCompetitorsForGridPoint: inline distance *)

Module Distance.
Section Haversine.
Context {N : Type} {num : Number N} {libm : MathLib N}.
Local Open Scope js_scope.

(** [gridPoint] is the clicked grid point, [comp] the competitor's
    location ([compLat], [compLng]). *)
Definition haversineKm (gridPoint comp : LatLng N) : N :=
  let R := ofZ 6371 in
  let dLat := ((lat comp - lat gridPoint) * Math_PI) / ofZ 180 in
  let dLon := ((lng comp - lng gridPoint) * Math_PI) / ofZ 180 in
  let a :=
    Math_sin (dLat / ofZ 2) * Math_sin (dLat / ofZ 2)
    + Math_cos ((lat gridPoint * Math_PI) / ofZ 180)
      * Math_cos ((lat comp * Math_PI) / ofZ 180)
      * Math_sin (dLon / ofZ 2)
      * Math_sin (dLon / ofZ 2) in
  let c := ofZ 2 * Math_atan2 (Math_sqrt a) (Math_sqrt (ofZ 1 - a)) in
  R * c.
End Haversine.
End Distance.

(** ** DetailedGridView: parsing the props with fallbacks *)

Module Props.

(** The values a prop field can hold at run time. *)
Inductive JsValue : Type :=
| JsUndefined
| JsNull
| JsNum (x : float)
| JsStr (s : string).

Record Location : Type := { loc_lat : JsValue; loc_lng : JsValue }.
Record BusinessInfo : Type := { location : option Location }.
Record GridResult : Type := {
  gridSize : JsValue;
  distanceKm : JsValue;
  gridData : option (list (list Z));
  businessInfo : option BusinessInfo
}.

(** [Array.isArray(a) ? a : []] on an optional rank matrix. *)
Definition arrayOrEmpty (a : option (list (list Z))) : list (list Z) :=
  match a with Some rows => rows | None => [] end.

(** ToBoolean on a number: [NaN], [+0] and [-0] are falsy. *)
Definition truthy (x : float) : bool :=
  negb (PrimFloat.is_nan x || PrimFloat.eqb x 0%float).

(** [x || d] on numbers. *)
Definition orDefault (x d : float) : float := if truthy x then x else d.

(** ToBoolean on a prop value. *)
Definition valueTruthy (v : JsValue) : bool :=
  match v with
  | JsUndefined | JsNull => false
  | JsNum x => truthy x
  | JsStr s => negb (String.eqb s "")
  end.

(** [gridResult.gridSize || 13] and [gridResult.distanceKm || 2.5], the
    fallbacks [handleCSVDownload] recomputes in the first two copies of the
    component, without [Number(...)]. *)
Definition csvGridSize (g : GridResult) : JsValue :=
  if valueTruthy (gridSize g) then gridSize g else JsNum 13%float.

Definition csvDistance (g : GridResult) : JsValue :=
  if valueTruthy (distanceKm g) then distanceKm g else JsNum 2.5%float.

Section Parse.
(** ToNumber on a string (numeric-literal parsing, [NaN] otherwise). *)
Variable StringToNumber : string -> float.

(** [Number(v)] *)
Definition toNumber (v : JsValue) : float :=
  match v with
  | JsUndefined => PrimFloat.nan
  | JsNull => 0%float
  | JsNum x => x
  | JsStr s => StringToNumber s
  end.

(** [gridResult.businessInfo?.location?.lat] *)
Definition latField (g : GridResult) : JsValue :=
  match businessInfo g with
  | None => JsUndefined
  | Some b => match location b with
              | None => JsUndefined
              | Some l => loc_lat l
              end
  end.

Definition lngField (g : GridResult) : JsValue :=
  match businessInfo g with
  | None => JsUndefined
  | Some b => match location b with
              | None => JsUndefined
              | Some l => loc_lng l
              end
  end.

(** [Number(gridResult.gridSize) || 13] *)
Definition viewGridSize (g : GridResult) : float :=
  orDefault (toNumber (gridSize g)) 13%float.

(** [Number(gridResult.distanceKm) || 2.5] *)
Definition viewDistance (g : GridResult) : float :=
  orDefault (toNumber (distanceKm g)) 2.5%float.

(** [Array.isArray(gridResult.gridData) ? gridResult.gridData : []] *)
Definition viewGridData (g : GridResult) : list (list Z) :=
  arrayOrEmpty (gridData g).

Definition viewLocation (g : GridResult) : LatLng float :=
  {| lat := orDefault (toNumber (latField g)) 0%float;
     lng := orDefault (toNumber (lngField g)) 0%float |}.
End Parse.
End Props.

(** ** The ranking classifier of the specification

    Label [r.toString()] for ranks 1..20, label "20+", the gray colour and
    the bottom z-order tier for ranks above 20; z-order strictly decreasing
    in the rank over 1..20. *)

Module RankingSpec.

Definition gray : string := "#9E9E9E".

Definition classifies (label color : Z -> string) (zOrder : Z -> Z) : Prop :=
  (forall r, 1 <= r <= 20 -> label r = toString r)%Z
  /\ label 1%Z = "1"%string /\ label 20%Z = "20"%string
  /\ (forall r, 20 < r -> label r = "20+"%string)%Z
  /\ (forall r, 20 < r -> color r = gray)%Z
  /\ (forall r r', 20 < r -> 1 <= r' <= 20 -> zOrder r < zOrder r')%Z.

Definition betterRankOnTop (zOrder : Z -> Z) : Prop :=
  (forall r1 r2, 0 < r1 -> r1 < r2 -> r2 <= 20 -> zOrder r1 > zOrder r2)%Z.

End RankingSpec.

(** ** Reference inputs *)

(** The grid of the specification's test: size 13, spacing 2.5, centre
    (40, -74). *)
Definition referenceCenter : LatLng float :=
  {| lat := 40%float; lng := (-74)%float |}.

(** [40 * pi / 180] as the program computes it, and the doubles within one
    unit in the last place of its cosine. *)
Definition referenceLatRadians : float := 0x1.657184ae74487p-1%float.
Definition referenceCosines : list float :=
  [0x1.8836fa2cf5038p-1%float; 0x1.8836fa2cf5039p-1%float;
   0x1.8836fa2cf503ap-1%float].


(** ** The input validation of the specification

    Malformed input: non-finite centre coordinates, non-positive grid size or
    spacing; to be rejected with an error raised to the caller. *)

Module ValidationSpec.



End ValidationSpec.

(** ** GoogleMap.initializeMap: the other overlays *)

Module GoogleMapOverlay.

(** [zIndex: 1000] of the marker at the centre ("Ensure it's above all
    other markers"). *)
Definition businessMarkerZIndex : Z := 1000.

(** [zIndex: 1] of the service-area circle. *)
Definition serviceAreaZIndex : Z := 1.

End GoogleMapOverlay.

(** ** Sequencing computations that may throw *)

Definition bind {A B : Type} (o : Outcome A) (k : A -> Outcome B) : Outcome B :=
  match o with
  | Returned a => k a
  | Threw message => Threw message
  end.

(** A [for] loop over [l] whose body appends to an output and may throw:
    the first exception ends the loop. *)
Fixpoint forEachM {A B : Type} (l : list A) (body : A -> Outcome (list B))
  : Outcome (list B) :=
  match l with
  | [] => Returned []
  | x :: rest =>
    bind (body x) (fun out =>
    bind (forEachM rest body) (fun outs => Returned (out ++ outs)))
  end.

(** ** DetailedGridView.handleOpenPNG (first two copies): the canvas drawing *)

Module PNG.
Local Open Scope Z_scope.

Inductive DrawOp : Type :=
| FillRect (fillStyle : string) (x y w h : Z)
| StrokeRect (strokeStyle : string) (x y w h : Z)
| FillText (fillStyle text : string) (x y : Z)
| FillCircle (fillStyle strokeStyle : string) (cx cy radius : Z).

Definition cellSize : Z := 40.
Definition padding : Z := 20.

(** [gridSize * cellSize + padding * 2] *)
Definition canvasWidth (gridSize : Z) : Z := gridSize * cellSize + padding * 2.

(** [gridSize * cellSize + padding * 2 + 60] *)
Definition canvasHeight (gridSize : Z) : Z :=
  gridSize * cellSize + padding * 2 + 60.

Definition cellX (j : Z) : Z := j * cellSize + padding.
Definition cellY (i : Z) : Z := i * cellSize + padding + 60.

(** [ranking === 0 ? "#F3F4F6" : getRankingColor(ranking)]; on [undefined]
    every comparison of [getRankingColor] is false and its fallback
    applies. *)
Definition cellFill (ranking : option Z) : string :=
  match ranking with
  | Some r =>
    if (r =? 0)%Z then "#F3F4F6"
    else DetailedGridViewMarkers.getRankingColor r
  | None => "#ef4444"
  end.

(** [if (ranking > 0) ... formatRankingLabel(ranking)] *)
Definition cellText (ranking : option Z) : option string :=
  match ranking with
  | Some r =>
    if (r >? 0)%Z then Some (DetailedGridViewMarkers.formatRankingLabel r)
    else None
  | None => None
  end.

(** The body of the nested loops.  [gridData[i][j]] throws a TypeError
    when row [i] is missing and is [undefined] when only the entry is. *)
Definition drawCell (gridData : list (list Z)) (i j : Z)
  : Outcome (list DrawOp) :=
  let x := cellX j in
  let y := cellY i in
  match at_index gridData i with
  | None => Threw "TypeError"
  | Some row =>
    let ranking := at_index row j in
    Returned
      ([FillRect (cellFill ranking) x y cellSize cellSize;
        StrokeRect "#FFFFFF" x y cellSize cellSize]
       ++ match cellText ranking with
          | Some text =>
            [FillText "#FFFFFF" text (x + cellSize / 2) (y + cellSize / 2)]
          | None => []
          end)
  end.

Definition dquote : string := String (ascii_of_nat 34) EmptyString.

(** The drawing of [handleOpenPNG]; an exception ends it (the first copy
    catches it and alerts, nothing is downloaded). *)
Definition handleOpenPNG (name searchTerm : string) (gridSize : Z)
    (gridData : list (list Z)) : Outcome (list DrawOp) :=
  let width := canvasWidth gridSize in
  let height := canvasHeight gridSize in
  let background := FillRect "#FFFFFF" 0 0 width height in
  let title :=
    FillText "#000000"
             (name ++ " - " ++ dquote ++ searchTerm ++ dquote)%string
             (width / 2) 30 in
  bind (forEachM (range gridSize) (fun i =>
          forEachM (range gridSize) (fun j => drawCell gridData i j)))
       (fun cells =>
  let centerX := (gridSize / 2)%Z in
  let centerY := (gridSize / 2)%Z in
  let markerX := centerX * cellSize + padding + cellSize / 2 in
  let markerY := centerY * cellSize + padding + 60 + cellSize / 2 in
  Returned (background :: title :: cells
            ++ [FillCircle "#3B82F6" "#FFFFFF" markerX markerY 8])).

(** The rectangle a shape covers, as (x0, y0, x1, y1).  The
    extent of a text depends on the font metrics, which are not
    modelled: a text has no box here, only its anchor point. *)
Definition shapeBox (op : DrawOp) : option (Z * Z * Z * Z) :=
  match op with
  | FillRect _ x y w h | StrokeRect _ x y w h => Some (x, y, x + w, y + h)
  | FillCircle _ _ cx cy r => Some (cx - r, cy - r, cx + r, cy + r)
  | FillText _ _ _ _ => None
  end.

(** The point [fillText] is given ([textAlign] is "center"). *)
Definition textAnchor (op : DrawOp) : option (Z * Z) :=
  match op with
  | FillText _ _ x y => Some (x, y)
  | _ => None
  end.

Definition boxOnCanvas (width height : Z) (box : Z * Z * Z * Z) : Prop :=
  let '(x0, y0, x1, y1) := box in
  0 <= x0 /\ x1 <= width /\ 0 <= y0 /\ y1 <= height.

Definition isCellBorder (op : DrawOp) : bool :=
  match op with StrokeRect _ _ _ _ _ => true | _ => false end.

End PNG.

(** ** DetailedGridView (third copy): the 5 x 5 thumbnail of the grid *)

Module Thumbnail.
Local Open Scope Z_scope.

(** [Math.floor(rowIndex * gridSize / 5)] *)
Definition sampleIndex (gridSize k : Z) : Z := k * gridSize / 5.

(** [gridData[r] && gridData[r][c] ? gridData[r][c] : 0] *)
Definition sampledRanking (gridData : list (list Z)) (gridSize : Z)
    (rowIndex colIndex : Z) : Z :=
  let fullRowIndex := sampleIndex gridSize rowIndex in
  let fullColIndex := sampleIndex gridSize colIndex in
  match at_index gridData fullRowIndex with
  | None => 0
  | Some row =>
    match at_index row fullColIndex with
    | None => 0
    | Some r => if r =? 0 then 0 else r
    end
  end.

(** [ranking === 0 ? '#F3F4F6' : getRankingColor(ranking)] *)
Definition cellColor (gridData : list (list Z)) (gridSize : Z)
    (rowIndex colIndex : Z) : string :=
  let ranking := sampledRanking gridData gridSize rowIndex colIndex in
  if ranking =? 0 then "#F3F4F6"
  else DetailedGridViewMarkers.getRankingColor ranking.

(** The 25 cells, row by row; [None] is the empty placeholder shown when
    the matrix has no row. *)
Definition cells (gridData : list (list Z)) (gridSize : Z)
  : option (list (list string)) :=
  if Z.of_nat (List.length gridData) >? 0
  then Some (map (fun rowIndex =>
                    map (fun colIndex =>
                           cellColor gridData gridSize rowIndex colIndex)
                        (range 5))
                 (range 5))
  else None.

End Thumbnail.

(** ** DetailedGridView.handleCompetitorsView (third copy): what to search *)

Module CompetitorQuery.

(** [['establishment', 'point_of_interest', 'business']] *)
Definition genericTypes : list string :=
  ["establishment"; "point_of_interest"; "business"]%string.

Definition isGeneric (type : string) : bool :=
  existsb (String.eqb type) genericTypes.

(** [types.filter(type => !generic.includes(type))] *)
Definition mainTypes (types : list string) : list string :=
  filter (fun type => negb (isGeneric type)) types.

(** [mainTypes.length > 0 ? mainTypes[0] : types[0]], for a place-details
    answer with a non-empty [types]. *)
Definition typeFromDetails (types : list string) : option string :=
  match types with
  | [] => None
  | first :: _ =>
    match mainTypes types with
    | main :: _ => Some main
    | [] => Some first
    end
  end.

(** [businessType]: the stored type if any; otherwise, when the business
    has a place id, the type read from its details ([details] is [None]
    when the request fails or carries no types). *)
Definition businessType (stored : string) (hasPlaceId : bool)
    (details : option (list string)) : string :=
  if negb (String.eqb stored "") then stored
  else if hasPlaceId then
    match details with
    | Some types =>
      match typeFromDetails types with
      | Some type => type
      | None => ""
      end
    | None => ""
    end
  else "".

(** [businessType || gridResult.searchTerm] *)
Definition searchQuery (businessType searchTerm : string) : string :=
  if negb (String.eqb businessType "") then businessType else searchTerm.

End CompetitorQuery.

(** ** JSON values, as the route handlers receive and build them *)

Module Js.

#[warnings="-register-all"] Inductive Json : Type :=
| JUndefined
| JNull
| JBool (b : bool)
| JNumber (x : float)
| JString (s : string)
| JArray (items : list Json)
| JObject (fields : list (string * Json)).

(** ToBoolean *)
Definition truthy (v : Json) : bool :=
  match v with
  | JUndefined | JNull => false
  | JBool b => b
  | JNumber x => Props.truthy x
  | JString s => negb (String.eqb s "")
  | JArray _ | JObject _ => true
  end.

Fixpoint lookup (key : string) (fields : list (string * Json)) : option Json :=
  match fields with
  | [] => None
  | (k, v) :: rest => if String.eqb k key then Some v else lookup key rest
  end.

(** [key in v], for a data key such as ['lat'], on a value whose [typeof]
    is ['object'] and that is not [null]. *)
Definition hasProperty (key : string) (v : Json) : bool :=
  match v with
  | JObject fields =>
    match lookup key fields with Some _ => true | None => false end
  | _ => false
  end.

(** [v.key] for a data key, on a value that is neither [null] nor
    [undefined]: [undefined] when there is no such property. *)
Definition get (key : string) (v : Json) : Json :=
  match v with
  | JObject fields =>
    match lookup key fields with Some x => x | None => JUndefined end
  | _ => JUndefined
  end.

(** [typeof v === 'object'] *)
Definition typeofObject (v : Json) : bool :=
  match v with
  | JNull | JArray _ | JObject _ => true
  | _ => false
  end.

(** [v || d] *)
Definition orElse (v d : Json) : Json := if truthy v then v else d.

(** [const { ... } = body]: reading the fields of [null] or [undefined]
    throws, any other value without the field gives [undefined]. *)
Definition field (key : string) (body : Json) : Outcome Json :=
  match body with
  | JUndefined | JNull => Threw "TypeError"
  | _ => Returned (get key body)
  end.

Section Coercions.
(** ToNumber on a string, ToString on a number, and the conversions of
    an array or object, which run its [toString]/[valueOf] and may
    throw. *)
Variable StringToNumber : string -> float.
Variable NumberToString : float -> string.
Variable ObjectToNumber : Json -> Outcome float.
Variable ObjectToString : Json -> Outcome string.

Definition toNumber (v : Json) : Outcome float :=
  match v with
  | JUndefined => Returned PrimFloat.nan
  | JNull => Returned 0%float
  | JBool b => Returned (if b then 1%float else 0%float)
  | JNumber x => Returned x
  | JString s => Returned (StringToNumber s)
  | JArray _ | JObject _ => ObjectToNumber v
  end.

(** The conversion a template literal applies to [${v}]. *)
Definition toString (v : Json) : Outcome string :=
  match v with
  | JUndefined => Returned "undefined"%string
  | JNull => Returned "null"%string
  | JBool b => Returned (if b then "true" else "false")%string
  | JNumber x => Returned (NumberToString x)
  | JString s => Returned s
  | JArray _ | JObject _ => ObjectToString v
  end.

(** [v > bound] against a number. *)
Definition greaterThan (v : Json) (bound : float) : Outcome bool :=
  bind (toNumber v) (fun n => Returned (PrimFloat.ltb bound n)).
End Coercions.

End Js.

(** ** The places-search route handlers *)

Module PlacesApi.
Import Js.

(** What a handler answers: [NextResponse.json(body, { status })]. *)
Inductive Body : Type :=
| ErrorBody (error : string)
| ResultsBody (results : list Json)
| PageBody (results : list Json) (nextPageToken : Json).

Record HttpResponse : Type := mkResponse { status : Z; body : Body }.

(** The answer of the Places API: [response.data]. *)
Record Reply : Type := mkReply {
  reply_status : string;
  reply_results : list Json;
  next_page_token : Json
}.

(** [!process.env.NEXT_PUBLIC_GOOGLE_MAPS_API_KEY] *)
Definition keyMissing (key : option string) : bool :=
  match key with
  | None => true
  | Some k => String.eqb k ""
  end.

Definition keyOf (key : option string) : string :=
  match key with Some k => k | None => "" end.

(** [!location || typeof location !== 'object' || !('lat' in location)
    || !('lng' in location)], negated. *)
Definition validLocation (location : Json) : bool :=
  truthy location && typeofObject location
  && hasProperty "lat" location && hasProperty "lng" location.

(** [typeof radius === 'number' && radius > 0 && radius <= 50000
    ? radius : 5000] *)
Definition validRadius (radius : Json) : float :=
  match radius with
  | JNumber r =>
    if PrimFloat.ltb 0 r && PrimFloat.leb r 50000 then r else 5000%float
  | _ => 5000%float
  end.

(** The [switch] on a status other than ['OK']. *)
Definition statusResponse (status : string) : HttpResponse :=
  if String.eqb status "ZERO_RESULTS" then mkResponse 200 (ResultsBody [])
  else if String.eqb status "OVER_QUERY_LIMIT" then
    mkResponse 429
      (ErrorBody "API query limit exceeded. Please try again later.")
  else if String.eqb status "REQUEST_DENIED" then
    mkResponse 403
      (ErrorBody "API request was denied. Please check API key configuration.")
  else if String.eqb status "INVALID_REQUEST" then
    mkResponse 400 (ErrorBody "Invalid request parameters.")
  else if String.eqb status "UNKNOWN_ERROR" then
    mkResponse 500
      (ErrorBody
         "Google Places API encountered an unknown error. Please try again.")
  else mkResponse 500 (ErrorBody ("Google Places API error: " ++ status)).

Definition configurationError : HttpResponse :=
  mkResponse 500 (ErrorBody "API configuration error").
Definition invalidLocation : HttpResponse :=
  mkResponse 400
    (ErrorBody "Invalid location format. Must provide {lat, lng} object").
Definition connectionFailed : HttpResponse :=
  mkResponse 500 (ErrorBody "Failed to connect to Google Places API").
Definition processingFailed : HttpResponse :=
  mkResponse 500 (ErrorBody "Failed to process search request").

(** [array.map(f)] with a callback that may throw. *)
Fixpoint mapM {A B : Type} (f : A -> Outcome B) (l : list A)
  : Outcome (list B) :=
  match l with
  | [] => Returned []
  | x :: rest =>
    bind (f x) (fun y => bind (mapM f rest) (fun ys => Returned (y :: ys)))
  end.

(** [place.key] *)
Definition pick (key : string) (place : Json) : Outcome (string * Json) :=
  bind (field key place) (fun v => Returned (key, v)).

(** The photo objects of a place: [photo => ({ photo_reference, height,
    width, html_attributions })]. *)
Definition formatPhoto (photo : Json) : Outcome Json :=
  bind (mapM (fun key => pick key photo)
             ["photo_reference"; "height"; "width"; "html_attributions"]%string)
       (fun fields => Returned (JObject fields)).

(** [place.photos ? place.photos.map(...) : []] *)
Definition formatPhotos (place : Json) : Outcome (string * Json) :=
  bind (field "photos" place) (fun photos =>
  if truthy photos then
    match photos with
    | JArray items =>
      bind (mapM formatPhoto items) (fun out =>
      Returned ("photos"%string, JArray out))
    | _ => Threw "TypeError"
    end
  else Returned ("photos"%string, JArray [])).

(** What a handler did: the requests it sent to the Places API, in
    order, and its answer. *)
Record Handled (Call : Type) : Type := mkHandled {
  calls : list Call;
  response : HttpResponse
}.

End PlacesApi.

(** *** The first version of the route: nearby search only *)

Module PlacesSearchV1.
Import Js PlacesApi.

(** The [params] of [client.placesNearby]. *)
Record Params : Type := mkParams {
  key : string;
  location : string;
  radius : float;
  keyword : Json;
  type : string
}.

(** [place => ({ name, place_id, rating, user_ratings_total, vicinity,
    types })] *)
Definition formatPlace (place : Json) : Outcome Json :=
  bind (mapM (fun k => pick k place)
             ["name"; "place_id"; "rating"; "user_ratings_total";
              "vicinity"; "types"]%string)
       (fun fields => Returned (JObject fields)).

Section Handler.
Variable NumberToString : float -> string.
Variable ObjectToString : Json -> Outcome string.
(** [client.placesNearby], which may reject. *)
Variable placesNearby : Params -> Outcome Reply.

Definition str : Json -> Outcome string :=
  Js.toString NumberToString ObjectToString.

(** [`${location.lat},${location.lng}`] *)
Definition locationString (location : Json) : Outcome string :=
  bind (str (get "lat" location)) (fun lat =>
  bind (str (get "lng" location)) (fun lng =>
  Returned (lat ++ "," ++ lng)%string)).

(** The inner [try] once the API has answered. *)
Definition answer (reply : Outcome Reply) : HttpResponse :=
  match reply with
  | Threw _ => connectionFailed
  | Returned data =>
    if negb (String.eqb (reply_status data) "OK")
    then statusResponse (reply_status data)
    else
      match mapM formatPlace (reply_results data) with
      | Threw _ => connectionFailed
      | Returned results => mkResponse 200 (ResultsBody results)
      end
  end.

(** [POST]: [apiKey] is the environment variable, [json] the outcome of
    [request.json()]. *)
Definition POST (apiKey : option string) (json : Outcome Json)
  : Handled Params :=
  let fields :=
    bind json (fun b =>
    bind (field "query" b) (fun query =>
    bind (field "location" b) (fun location =>
    bind (field "radius" b) (fun radius =>
    Returned (query, location, radius))))) in
  match fields with
  | Threw _ => mkHandled [] processingFailed
  | Returned (query, location, radius) =>
    if keyMissing apiKey then mkHandled [] configurationError
    else if negb (validLocation location) then mkHandled [] invalidLocation
    else
      let validRadius := validRadius radius in
      match bind (locationString location) (fun locationString =>
            bind (str query) (fun _ => Returned locationString)) with
      | Threw _ => mkHandled [] processingFailed
      | Returned locationString =>
        let params :=
          mkParams (keyOf apiKey) locationString validRadius query
                   "establishment" in
        mkHandled [params] (answer (placesNearby params))
      end
  end.
End Handler.
End PlacesSearchV1.

(** *** The route with text search, paging and ranking by distance *)

Module PlacesSearch.
Import Js PlacesApi.

(** The [params] of [client.textSearch]. *)
Record TextParams : Type := mkTextParams {
  text_key : string;
  text_query : Json;
  text_pagetoken : option Json;
  text_location : option string;
  text_radius : option float
}.

(** The [params] of [client.placesNearby]; [None] is a key that was never
    assigned. *)
Record NearbyParams : Type := mkNearbyParams {
  key : string;
  location : string;
  type : Json;
  pagetoken : option Json;
  rankby : option string;
  radius : option float;
  keyword : option Json
}.

Inductive Call : Type :=
| TextSearch (params : TextParams)
| PlacesNearby (params : NearbyParams).

Record Fields : Type := mkFields {
  f_query : Json;
  f_location : Json;
  f_radius : Json;
  f_type : Json;
  f_rankBy : Json;
  f_pageToken : Json
}.

(** [const { query, location, radius, type, rankBy, pageToken } = ...] *)
Definition destructure (b : Json) : Outcome Fields :=
  bind (field "query" b) (fun query =>
  bind (field "location" b) (fun location =>
  bind (field "radius" b) (fun radius =>
  bind (field "type" b) (fun type =>
  bind (field "rankBy" b) (fun rankBy =>
  bind (field "pageToken" b) (fun pageToken =>
  Returned (mkFields query location radius type rankBy pageToken))))))).

(** The places of a text search. *)
Definition formatTextPlace (place : Json) : Outcome Json :=
  bind (mapM (fun k => pick k place)
             ["name"; "place_id"; "rating"; "user_ratings_total";
              "vicinity"; "formatted_address"; "types"; "geometry"]%string)
       (fun fields =>
  bind (formatPhotos place) (fun photos =>
  bind (pick "opening_hours" place) (fun hours =>
  Returned (JObject (fields ++ [photos; hours]))))).

(** The places of a nearby search. *)
Definition formatNearbyPlace (place : Json) : Outcome Json :=
  bind (mapM (fun k => pick k place)
             ["name"; "place_id"; "rating"; "user_ratings_total";
              "vicinity"; "types"; "geometry"]%string)
       (fun fields =>
  bind (formatPhotos place) (fun photos =>
  Returned (JObject (fields ++ [photos])))).

(** [{ results: ..., nextPageToken: response.data.next_page_token || null }] *)
Definition page (format : Json -> Outcome Json) (data : Reply)
  : HttpResponse :=
  match mapM format (reply_results data) with
  | Threw _ => connectionFailed
  | Returned results =>
    mkResponse 200 (PageBody results (orElse (next_page_token data) JNull))
  end.

(** The inner [try] of the text search once the API has answered. *)
Definition answerText (reply : Outcome Reply) : HttpResponse :=
  match reply with
  | Threw _ => connectionFailed
  | Returned data =>
    if negb (String.eqb (reply_status data) "OK")
       && negb (String.eqb (reply_status data) "ZERO_RESULTS")
    then statusResponse (reply_status data)
    else page formatTextPlace data
  end.

(** The inner [try] of the nearby search once the API has answered. *)
Definition answerNearby (reply : Outcome Reply) : HttpResponse :=
  match reply with
  | Threw _ => connectionFailed
  | Returned data =>
    if negb (String.eqb (reply_status data) "OK")
    then statusResponse (reply_status data)
    else page formatNearbyPlace data
  end.

(** [query.trim()]: only a string has the method. *)
Definition trimmed (trim : string -> string) (query : Json)
  : Outcome string :=
  match query with
  | JString s => Returned (trim s)
  | _ => Threw "TypeError"
  end.

(** [rankBy === 'distance'] *)
Definition byDistance (rankBy : Json) : bool :=
  match rankBy with
  | JString s => String.eqb s "distance"
  | _ => false
  end.

Section Handler.
Variable StringToNumber : string -> float.
Variable NumberToString : float -> string.
Variable ObjectToNumber : Json -> Outcome float.
Variable ObjectToString : Json -> Outcome string.
(** [s.trim()] *)
Variable trim : string -> string.
(** The two requests of the client, which may reject. *)
Variable textSearch : TextParams -> Outcome Reply.
Variable placesNearby : NearbyParams -> Outcome Reply.

Definition str : Json -> Outcome string :=
  Js.toString NumberToString ObjectToString.

(** [`${location.lat},${location.lng}`] *)
Definition locationString (location : Json) : Outcome string :=
  bind (str (get "lat" location)) (fun lat =>
  bind (str (get "lng" location)) (fun lng =>
  Returned (lat ++ "," ++ lng)%string)).

(** [query && (!location || radius > 50000)] *)
Definition isNationwideSearch (f : Fields) : Outcome bool :=
  if negb (truthy (f_query f)) then Returned false
  else if negb (truthy (f_location f)) then Returned true
  else Js.greaterThan StringToNumber ObjectToNumber (f_radius f) 50000.

(** The [params] of the text search. *)
Definition textParams (apiKey : option string) (f : Fields)
  : Outcome TextParams :=
  let pagetoken :=
    if truthy (f_pageToken f) then Some (f_pageToken f) else None in
  if truthy (f_location f)
     && truthy (get "lat" (f_location f))
     && truthy (get "lng" (f_location f))
  then
    bind (locationString (f_location f)) (fun location =>
    Returned (mkTextParams (keyOf apiKey) (f_query f) pagetoken
                           (Some location) (Some 50000%float)))
  else
    Returned (mkTextParams (keyOf apiKey) (f_query f) pagetoken None None).

(** The [params] of the nearby search. *)
Definition nearbyParams (apiKey : option string) (f : Fields)
    (locationString : string) (validRadius : float)
  : Outcome NearbyParams :=
  let type := orElse (f_type f) (JString "establishment") in
  if truthy (f_pageToken f) then
    Returned (mkNearbyParams (keyOf apiKey) locationString type
                             (Some (f_pageToken f)) None None None)
  else
    let ranked :=
      if byDistance (f_rankBy f) then
        (Some "distance"%string,
         if negb (truthy (f_query f)) && negb (truthy (f_type f))
         then JString "establishment" else type,
         None)
      else (None, type, Some validRadius) in
    let '(rankby, type, radius) := ranked in
    bind (if truthy (f_query f)
          then bind (trimmed trim (f_query f)) (fun t =>
               Returned (if negb (String.eqb t "")
                         then Some (f_query f) else None))
          else Returned None) (fun keyword =>
    Returned (mkNearbyParams (keyOf apiKey) locationString type
                             None rankby radius keyword)).

Definition textBranch (apiKey : option string) (f : Fields)
  : Handled Call :=
  match str (f_query f) with
  | Threw _ => mkHandled [] processingFailed
  | Returned _ =>
    match textParams apiKey f with
    | Threw _ => mkHandled [] connectionFailed
    | Returned params =>
      mkHandled [TextSearch params] (answerText (textSearch params))
    end
  end.

Definition nearbyBranch (apiKey : option string) (f : Fields)
  : Handled Call :=
  if negb (validLocation (f_location f)) then mkHandled [] invalidLocation
  else
    let validRadius := validRadius (f_radius f) in
    match bind (locationString (f_location f)) (fun locationString =>
          bind (str (orElse (f_query f) (JString "nearby businesses")))
               (fun _ =>
          bind (if truthy (f_type f) then str (f_type f)
                else Returned ""%string) (fun _ =>
          Returned locationString))) with
    | Threw _ => mkHandled [] processingFailed
    | Returned locationString =>
      match nearbyParams apiKey f locationString validRadius with
      | Threw _ => mkHandled [] connectionFailed
      | Returned params =>
        mkHandled [PlacesNearby params]
                  (answerNearby (placesNearby params))
      end
    end.

(** [POST]: [apiKey] is the environment variable, [json] the outcome of
    [request.json()]. *)
Definition POST (apiKey : option string) (json : Outcome Json)
  : Handled Call :=
  match bind json destructure with
  | Threw _ => mkHandled [] processingFailed
  | Returned f =>
    if keyMissing apiKey then mkHandled [] configurationError
    else
      match isNationwideSearch f with
      | Threw _ => mkHandled [] processingFailed
      | Returned true => textBranch apiKey f
      | Returned false => nearbyBranch apiKey f
      end
  end.
End Handler.

(** The request a recorded call stands for. *)
Definition send (textSearch : TextParams -> Outcome Reply)
    (placesNearby : NearbyParams -> Outcome Reply) (call : Call)
  : Outcome Reply :=
  match call with
  | TextSearch params => textSearch params
  | PlacesNearby params => placesNearby params
  end.
End PlacesSearch.

(** ** The competitor lists of DetailedGridView *)

Module Competitors.
Import Js.
Local Open Scope Z_scope.

(** [JSON.stringify] followed by [request.json()] on a number: [NaN] and
    the infinities become [null], [-0] becomes [0]. *)
Definition jsonNumber (x : float) : Json :=
  if PrimFloat.is_finite x
  then if PrimFloat.is_zero x then JNumber 0 else JNumber x
  else JNull.

Definition jsonLocation (location : LatLng float) : Json :=
  JObject [("lat", jsonNumber (lat location));
           ("lng", jsonNumber (lng location))]%string.

(** The body [handleCompetitorsView] posts to the places-search route
    (third copy of the component).  [location] is what
    [gridResult.businessInfo.location] is after [JSON.stringify] and
    [request.json()]: [None] when it is [undefined], in which case the
    body has no such key. *)
Definition competitorsViewBody (businessType searchTerm : string)
    (location : option Json) : Json :=
  JObject ([("query"%string,
             JString (CompetitorQuery.searchQuery businessType searchTerm))]
           ++ match location with
              | Some value => [("location"%string, value)]
              | None => []
              end
           ++ [("type"%string, JString businessType);
               ("rankBy"%string, JString "distance")])%list.

(** The body posted when a grid marker is clicked (first copy of the
    component). *)
Definition markerClickBody (searchTerm : string) (gridPoint : LatLng float)
  : Json :=
  JObject [("query", JString searchTerm);
           ("location", jsonLocation gridPoint);
           ("radius", JNumber 1500);
           ("rankBy", JString "prominence")]%string.

(** A processed result: the place it was built from and its
    [ranking: index + 1]; its other fields are read off the place. *)
Record Competitor (Place : Type) : Type := mkCompetitor {
  place : Place;
  ranking : Z
}.

(** [competitorResults.map((place, index) => ({ ..., ranking: index + 1 }))] *)
Definition results {Place : Type} (competitorResults : list Place)
  : list (Competitor Place) :=
  forEach (fun place index => [mkCompetitor place (index + 1)])
          competitorResults.

(** [array.sort(compare)] for a consistent comparator: a stable sort. *)
Fixpoint insert {A : Type} (compare : A -> A -> Z) (x : A) (l : list A)
  : list A :=
  match l with
  | [] => [x]
  | y :: rest =>
    if compare x y <=? 0 then x :: l else y :: insert compare x rest
  end.

Definition sort {A : Type} (compare : A -> A -> Z) (l : list A) : list A :=
  fold_right (insert compare) [] l.

(** [(a, b) => a.ranking - b.ranking] *)
Definition byRanking {Place : Type} (a b : Competitor Place) : Z :=
  ranking a - ranking b.

(** [handleCompetitorsView]:
    [[...results].sort(byRanking).slice(0, 20)] *)
Definition topResults {Place : Type} (competitorResults : list Place)
  : list (Competitor Place) :=
  firstn 20 (sort byRanking (results competitorResults)).

(** The marker click: [results.sort((a, b) => a.distance - b.distance)]
    then [results.slice(0, 20)]; [sorted] is the array after the sort. *)
Definition nearest {Place : Type} (sorted : list (Competitor Place))
  : list (Competitor Place) :=
  firstn 20 sorted.

End Competitors.

(** ** The place-photo route *)

Module PlacePhoto.

(** The answer of [fetch(googleUrl)]: [ok], the outcome of
    [arrayBuffer()] and the [content-type] header. *)
Record Fetched (Bytes : Type) : Type := mkFetched {
  ok : bool;
  arrayBuffer : Outcome Bytes;
  contentType : option string
}.

Inductive Response (Bytes : Type) : Type :=
| JsonError (status : Z) (error : string)
| Redirect (url : string)
| Image (imageData : Bytes) (contentTypeHeader cacheControl : string).
Arguments JsonError {Bytes} _ _.
Arguments Redirect {Bytes} _.
Arguments Image {Bytes} _ _ _.

Record Handled (Bytes : Type) : Type := mkHandled {
  fetched : list string;
  response : Response Bytes
}.

(** [!s] on a string that may be [null] or [undefined]. *)
Definition missing (s : option string) : bool :=
  match s with
  | None => true
  | Some v => String.eqb v ""
  end.

(** [s || d] *)
Definition orString (s : option string) (d : string) : string :=
  match s with
  | None => d
  | Some v => if String.eqb v "" then d else v
  end.

Definition googleUrl (photoReference maxWidth maxHeight key : string)
  : string :=
  ("https://maps.googleapis.com/maps/api/place/photo?photoreference="
     ++ photoReference ++ "&maxwidth=" ++ maxWidth
     ++ "&maxheight=" ++ maxHeight ++ "&key=" ++ key)%string.

Section Handler.
Variable Bytes : Type.
Variable fetch : string -> Outcome (Fetched Bytes).

(** [GET]: [apiKey] is the environment variable, the other arguments
    are [searchParams.get] of 'reference', 'maxwidth' and
    'maxheight'. *)
Definition GET (apiKey reference maxwidth maxheight : option string)
  : Handled Bytes :=
  let maxWidth := orString maxwidth "400" in
  let maxHeight := orString maxheight "400" in
  if missing reference
  then mkHandled [] (JsonError 400 "Missing photo reference")
  else if missing apiKey
  then mkHandled [] (JsonError 500 "Missing API key")
  else
    let url := googleUrl (orString reference "") maxWidth maxHeight
                         (orString apiKey "") in
    mkHandled [url]
      match fetch url with
      | Threw _ => JsonError 500 "Failed to fetch photo"
      | Returned answer =>
        if negb (ok answer)
        then Redirect "https://via.placeholder.com/150?text=No+Image"
        else
          match arrayBuffer answer with
          | Threw _ => JsonError 500 "Failed to fetch photo"
          | Returned imageData =>
            Image imageData (orString (contentType answer) "image/jpeg")
                  "public, max-age=86400"
          end
      end.
End Handler.
End PlacePhoto.

(** ** The place-details route *)

Module PlaceDetails.
Import Js.

Record Response : Type := mkResponse { status : Z; body : Json }.

Record Handled : Type := mkHandled {
  fetched : list string;
  response : Response
}.

(** [{ error: message }] *)
Definition errorBody (message : Json) : Json :=
  JObject [("error"%string, message)].

(** [`${apiKey}`] for the module constant read from the environment. *)
Definition keyString (apiKey : option string) : string :=
  match apiKey with Some k => k | None => "undefined" end.

Definition detailsUrl (placeId key : string) : string :=
  ("https://maps.googleapis.com/maps/api/place/details/json?place_id="
     ++ placeId
     ++ "&fields=name,rating,reviews,formatted_address,geometry,types,user_ratings_total&key="
     ++ key)%string.

(** [data.status !== 'OK'] *)
Definition notOK (status : Json) : bool :=
  match status with
  | JString s => negb (String.eqb s "OK")
  | _ => true
  end.

Section Handler.
Variable NumberToString : float -> string.
Variable ObjectToString : Json -> Outcome string.
(** [fetch(url)] followed by [response.json()]; either may reject. *)
Variable fetchJson : string -> Outcome Json.

Definition failed : Response :=
  mkResponse 500 (errorBody (JString "Failed to fetch place details")).

(** [POST]: [apiKey] is the environment variable, [json] the outcome of
    [request.json()]. *)
Definition POST (apiKey : option string) (json : Outcome Json) : Handled :=
  match bind json (field "placeId") with
  | Threw _ => mkHandled [] failed
  | Returned placeId =>
    if negb (truthy placeId)
    then mkHandled []
           (mkResponse 400 (errorBody (JString "Place ID is required")))
    else
      match Js.toString NumberToString ObjectToString placeId with
      | Threw _ => mkHandled [] failed
      | Returned id =>
        let url := detailsUrl id (keyString apiKey) in
        mkHandled [url]
          match fetchJson url with
          | Threw _ => failed
          | Returned data =>
            match field "status" data with
            | Threw _ => failed
            | Returned status =>
              if notOK status
              then mkResponse 400
                     (errorBody
                        (orElse (get "error_message" data)
                           (JString "Failed to fetch place details")))
              else mkResponse 200 data
            end
          end
      end
  end.
End Handler.
End PlaceDetails.

(** ** GridVisualization: which marker is drawn as the centre *)

Module GridVisualization.
Local Open Scope Z_scope.

(** [Math.floor(config.size * config.size / 2)] *)
Definition centerIndex (size : Z) : Z := size * size / 2.

(** [index === Math.floor(config.size * config.size / 2)] *)
Definition isCenter (size index : Z) : bool := index =? centerIndex size.

Definition iconUrl (size index : Z) : string :=
  if isCenter size index
  then "https://localviking.com/icons/preview-draggable.png"
  else "https://localviking.com/icons/preview-default.png".

Definition iconSize (size index : Z) : Z :=
  if isCenter size index then 24 else 16.

Definition title (size index : Z) : string :=
  if isCenter size index then "Center Point"
  else ("Grid Point " ++ toString index)%string.

End GridVisualization.

(** ** handleCSVDownload (first two copies): the fallbacks it recomputes *)

Module CsvFallback.
Import Binary64.
Section Parse.
Variable StringToNumber : string -> float.
Variable libm : MathLib float.
Local Open Scope js_scope.

(** The number the arithmetic sees for
    [const gridSize = gridResult.gridSize || 13], which is not passed
    through [Number(...)]: [gridSize - 1] converts it. *)
Definition gridSize (g : Props.GridResult) : float :=
  Props.toNumber StringToNumber (Props.csvGridSize g).

(** Likewise for [const distance = gridResult.distanceKm || 2.5]. *)
Definition distance (g : Props.GridResult) : float :=
  Props.toNumber StringToNumber (Props.csvDistance g).

(** [location.lat - (distance * latKmRatio * (gridSize - 1)) / 2], with the
    component's parsed [location]. *)
Definition startLat (g : Props.GridResult) : float :=
  lat (Props.viewLocation StringToNumber g)
  - (distance g * DetailedGridView.latKmRatio * (gridSize g - ofZ 1))
    / ofZ 2.

Definition startLng (g : Props.GridResult) : float :=
  lng (Props.viewLocation StringToNumber g)
  - (distance g
     * DetailedGridView.lngKmRatio (Props.viewLocation StringToNumber g)
     * (gridSize g - ofZ 1))
    / ofZ 2.

(** [startLat + rowIndex * distance * latKmRatio] *)
Definition rowLat (g : Props.GridResult) (rowIndex : Z) : float :=
  startLat g + ofZ rowIndex * distance g * DetailedGridView.latKmRatio.

Definition colLng (g : Props.GridResult) (colIndex : Z) : float :=
  startLng g
  + ofZ colIndex * distance g
    * DetailedGridView.lngKmRatio (Props.viewLocation StringToNumber g).
End Parse.
End CsvFallback.

(** * Properties *)

Import Exact Binary64.

Ltac unfold_grid :=
  unfold GoogleMap.gridPoint, GoogleMap.pointLat, GoogleMap.pointLng,
    GoogleMap.latOffset, GoogleMap.lngOffset,
    DetailedGridView.cellCoordinate, DetailedGridView.cellLat,
    DetailedGridView.cellLng, DetailedGridView.startLat,
    DetailedGridView.startLng, DetailedGridView.latKmRatio,
    DetailedGridView.lngKmRatio, GridSpec.specLat, GridSpec.specLng, dec.

Ltac exact_arith :=
  cbn [add sub mul div ofZ Math_PI Math_cos Math_sin Math_sqrt Math_atan2
       Exact.number Exact.math lat lng].

(** Distinct doubles are separated by a computation. *)
Lemma float_neq_by_eqb (x y : float) :
  PrimFloat.Leibniz.eqb x y = false -> PrimFloat.Leibniz.eqb y y = true ->
  x <> y.
Proof. intros E T ->. rewrite T in E. discriminate. Qed.

(** Settles [x <> y] between two closed binary64 expressions. *)
Ltac float_neq :=
  apply float_neq_by_eqb; vm_compute; reflexivity.

(** ** Sign laws of binary64 arithmetic

    Rounding to nearest is symmetric: negation commutes with multiplication
    and division, multiplication is commutative, and [x - y] is the negation
    of [y - x] unless both are [+0]. *)

Module FloatLaws.
Import SpecFloat FloatOps FloatAxioms.

Lemma binary_round_aux_opp (s : bool) (m e : Z) (l : location) :
  binary_round_aux prec emax (negb s) m e l
  = SFopp (binary_round_aux prec emax s m e l).
Proof.
  unfold binary_round_aux.
  destruct (shr_fexp prec emax m e l) as [mrs' e'].
  destruct (shr_fexp prec emax _ e' loc_Exact) as [mrs'' e''].
  destruct (shr_m mrs''); try reflexivity.
  destruct (Z.leb e'' (emax - prec)); reflexivity.
Qed.

Lemma binary_round_opp (s : bool) (m : positive) (e : Z) :
  binary_round prec emax (negb s) m e = SFopp (binary_round prec emax s m e).
Proof.
  unfold binary_round.
  destruct (shl_align m e _) as [mz ez]. apply binary_round_aux_opp.
Qed.

Lemma SFopp_involutive (x : spec_float) : SFopp (SFopp x) = x.
Proof. destruct x; simpl; rewrite ?negb_involutive; reflexivity. Qed.

Lemma SFmul_opp_l (x y : spec_float) :
  SF64mul (SFopp x) y = SFopp (SF64mul x y).
Proof.
  unfold SF64mul.
  destruct x as [sx | sx | | sx mx ex], y as [sy | sy | | sy my ey]; simpl;
    try reflexivity;
    try (destruct sx, sy; reflexivity).
  rewrite <- binary_round_aux_opp. f_equal. destruct sx, sy; reflexivity.
Qed.

Lemma SFmul_comm (x y : spec_float) : SF64mul x y = SF64mul y x.
Proof.
  unfold SF64mul.
  destruct x as [sx | sx | | sx mx ex], y as [sy | sy | | sy my ey]; simpl;
    try reflexivity;
    try (destruct sx, sy; reflexivity).
  rewrite (xorb_comm sx sy), (Pos.mul_comm mx my), (Z.add_comm ex ey).
  reflexivity.
Qed.

Lemma SFdiv_opp_l (x y : spec_float) :
  SF64div (SFopp x) y = SFopp (SF64div x y).
Proof.
  unfold SF64div.
  destruct x as [sx | sx | | sx mx ex], y as [sy | sy | | sy my ey]; simpl;
    try reflexivity;
    try (destruct sx, sy; reflexivity).
  destruct (SFdiv_core_binary prec emax (Z.pos mx) ex (Z.pos my) ey)
    as [[mz ez] lz].
  rewrite <- binary_round_aux_opp. f_equal. destruct sx, sy; reflexivity.
Qed.

(** Subtraction is antisymmetric, except that both differences of equal
    numbers are [+0]. *)
Lemma SFsub_antisym (x y : spec_float) :
  SF64sub y x = SFopp (SF64sub x y)
  \/ (SF64sub x y = S754_zero false /\ SF64sub y x = S754_zero false).
Proof.
  unfold SF64sub.
  destruct x as [sx | sx | | sx mx ex], y as [sy | sy | | sy my ey]; simpl;
    try (left; reflexivity);
    try (destruct sx, sy; simpl; auto; fail).
  rewrite (Z.min_comm ey ex).
  set (ez := Z.min ex ey).
  set (a := cond_Zopp sx (Z.pos (fst (shl_align mx ex ez)))).
  set (b := cond_Zopp sy (Z.pos (fst (shl_align my ey ez)))).
  replace (b - a)%Z with (- (a - b))%Z by lia.
  destruct (a - b)%Z as [| p | p]; simpl.
  - right. split; reflexivity.
  - left. apply (binary_round_opp false).
  - left. apply (binary_round_opp true).
Qed.

Lemma mul_opp_l (x y : float) :
  PrimFloat.mul (PrimFloat.opp x) y = PrimFloat.opp (PrimFloat.mul x y).
Proof.
  apply Prim2SF_inj. rewrite mul_spec, !opp_spec, mul_spec. apply SFmul_opp_l.
Qed.

Lemma mul_comm (x y : float) : PrimFloat.mul x y = PrimFloat.mul y x.
Proof. apply Prim2SF_inj. rewrite !mul_spec. apply SFmul_comm. Qed.

Lemma opp_involutive (x : float) : PrimFloat.opp (PrimFloat.opp x) = x.
Proof. apply Prim2SF_inj. rewrite !opp_spec. apply SFopp_involutive. Qed.

Lemma mul_opp_r (x y : float) :
  PrimFloat.mul x (PrimFloat.opp y) = PrimFloat.opp (PrimFloat.mul x y).
Proof. rewrite mul_comm, mul_opp_l, (mul_comm y x). reflexivity. Qed.

Lemma mul_opp_opp (x y : float) :
  PrimFloat.mul (PrimFloat.opp x) (PrimFloat.opp y) = PrimFloat.mul x y.
Proof. rewrite mul_opp_l, mul_opp_r. apply opp_involutive. Qed.

Lemma div_opp_l (x y : float) :
  PrimFloat.div (PrimFloat.opp x) y = PrimFloat.opp (PrimFloat.div x y).
Proof.
  apply Prim2SF_inj. rewrite div_spec, !opp_spec, div_spec. apply SFdiv_opp_l.
Qed.

Lemma sub_antisym (x y : float) :
  PrimFloat.sub y x = PrimFloat.opp (PrimFloat.sub x y)
  \/ (PrimFloat.sub x y = 0%float /\ PrimFloat.sub y x = 0%float).
Proof.
  destruct (SFsub_antisym (Prim2SF x) (Prim2SF y)) as [H | [H1 H2]].
  - left. apply Prim2SF_inj. rewrite opp_spec, !sub_spec. exact H.
  - right. split; apply Prim2SF_inj; rewrite sub_spec; assumption.
Qed.

(** The shape of a finite double. *)
Lemma finite_cases (x : float) :
  PrimFloat.is_finite x = true ->
  (exists s, Prim2SF x = S754_zero s)
  \/ (exists s m e, Prim2SF x = S754_finite s m e).
Proof.
  unfold PrimFloat.is_finite, PrimFloat.is_nan, PrimFloat.is_infinity.
  rewrite !FloatAxioms.eqb_spec, abs_spec.
  destruct (Prim2SF x) as [s | s | | s m e]; simpl; intros H.
  - left. eauto.
  - exfalso. destruct s; vm_compute in H; discriminate H.
  - discriminate H.
  - right. eauto.
Qed.

Lemma sub_diag (x : float) :
  PrimFloat.is_finite x = true -> PrimFloat.sub x x = 0%float.
Proof.
  intros H. apply Prim2SF_inj. rewrite sub_spec.
  change (Prim2SF 0) with (S754_zero false). unfold SF64sub.
  destruct (finite_cases x H) as [[s ->] | (s & m & e & ->)]; simpl.
  - destruct s; reflexivity.
  - rewrite Z.sub_diag. reflexivity.
Qed.

(** A finite product vanishes against two zero factors, and adds nothing
    to [+0]. *)
Lemma add_zero_mul_zero (p : float) :
  PrimFloat.is_finite p = true ->
  PrimFloat.add 0 (PrimFloat.mul (PrimFloat.mul p 0) 0) = 0%float.
Proof.
  intros H. apply Prim2SF_inj. rewrite add_spec, !mul_spec.
  change (Prim2SF 0) with (S754_zero false). unfold SF64add, SF64mul.
  destruct (finite_cases p H) as [[s ->] | (s & m & e & ->)]; simpl;
    destruct s; reflexivity.
Qed.
End FloatLaws.

(** ** Loop ranges *)

Lemma in_range (n k : Z) : In k (range n) <-> (0 <= k < n)%Z.
Proof.
  unfold range. rewrite in_map_iff. split.
  - intros (m & <- & H). apply in_seq in H. lia.
  - intros H. exists (Z.to_nat k). split; [lia |]. apply in_seq. lia.
Qed.

Lemma length_range (n : Z) : List.length (range n) = Z.to_nat n.
Proof. unfold range. now rewrite length_map, length_seq. Qed.

(** ** Grid coordinates *)

(** An odd size is [2 * floor(n/2) + 1]. *)
Lemma odd_half (n : Z) : Z.odd n = true -> (n = 2 * (n / 2) + 1)%Z.
Proof.
  intros O. apply Z.odd_spec in O. destruct O as [m ->].
  Z.to_euclidean_division_equations. lia.
Qed.

Lemma half_IZR (n : Z) :
  Z.odd n = true -> ((IZR n - 1) / 2 = IZR (n / 2))%R.
Proof.
  intros O. rewrite (odd_half n O) at 1.
  rewrite plus_IZR, mult_IZR. lra.
Qed.

(** In exact arithmetic the detailed view places cell [i] at
    [(i - (n-1)/2)] steps of [distance / 110.574] from the centre. *)
Lemma cellLat_exact (location : LatLng R) (distance : R) (n i : Z) :
  DetailedGridView.cellLat location distance n i
  = (lat location + (IZR i - (IZR n - 1) / 2) * distance / 110.574)%R.
Proof.
  unfold_grid. exact_arith. change (10 ^ 3)%Z with 1000%Z.
  unfold Rdiv. lra.
Qed.

Lemma cellLng_exact (location : LatLng R) (distance : R) (n j : Z) :
  DetailedGridView.cellLng location distance n j
  = (lng location
     + (IZR j - (IZR n - 1) / 2) * distance
       / (111.32 * cos (lat location * PI / 180)))%R.
Proof.
  unfold_grid. exact_arith. change (10 ^ 2)%Z with 100%Z.
  unfold Rdiv. rewrite !Rmult_1_l.
  replace (/ (111.32 * cos (lat location * PI * / 180)))%R
    with (/ (11132 * / 100 * cos (lat location * PI * / 180)))%R
    by (f_equal; lra).
  ring.
Qed.

(** C1 (as amended): in exact arithmetic, for an odd grid size the detailed
    view (CSV export and marker loops) computes the stated coordinate of cell
    [(i, j)]; [GoogleMap.initializeMap] computes, for every size, the same
    shape of formula with the constant 69 (miles per degree) in place of
    110.574 and 111.32. *)
Theorem C1_grid_coordinates (center : LatLng R) (n : Z) (s : R) (i j : Z) :
  (Z.odd n = true ->
   DetailedGridView.cellCoordinate center s n i j
   = {| lat := GridSpec.specLat center n s i;
        lng := GridSpec.specLng center n s j |})
  /\ GoogleMap.gridPoint center n s i j
     = {| lat := (lat center + IZR (i - n / 2) * s / 69)%R;
          lng := (lng center
                  + IZR (j - n / 2) * s
                    / (69 * cos (lat center * PI / 180)))%R |}.
Proof.
  split.
  - intros O. unfold DetailedGridView.cellCoordinate.
    rewrite cellLat_exact, cellLng_exact, (half_IZR n O).
    unfold GridSpec.specLat, GridSpec.specLng, dec. exact_arith.
    change (10 ^ 3)%Z with 1000%Z. change (10 ^ 2)%Z with 100%Z.
    rewrite !minus_IZR. reflexivity.
  - unfold_grid. exact_arith. rewrite !minus_IZR. unfold Rdiv.
    replace (lat center * (PI * / 180))%R with (lat center * PI * / 180)%R
      by ring.
    reflexivity.
Qed.

Lemma C1_grid_coordinates_witness :
  let center := {| lat := 40%R; lng := (-74)%R |} in
  Z.odd 13 = true
  /\ DetailedGridView.cellCoordinate center 2.5%R 13 0 12
     = {| lat := GridSpec.specLat center 13 2.5%R 0;
          lng := GridSpec.specLng center 13 2.5%R 12 |}.
Proof.
  split; [reflexivity |].
  apply (C1_grid_coordinates {| lat := 40%R; lng := (-74)%R |} 13 2.5%R 0 12).
  reflexivity.
Defined.

(** C1 (as stated) fails: at cell [(0, 0)] of the 13 x 13 grid around
    [(40, -74)] with spacing 2.5, [GoogleMap.initializeMap] yields latitude
    [40 - 15/69], not [40 - 15/110.574]; on binary64 and in exact
    arithmetic alike, and also when the spacing is read as miles and
    converted at 1.60934 km per mile. *)
Lemma C1_counterexample :
  GoogleMap.pointLat {| lat := 40%float; lng := (-74)%float |} 13 2.5%float 0
  <> GridSpec.specLat {| lat := 40%float; lng := (-74)%float |} 13 2.5%float 0
  /\ GoogleMap.pointLat {| lat := 40%R; lng := (-74)%R |} 13 2.5%R 0
     <> GridSpec.specLat {| lat := 40%R; lng := (-74)%R |} 13 2.5%R 0
  /\ GoogleMap.pointLat {| lat := 40%R; lng := (-74)%R |} 13 2.5%R 0
     <> GridSpec.specLat {| lat := 40%R; lng := (-74)%R |} 13
                         (2.5 * 1.60934)%R 0.
Proof.
  split; [| split].
  - float_neq.
  - unfold_grid. exact_arith.
    change (13 / 2)%Z with 6%Z. change (0 - 6)%Z with (-6)%Z.
    change (10 ^ 3)%Z with 1000%Z. lra.
  - unfold_grid. exact_arith.
    change (13 / 2)%Z with 6%Z. change (0 - 6)%Z with (-6)%Z.
    change (10 ^ 3)%Z with 1000%Z. lra.
Qed.

(** On binary64 the detailed view and the stated formula agree only up to
    rounding: already at row 1 of the reference grid they differ in the
    last place. *)
Remark cellLat_rounds_differently :
  DetailedGridView.cellLat {| lat := 40%float; lng := (-74)%float |}
                           2.5%float 13 1
  <> GridSpec.specLat {| lat := 40%float; lng := (-74)%float |} 13 2.5%float 1.
Proof. float_neq. Qed.

(** For an even size the detailed view is centred on [(n-1)/2], half a step
    away from [floor(n/2)]. *)
Remark cellLat_even_size :
  DetailedGridView.cellLat {| lat := 40%R; lng := (-74)%R |} 2.5%R 4 0
  <> GridSpec.specLat {| lat := 40%R; lng := (-74)%R |} 4 2.5%R 0.
Proof.
  rewrite cellLat_exact. unfold GridSpec.specLat, dec. exact_arith.
  change (4 / 2)%Z with 2%Z. change (0 - 2)%Z with (-2)%Z.
  change (10 ^ 3)%Z with 1000%Z. lra.
Qed.

(** ** The centre cell of the reference grid *)

(** C4: for size 13, spacing 2.5 and centre (40, -74), cell (6, 6) is the
    centre itself, bit for bit on binary64, in the detailed view (CSV export,
    marker loops) and in [GoogleMap.initializeMap]; [Math.cos] may return any
    double within one unit in the last place of the exact cosine. *)
Theorem C4_center_cell_exact
    (cosf sinf : float -> float) (atan2f : float -> float -> float) :
  In (cosf referenceLatRadians) referenceCosines ->
  let M := Binary64.math cosf sinf atan2f in
  DetailedGridView.cellCoordinate (libm := M) referenceCenter 2.5%float 13 6 6
  = referenceCenter
  /\ GoogleMap.gridPoint (libm := M) referenceCenter 13 2.5%float 6 6
     = referenceCenter.
Proof.
  intros H M. subst M. unfold referenceCenter.
  unfold_grid.
  cbn [add sub mul div ofZ Math_PI Math_cos Binary64.number Binary64.math
       lat lng].
  replace (PrimFloat.div (PrimFloat.mul 40 0x1.921fb54442d18p+1)
                         (Binary64.float_ofZ 180))
    with referenceLatRadians by (vm_compute; reflexivity).
  replace (PrimFloat.mul 40 (PrimFloat.div 0x1.921fb54442d18p+1
                                           (Binary64.float_ofZ 180)))
    with referenceLatRadians by (vm_compute; reflexivity).
  unfold referenceCosines in H. simpl in H.
  destruct H as [<- | [<- | [<- | []]]]; split; vm_compute; reflexivity.
Qed.

Lemma C4_center_cell_exact_witness :
  let cosf := fun _ : float => 0x1.8836fa2cf5039p-1%float in
  let M := Binary64.math cosf (fun x => x) (fun y _ => y) in
  In (cosf referenceLatRadians) referenceCosines
  /\ DetailedGridView.cellCoordinate (libm := M) referenceCenter 2.5%float
                                     13 6 6
     = referenceCenter
  /\ GoogleMap.gridPoint (libm := M) referenceCenter 13 2.5%float 6 6
     = referenceCenter.
Proof.
  assert (H : In ((fun _ : float => 0x1.8836fa2cf5039p-1%float)
                    referenceLatRadians) referenceCosines)
    by (simpl; right; left; reflexivity).
  split; [exact H |].
  exact (C4_center_cell_exact (fun _ => 0x1.8836fa2cf5039p-1%float)
                              (fun x => x) (fun y _ => y) H).
Defined.

(** ** Mirror symmetry of the grid *)

(** C9 (as amended): in exact arithmetic the cell mirrored through the
    centre, [(2 * offset - i, 2 * offset - j)] with [offset = floor(n/2)],
    has the negated offset of cell [(i, j)]: in [GoogleMap.initializeMap]
    for every size, and in the detailed view for every odd size. *)
Theorem C9_mirror_symmetry (center : LatLng R) (n : Z) (s : R) (i j : Z) :
  let offset := (n / 2)%Z in
  GoogleMap.latOffset n s (2 * offset - i)
  = (- GoogleMap.latOffset n s i)%R
  /\ GoogleMap.lngOffset center n s (2 * offset - j)
     = (- GoogleMap.lngOffset center n s j)%R
  /\ (Z.odd n = true ->
      (DetailedGridView.cellLat center s n (2 * offset - i) - lat center
       = - (DetailedGridView.cellLat center s n i - lat center))%R
      /\ (DetailedGridView.cellLng center s n (2 * offset - j) - lng center
          = - (DetailedGridView.cellLng center s n j - lng center))%R).
Proof.
  intros offset. subst offset.
  set (c := (/ (69 * cos (lat center * (PI / 180))))%R).
  split; [| split].
  - unfold GoogleMap.latOffset. exact_arith.
    rewrite !minus_IZR, !mult_IZR. unfold Rdiv. ring.
  - unfold GoogleMap.lngOffset. exact_arith.
    rewrite !minus_IZR, !mult_IZR. unfold Rdiv. fold c. ring.
  - intros O.
    rewrite !cellLat_exact, !cellLng_exact, (half_IZR n O).
    rewrite !minus_IZR, !mult_IZR.
    set (c' := (/ (111.32 * cos (lat center * PI / 180)))%R).
    unfold Rdiv. fold c'. split; ring.
Qed.

Lemma C9_mirror_symmetry_witness :
  let center := {| lat := 40%R; lng := (-74)%R |} in
  Z.odd 13 = true
  /\ (DetailedGridView.cellLat center 2.5%R 13 (2 * (13 / 2) - 2) - lat center
      = - (DetailedGridView.cellLat center 2.5%R 13 2 - lat center))%R
  /\ (DetailedGridView.cellLng center 2.5%R 13 (2 * (13 / 2) - 3) - lng center
      = - (DetailedGridView.cellLng center 2.5%R 13 3 - lng center))%R.
Proof.
  split; [reflexivity |].
  apply (C9_mirror_symmetry {| lat := 40%R; lng := (-74)%R |} 13 2.5%R 2 3).
  reflexivity.
Defined.

(** C9 (as stated) fails: with [offset = 6] and [i = 2], the offset at cell
    [offset - i = 4] is two steps south of the centre while the negated
    offset of cell 2 is four steps north; on binary64 and in exact
    arithmetic alike. *)
Lemma C9_counterexample :
  GoogleMap.latOffset 13 2.5%float (13 / 2 - 2)
  <> PrimFloat.opp (GoogleMap.latOffset 13 2.5%float 2)
  /\ GoogleMap.latOffset 13 2.5%R (13 / 2 - 2)
     <> (- GoogleMap.latOffset 13 2.5%R 2)%R.
Proof.
  split.
  - float_neq.
  - unfold GoogleMap.latOffset. exact_arith.
    change (13 / 2)%Z with 6%Z. change (6 - 2)%Z with 4%Z. lra.
Qed.

(** On binary64, for the grid sizes up to 101: the numerators [i - offset]
    of mirrored cells are negations of each other, the centre apart. *)
Lemma mirror_numerators_binary64 :
  forallb (fun n =>
    forallb (fun i =>
      PrimFloat.Leibniz.eqb
        (sub (ofZ (2 * (n / 2) - i)) (ofZ (n / 2)))
        (PrimFloat.opp (sub (ofZ i) (ofZ (n / 2))))
      || (i =? n / 2)%Z) (range n)) (range 102)
  = true.
Proof. vm_compute. reflexivity. Qed.

(** Hence on binary64 the mirror law of [GoogleMap.initializeMap] holds bit
    for bit, for every spacing, at every cell but the centre one (whose
    offset is a zero). *)
Remark mirror_binary64
    (cosf sinf : float -> float) (atan2f : float -> float -> float)
    (center : LatLng float) (n : Z) (s : float) (i : Z) :
  (0 <= n <= 101)%Z -> (0 <= i < n)%Z -> i <> (n / 2)%Z ->
  GoogleMap.latOffset n s (2 * (n / 2) - i)
  = PrimFloat.opp (GoogleMap.latOffset n s i)
  /\ GoogleMap.lngOffset (libm := Binary64.math cosf sinf atan2f)
                         center n s (2 * (n / 2) - i)
     = PrimFloat.opp
         (GoogleMap.lngOffset (libm := Binary64.math cosf sinf atan2f)
                              center n s i).
Proof.
  intros Hn Hi Hc.
  pose proof mirror_numerators_binary64 as H.
  rewrite forallb_forall in H.
  specialize (H n (proj2 (in_range 102 n) ltac:(lia))).
  rewrite forallb_forall in H.
  specialize (H i (proj2 (in_range n i) Hi)).
  apply orb_true_iff in H. destruct H as [H | H]; [| lia].
  apply FloatAxioms.Leibniz.eqb_spec in H.
  unfold GoogleMap.latOffset, GoogleMap.lngOffset. cbv zeta.
  rewrite H.
  cbn [mul div Binary64.number].
  rewrite !FloatLaws.mul_opp_l, !FloatLaws.div_opp_l. split; reflexivity.
Qed.

(** In exact arithmetic the middle cell of every odd grid is the centre. *)
Remark center_cell_exact_arithmetic (center : LatLng R) (n : Z) (s : R) :
  Z.odd n = true ->
  DetailedGridView.cellCoordinate center s n (n / 2) (n / 2) = center
  /\ GoogleMap.gridPoint center n s (n / 2) (n / 2) = center.
Proof.
  intros O. destruct center as [la lo]. split.
  - unfold DetailedGridView.cellCoordinate.
    rewrite cellLat_exact, cellLng_exact, (half_IZR n O). cbn [lat lng].
    f_equal; unfold Rdiv; ring.
  - unfold_grid. exact_arith. f_equal; unfold Rdiv; ring.
Qed.

(** ** Ranking classification *)

Import RankingSpec.

Ltac by_rank_cases :=
  repeat match goal with
         | |- context [(?a <=? ?b)%Z] => destruct (Z.leb_spec a b)
         | |- context [(?a >=? ?b)%Z] =>
             rewrite (Z.geb_leb a b); destruct (Z.leb_spec b a)
         | |- context [(?a >? ?b)%Z] =>
             rewrite (Z.gtb_ltb a b); destruct (Z.ltb_spec b a)
         end;
  try reflexivity; try lia.

Lemma GoogleMap_classifies :
  classifies GoogleMapMarkers.iconTextOf GoogleMapMarkers.iconColorOf
             GoogleMapMarkers.zIndexOf.
Proof.
  unfold classifies, GoogleMapMarkers.iconTextOf, GoogleMapMarkers.iconColorOf,
    GoogleMapMarkers.zIndexOf, gray.
  repeat split; intros; by_rank_cases.
Qed.

(** C2 (as amended): the marker mapping of [GoogleMap.initializeMap] is the
    stated classifier.  In the detailed view [formatRankingLabel] returns
    [r.toString()] for ranks 1..19 and "20+" above 20, [getRankingColor]
    returns the red of ranks 16..20 for every rank above 20, and the rank-icon
    markers give ranks above 20 the z-index 0, below every rank 1..20. *)
Theorem C2_ranking_classifier :
  classifies GoogleMapMarkers.iconTextOf GoogleMapMarkers.iconColorOf
             GoogleMapMarkers.zIndexOf
  /\ (forall r, 1 <= r <= 19 ->
        DetailedGridViewMarkers.formatRankingLabel r = toString r)%Z
  /\ DetailedGridViewMarkers.formatRankingLabel 1 = "1"%string
  /\ (forall r, 20 < r -> DetailedGridViewMarkers.formatRankingLabel r = "20+"%string)%Z
  /\ (forall r, 16 <= r -> DetailedGridViewMarkers.getRankingColor r = "#ef4444"%string)%Z
  /\ (forall r r', 20 < r -> 1 <= r' <= 20 ->
        DetailedGridViewMarkers.zIndex_rankIcons r = 0
        /\ 0 < DetailedGridViewMarkers.zIndex_rankIcons r')%Z.
Proof.
  split; [exact GoogleMap_classifies |].
  unfold DetailedGridViewMarkers.formatRankingLabel,
    DetailedGridViewMarkers.getRankingColor,
    DetailedGridViewMarkers.zIndex_rankIcons.
  repeat split; intros; by_rank_cases.
Qed.

(** C2 (as stated) fails in the detailed view: rank 21 is coloured with the
    red of ranks 16..20, not gray. *)
Lemma C2_counterexample :
  DetailedGridViewMarkers.getRankingColor 21 = "#ef4444"%string
  /\ DetailedGridViewMarkers.getRankingColor 21
     = DetailedGridViewMarkers.getRankingColor 16
  /\ ~ classifies DetailedGridViewMarkers.formatRankingLabel
                  DetailedGridViewMarkers.getRankingColor
                  DetailedGridViewMarkers.zIndex_rankIcons.
Proof.
  split; [reflexivity |]. split; [reflexivity |].
  intros (_ & _ & _ & _ & C & _).
  specialize (C 21%Z ltac:(lia)). discriminate C.
Qed.

(** The label of rank 20 in the detailed view is "20+", although the same
    component draws rank 20 with its own icon and orders it as a rank. *)
Remark formatRankingLabel_at_20 :
  DetailedGridViewMarkers.formatRankingLabel 20 = "20+"%string
  /\ DetailedGridViewMarkers.rankIconUrl 20 = "/images/rank-icons/20.png"%string
  /\ GoogleMapMarkers.iconTextOf 20 = "20"%string.
Proof. repeat split; reflexivity. Qed.

(** ** Marker stacking *)

Lemma zIndexOf_betterRankOnTop : betterRankOnTop GoogleMapMarkers.zIndexOf.
Proof.
  unfold betterRankOnTop, GoogleMapMarkers.zIndexOf. intros. by_rank_cases.
Qed.

Lemma zIndex_rankIcons_betterRankOnTop :
  betterRankOnTop DetailedGridViewMarkers.zIndex_rankIcons.
Proof.
  unfold betterRankOnTop, DetailedGridViewMarkers.zIndex_rankIcons.
  intros. by_rank_cases.
Qed.

Lemma zIndex_circles_betterRankOnTop :
  betterRankOnTop DetailedGridViewMarkers.zIndex_circles.
Proof.
  unfold betterRankOnTop, DetailedGridViewMarkers.zIndex_circles. intros. lia.
Qed.

(** C3: the z-index decreases strictly with the rank over 1..20 where the
    marker's z-index is computed from its rank (GoogleMap, and the first two
    copies of the detailed view).  The third copy of the detailed view
    computes it from the cell position: on the 2 x 2 grid with ranks
    [[2, 1], [0, 0]] the rank-2 marker of cell (0, 0) gets z-index 100 and
    the rank-1 marker of cell (0, 1) gets 99, so the better rank is drawn
    underneath. *)
Theorem C3_marker_stacking :
  betterRankOnTop GoogleMapMarkers.zIndexOf
  /\ betterRankOnTop DetailedGridViewMarkers.zIndex_rankIcons
  /\ betterRankOnTop DetailedGridViewMarkers.zIndex_circles
  /\ map (fun m => (fst (fst m), snd (fst m),
                    DetailedGridViewMarkers.label (snd m),
                    DetailedGridViewMarkers.zIndex (snd m)))
         (DetailedGridViewMarkers.rankingMarkers
            DetailedGridViewMarkers.cellOrderMarker
            {| lat := 40%R; lng := (-74)%R |} 2.5%R 2
            [[2; 1]; [0; 0]]%Z)
     = [(0, 0, Some "2"%string, 100); (0, 1, Some "1"%string, 99)]%Z.
Proof.
  split; [exact zIndexOf_betterRankOnTop |].
  split; [exact zIndex_rankIcons_betterRankOnTop |].
  split; [exact zIndex_circles_betterRankOnTop |].
  reflexivity.
Qed.

(** ** Loops *)

Lemma length_flat_map_const {A B : Type} (f : A -> list B) (l : list A) (c : nat) :
  (forall x, In x l -> List.length (f x) = c) ->
  List.length (flat_map f l) = (List.length l * c)%nat.
Proof.
  induction l as [| x l IH]; intros H; simpl; [reflexivity |].
  rewrite length_app, H, IH; auto using in_eq, in_cons.
Qed.

(** What a [forEach] emits: the outputs of the callback on each element,
    at its index. *)
Lemma in_forEachFrom {A B : Type} (f : A -> Z -> list B) (a : list A) (k : Z)
    (y : B) :
  In y (forEachFrom k f a)
  <-> exists (idx : nat) (x : A),
        nth_error a idx = Some x /\ In y (f x (k + Z.of_nat idx)%Z).
Proof.
  revert k. induction a as [| x a IH]; intros k; simpl.
  - split; [intros [] | intros (idx & x & H & _); destruct idx; discriminate].
  - rewrite in_app_iff, IH. split.
    + intros [H | (idx & x' & Hn & H)].
      * exists 0%nat, x. rewrite Z.add_0_r. auto.
      * exists (S idx), x'. split; [exact Hn |].
        replace (k + Z.of_nat (S idx))%Z with (k + 1 + Z.of_nat idx)%Z by lia.
        exact H.
    + intros (idx & x' & Hn & H). destruct idx as [| idx]; simpl in Hn.
      * injection Hn as <-. rewrite Z.add_0_r in H. auto.
      * right. exists idx, x'. split; [exact Hn |].
        replace (k + 1 + Z.of_nat idx)%Z with (k + Z.of_nat (S idx))%Z by lia.
        exact H.
Qed.

(** The guard shared by the marker loops: the row exists, the entry is
    defined, the rank is not the sentinel 0. *)
Ltac guard_cases rows i j :=
  let row := fresh "row" in
  let r := fresh "r" in
  let E1 := fresh "E1" in
  let E2 := fresh "E2" in
  destruct (at_index rows i) as [row |] eqn:E1;
  [ destruct (at_index row j) as [r |] eqn:E2;
    [ destruct (Z.eqb_spec r 0) as [-> | ?] | ] | ];
  (split;
   [ intros [? ?]; try discriminate; eauto
   | intros (? & ? & F1 & F2 & ?); try discriminate;
     injection F1 as <-; rewrite E2 in F2; try discriminate;
     injection F2 as <-; try contradiction; eauto ]).

Section MarkerLoops.
Context {N : Type} {num : Number N} {libm : MathLib N}.

Lemma length_points (center : LatLng N) (n : Z) (d : N) :
  List.length (GoogleMap.points center n d) = (Z.to_nat n * Z.to_nat n)%nat.
Proof.
  unfold GoogleMap.points.
  rewrite length_flat_map_const with (c := Z.to_nat n).
  - now rewrite length_range.
  - intros i _. now rewrite length_map, length_range.
Qed.

Lemma markerFor_Some make (location : LatLng N) distance n rows i j :
  (exists m,
     DetailedGridViewMarkers.markerFor make location distance n rows i j
     = Some m)
  <-> ranked rows i j.
Proof.
  unfold DetailedGridViewMarkers.markerFor, ranked.
  guard_cases rows i j.
Qed.

Lemma markerAt_Some n rows (point : LatLng N) (i j : Z) :
  (0 <= i)%Z -> (0 <= j < n)%Z ->
  (exists m, GoogleMapMarkers.markerAt n rows point (i * n + j) = Some m)
  <-> ranked rows i j.
Proof.
  intros Hi Hj. unfold GoogleMapMarkers.markerAt, ranked.
  assert (Er : ((i * n + j) / n = i)%Z)
    by (symmetry; apply (Z.div_unique_pos _ _ i j); lia).
  assert (Ec : Z.rem (i * n + j) n = j).
  { rewrite Z.rem_mod_nonneg by nia.
    symmetry; apply (Z.mod_unique_pos _ _ i j); lia. }
  rewrite Er, Ec.
  guard_cases rows i j.
Qed.

Lemma in_rankingMarkers make (location : LatLng N) distance n rows i j m :
  In (i, j, m)
     (DetailedGridViewMarkers.rankingMarkers make location distance n rows)
  <-> (0 <= i < n)%Z /\ (0 <= j < n)%Z
      /\ DetailedGridViewMarkers.markerFor make location distance n rows i j
         = Some m.
Proof.
  unfold DetailedGridViewMarkers.rankingMarkers.
  rewrite in_flat_map. split.
  - intros (i' & Hi & H). apply in_flat_map in H.
    destruct H as (j' & Hj & H). apply in_range in Hi, Hj.
    destruct (DetailedGridViewMarkers.markerFor _ _ _ _ _ i' j') as [m' |]
      eqn:E; simpl in H; [| contradiction].
    destruct H as [H | []]. injection H as -> -> ->. auto.
  - intros (Hi & Hj & E). exists i. split; [now apply in_range |].
    apply in_flat_map. exists j. split; [now apply in_range |].
    rewrite E. now left.
Qed.

Lemma in_GoogleMap_markers (center : LatLng N) n d rows idx m :
  In (idx, m) (GoogleMapMarkers.markers center n d (Some rows))
  <-> rows <> []
      /\ exists point,
           nth_error (GoogleMap.points center n d) (Z.to_nat idx) = Some point
           /\ (0 <= idx)%Z
           /\ GoogleMapMarkers.markerAt n rows point idx = Some m.
Proof.
  unfold GoogleMapMarkers.markers.
  destruct rows as [| row0 rows'].
  - simpl. split; [intros [] | intros [H _]; congruence].
  - set (rows := row0 :: rows').
    replace (Z.of_nat (List.length rows) >? 0)%Z with true
      by (symmetry; apply Z.gtb_lt; simpl; lia).
    unfold forEach. rewrite in_forEachFrom. split.
    + intros (k & point & Hn & H). simpl in H.
      destruct (GoogleMapMarkers.markerAt n rows point (Z.of_nat k))
        as [m' |] eqn:E; simpl in H; [| contradiction].
      destruct H as [H | []]. injection H as <- <-.
      split; [discriminate |]. exists point.
      rewrite Nat2Z.id. repeat split; auto; lia.
    + intros (_ & point & Hn & Hidx & E).
      exists (Z.to_nat idx), point. split; [exact Hn |].
      simpl. rewrite Z2Nat.id by lia. rewrite E. now left.
Qed.
End MarkerLoops.

(** ** Which cells get a marker *)

(** In the matrix [[2, 1], [0, 5]] the rank-0 cell (1, 0) gets no marker;
    its neighbour (1, 1), of rank 5, gets one. *)
Remark zero_rank_cell_skipped :
  map (fun m => (fst (fst m), snd (fst m)))
      (DetailedGridViewMarkers.rankingMarkers
         DetailedGridViewMarkers.rankIconMarker
         {| lat := 40%R; lng := (-74)%R |} 2.5%R 2 [[2; 1]; [0; 5]]%Z)
  = [(0, 0); (0, 1); (1, 1)]%Z
  /\ map fst (GoogleMapMarkers.markers {| lat := 40%R; lng := (-74)%R |}
                                       2 2.5%R (Some [[2; 1]; [0; 5]]%Z))
     = [0; 1; 3]%Z.
Proof. split; reflexivity. Qed.

(** ** CSV export *)

Lemma length_forEachFrom {A B : Type} (f : A -> Z -> list B) (n : nat)
    (a : list A) (k : Z) :
  (forall x idx, In x a -> List.length (f x idx) = n) ->
  List.length (forEachFrom k f a) = (List.length a * n)%nat.
Proof.
  revert k. induction a as [| x a IH]; intros k H; simpl; [reflexivity |].
  rewrite length_app, H, IH; auto using in_eq, in_cons.
Qed.

(** When every call emits [n] chunks, chunk [j] of call [i] is at position
    [i * n + j] of the output. *)
Lemma nth_forEachFrom {A B : Type} (f : A -> Z -> list B) (n : nat)
    (a : list A) (k : Z) (i j : nat) (x : A) :
  (forall y idx, In y a -> List.length (f y idx) = n) ->
  nth_error a i = Some x -> (j < n)%nat ->
  nth_error (forEachFrom k f a) (i * n + j)
  = nth_error (f x (k + Z.of_nat i)%Z) j.
Proof.
  revert k i. induction a as [| y a IH]; intros k i H Hi Hj.
  - destruct i; discriminate.
  - destruct i as [| i]; simpl in Hi |- *.
    + injection Hi as ->. rewrite Z.add_0_r.
      apply nth_error_app1. rewrite H; auto using in_eq.
    + rewrite nth_error_app2 by (rewrite H; auto using in_eq; lia).
      rewrite H by auto using in_eq.
      replace (n + i * n + j - n)%nat with (i * n + j)%nat by lia.
      rewrite IH by auto using in_cons.
      f_equal. f_equal. lia.
Qed.

(** C5: for an [n] x [n] rank matrix the export appends exactly [n * n] data
    rows after the header [Row,Column,Latitude,Longitude,Ranking]; the row at
    position [i * n + j] (row-major) is the one of cell [(i, j)]: the 1-based
    indices [i + 1] and [j + 1], the coordinates of the cell to six decimals
    and the rank as it is, 0 included. *)
Theorem C5_csv_rows
    (N : Type) (num : Number N) (libm : MathLib N) (toFixed6 : N -> string)
    (location : LatLng N) (distance : N) (gridSize : Z)
    (gridData : list (list Z)) (n : nat) :
  List.length gridData = n ->
  (forall row, In row gridData -> List.length row = n) ->
  let rows := CSV.dataRows toFixed6 location distance gridSize gridData in
  CSV.gridSection toFixed6 location distance gridSize gridData
  = ("Row,Column,Latitude,Longitude,Ranking" ++ newline
     ++ String.concat "" rows)%string
  /\ List.length rows = (n * n)%nat
  /\ (forall (i j : nat) (row : list Z) (ranking : Z),
        nth_error gridData i = Some row -> nth_error row j = Some ranking ->
        nth_error rows (i * n + j)
        = Some (toString (Z.of_nat i + 1) ++ ","
                ++ toString (Z.of_nat j + 1) ++ ","
                ++ toFixed6 (DetailedGridView.cellLat location distance
                                                      gridSize (Z.of_nat i))
                ++ ","
                ++ toFixed6 (DetailedGridView.cellLng location distance
                                                      gridSize (Z.of_nat j))
                ++ "," ++ toString ranking ++ newline)%string)
  /\ toString 0 = "0"%string.
Proof.
  intros Hlen Hrows rows. subst rows. unfold CSV.dataRows, forEach.
  assert (Hblock : forall (row : list Z) (idx : Z), In row gridData ->
            List.length
              (forEachFrom 0
                 (fun ranking colIndex =>
                    [CSV.dataRow toFixed6 location distance gridSize idx
                                 colIndex ranking]) row) = n).
  { intros row idx Hin.
    rewrite length_forEachFrom with (n := 1%nat) by reflexivity.
    rewrite (Hrows row Hin). lia. }
  split; [| split; [| split]].
  - reflexivity.
  - rewrite length_forEachFrom with (n := n) by exact Hblock.
    now rewrite Hlen.
  - intros i j row ranking Hi Hj.
    assert (j < n)%nat.
    { rewrite <- (Hrows row) by (eapply nth_error_In; eauto).
      apply nth_error_Some. congruence. }
    rewrite nth_forEachFrom with (n := n) (x := row) by auto.
    replace j with (j * 1 + 0)%nat at 1 by lia.
    rewrite nth_forEachFrom with (n := 1%nat) (x := ranking) by auto.
    simpl. unfold CSV.dataRow. reflexivity.
  - reflexivity.
Qed.

Lemma C5_csv_rows_witness :
  let location := {| lat := 40%R; lng := (-74)%R |} in
  let gridData := [[2; 1]; [0; 5]]%Z in
  let toFixed6 := fun _ : R => "x"%string in
  let rows := CSV.dataRows toFixed6 location 2.5%R 2 gridData in
  List.length gridData = 2%nat
  /\ (forall row, In row gridData -> List.length row = 2%nat)
  /\ List.length rows = (2 * 2)%nat
  /\ nth_error rows (1 * 2 + 0)
     = Some ("2,1,x,x,0" ++ newline)%string.
Proof.
  assert (H1 : List.length [[2; 1]; [0; 5]]%Z = 2%nat) by reflexivity.
  assert (H2 : forall row, In row [[2; 1]; [0; 5]]%Z -> List.length row = 2%nat).
  { intros row [<- | [<- | []]]; reflexivity. }
  split; [exact H1 |]. split; [exact H2 |].
  destruct (@C5_csv_rows R _ _ (fun _ => "x"%string)
              {| lat := 40%R; lng := (-74)%R |} 2.5%R 2
              [[2; 1]; [0; 5]]%Z 2 H1 H2) as (_ & L & Hnth & _).
  split; [exact L |].
  exact (Hnth 1%nat 0%nat [0; 5]%Z 0%Z eq_refl eq_refl).
Defined.

(** ** Great-circle distance *)

Lemma atan2_0_1 : Exact.atan2 0 1 = 0%R.
Proof.
  unfold Exact.atan2. destruct (Rlt_dec 0 1) as [_ | H]; [| exfalso; lra].
  replace (0 / 1)%R with 0%R by lra. exact atan_0.
Qed.

(** The haversine term [a] of two points, as the program computes it. *)
Lemma haversine_term_sym (x1 y1 x2 y2 : R) :
  let dLat := ((x2 - x1) * PI / 180)%R in
  let dLon := ((y2 - y1) * PI / 180)%R in
  let dLat' := ((x1 - x2) * PI / 180)%R in
  let dLon' := ((y1 - y2) * PI / 180)%R in
  (sin (dLat / 2) * sin (dLat / 2)
   + cos (x1 * PI / 180) * cos (x2 * PI / 180) * sin (dLon / 2) * sin (dLon / 2)
   = sin (dLat' / 2) * sin (dLat' / 2)
     + cos (x2 * PI / 180) * cos (x1 * PI / 180)
       * sin (dLon' / 2) * sin (dLon' / 2))%R.
Proof.
  intros dLat dLon dLat' dLon'.
  replace (dLat' / 2)%R with (- (dLat / 2))%R by (unfold dLat, dLat'; lra).
  replace (dLon' / 2)%R with (- (dLon / 2))%R by (unfold dLon, dLon'; lra).
  rewrite !sin_neg. ring.
Qed.

(** In exact arithmetic the distance is 0 between a point and itself and
    does not depend on the order of its two points. *)
Lemma haversine_exact (a b : LatLng R) :
  Distance.haversineKm a a = 0%R
  /\ Distance.haversineKm a b = Distance.haversineKm b a.
Proof.
  unfold Distance.haversineKm. exact_arith. cbv zeta. split.
  - replace ((lat a - lat a) * PI / 180 / 2)%R with 0%R by lra.
    replace ((lng a - lng a) * PI / 180 / 2)%R with 0%R by lra.
    rewrite sin_0.
    replace (0 * 0 + cos (lat a * PI / 180) * cos (lat a * PI / 180) * 0 * 0)%R
      with 0%R by ring.
    rewrite Rminus_0_r, sqrt_0, sqrt_1, atan2_0_1. ring.
  - rewrite (haversine_term_sym (lat a) (lng a) (lat b) (lng b)).
    reflexivity.
Qed.
(** *** On binary64 *)

(** The squared half-angle sines do not depend on the orientation of the
    difference, for an odd sine. *)
Lemma half_angle_terms_sym (sinf : float -> float) (p q r k u v : float) :
  (forall x, sinf (PrimFloat.opp x) = PrimFloat.opp (sinf x)) ->
  u = PrimFloat.opp v \/ (v = 0%float /\ u = 0%float) ->
  let f w :=
    sinf (PrimFloat.div (PrimFloat.div (PrimFloat.mul w p) q) r) in
  PrimFloat.mul (f u) (f u) = PrimFloat.mul (f v) (f v)
  /\ PrimFloat.mul (PrimFloat.mul k (f u)) (f u)
     = PrimFloat.mul (PrimFloat.mul k (f v)) (f v).
Proof.
  intros Hodd [-> | [-> ->]] f; [| split; reflexivity].
  assert (E : f (PrimFloat.opp v) = PrimFloat.opp (f v)).
  { unfold f.
    rewrite FloatLaws.mul_opp_l, !FloatLaws.div_opp_l. apply Hodd. }
  rewrite E. split.
  - apply FloatLaws.mul_opp_opp.
  - rewrite (FloatLaws.mul_opp_r k (f v)). apply FloatLaws.mul_opp_opp.
Qed.

Lemma haversine_sym_binary64
    (cosf sinf : float -> float) (atan2f : float -> float -> float)
    (a b : LatLng float) :
  (forall x, sinf (PrimFloat.opp x) = PrimFloat.opp (sinf x)) ->
  Distance.haversineKm (libm := Binary64.math cosf sinf atan2f) a b
  = Distance.haversineKm (libm := Binary64.math cosf sinf atan2f) b a.
Proof.
  intros Hodd. unfold Distance.haversineKm.
  cbn [add sub mul div ofZ Math_PI Math_cos Math_sin Math_sqrt Math_atan2
       Binary64.number Binary64.math].
  cbv zeta.
  set (pi := 0x1.921fb54442d18p+1%float).
  set (c180 := Binary64.float_ofZ 180). set (c2 := Binary64.float_ofZ 2).
  set (ca := cosf (PrimFloat.div (PrimFloat.mul (lat a) pi) c180)).
  set (cb := cosf (PrimFloat.div (PrimFloat.mul (lat b) pi) c180)).
  destruct (half_angle_terms_sym sinf pi c180 c2 (PrimFloat.mul ca cb)
              Hodd (FloatLaws.sub_antisym (lat a) (lat b))) as [E1 _].
  destruct (half_angle_terms_sym sinf pi c180 c2 (PrimFloat.mul ca cb)
              Hodd (FloatLaws.sub_antisym (lng a) (lng b))) as [_ E2].
  cbv zeta in E1, E2. rewrite E1, E2, (FloatLaws.mul_comm cb ca).
  reflexivity.
Qed.

Lemma haversine_zero_binary64
    (cosf sinf : float -> float) (atan2f : float -> float -> float)
    (a : LatLng float) :
  sinf 0%float = 0%float -> atan2f 0%float 1%float = 0%float ->
  PrimFloat.is_finite (lat a) = true -> PrimFloat.is_finite (lng a) = true ->
  (let c := cosf (PrimFloat.div (PrimFloat.mul (lat a) 0x1.921fb54442d18p+1)
                                180) in
   PrimFloat.is_finite (PrimFloat.mul c c) = true) ->
  Distance.haversineKm (libm := Binary64.math cosf sinf atan2f) a a
  = 0%float.
Proof.
  intros Hs Ha Flat Flng Fc. cbv zeta in Fc.
  unfold Distance.haversineKm.
  cbn [add sub mul div ofZ Math_PI Math_cos Math_sin Math_sqrt Math_atan2
       Binary64.number Binary64.math].
  cbv zeta.
  rewrite (FloatLaws.sub_diag (lat a) Flat), (FloatLaws.sub_diag (lng a) Flng).
  change (Binary64.float_ofZ 180) with 180%float.
  replace (PrimFloat.div
             (PrimFloat.div (PrimFloat.mul 0 0x1.921fb54442d18p+1) 180)
             (Binary64.float_ofZ 2))
    with 0%float by (vm_compute; reflexivity).
  rewrite Hs.
  replace (PrimFloat.mul 0 0) with 0%float by (vm_compute; reflexivity).
  rewrite (FloatLaws.add_zero_mul_zero _ Fc).
  replace (PrimFloat.sqrt 0) with 0%float by (vm_compute; reflexivity).
  replace (PrimFloat.sqrt (PrimFloat.sub (Binary64.float_ofZ 1) 0))
    with 1%float by (vm_compute; reflexivity).
  rewrite Ha. vm_compute. reflexivity.
Qed.

(** C7: the inline haversine distance (Earth radius 6371 km), on binary64, is
    0 between a point and itself and does not depend on the order of its two
    points.  [Math.sin] is taken odd with [Math.sin(0) = 0] and
    [Math.atan2(0, 1) = 0], as ECMAScript requires of the zero cases; the
    point has finite coordinates and the square of the cosine of its latitude
    is finite (a cosine is at most 1 in magnitude). *)
Theorem C7_haversine_zero_symmetric
    (cosf sinf : float -> float) (atan2f : float -> float -> float)
    (a b : LatLng float) :
  (forall x, sinf (PrimFloat.opp x) = PrimFloat.opp (sinf x)) ->
  sinf 0%float = 0%float -> atan2f 0%float 1%float = 0%float ->
  PrimFloat.is_finite (lat a) = true -> PrimFloat.is_finite (lng a) = true ->
  (let c := cosf (PrimFloat.div (PrimFloat.mul (lat a) 0x1.921fb54442d18p+1)
                                180) in
   PrimFloat.is_finite (PrimFloat.mul c c) = true) ->
  let M := Binary64.math cosf sinf atan2f in
  Distance.haversineKm (libm := M) a a = 0%float
  /\ Distance.haversineKm (libm := M) a b = Distance.haversineKm (libm := M) b a.
Proof.
  intros Hodd Hs Ha Flat Flng Fc M. split.
  - apply haversine_zero_binary64; assumption.
  - apply haversine_sym_binary64; assumption.
Qed.

Lemma C7_haversine_zero_symmetric_witness :
  let cosf := fun _ : float => 1%float in
  let sinf := fun x : float => x in
  let atan2f := fun (y _ : float) => y in
  let M := Binary64.math cosf sinf atan2f in
  let b := {| lat := 41%float; lng := (-73)%float |} in
  PrimFloat.is_finite (lat referenceCenter) = true
  /\ PrimFloat.is_finite (lng referenceCenter) = true
  /\ Distance.haversineKm (libm := M) referenceCenter referenceCenter = 0%float
  /\ Distance.haversineKm (libm := M) referenceCenter b
     = Distance.haversineKm (libm := M) b referenceCenter.
Proof.
  split; [reflexivity |]. split; [reflexivity |].
  apply (C7_haversine_zero_symmetric
           (fun _ => 1%float) (fun x => x) (fun y _ => y)
           referenceCenter {| lat := 41%float; lng := (-73)%float |});
    solve [reflexivity | intros; reflexivity].
Defined.

(** ** Parameter fallbacks of the detailed view *)

Lemma orDefault_cases (x d : float) :
  (PrimFloat.is_nan x = true \/ PrimFloat.eqb x 0%float = true ->
   Props.orDefault x d = d)
  /\ (Props.truthy x = true -> Props.orDefault x d = x)
  /\ (PrimFloat.is_nan d = false ->
      PrimFloat.is_nan (Props.orDefault x d) = false).
Proof.
  unfold Props.orDefault, Props.truthy.
  destruct (PrimFloat.is_nan x) eqn:En, (PrimFloat.eqb x 0) eqn:Ez; simpl;
    repeat split; intros; auto; try discriminate;
    destruct H; discriminate.
Qed.

(** The stored grid size is a string such as "13x13"; it does not convert to
    a number and the view falls back to 13. *)
Remark fallbacks_example :
  let g := {| Props.gridSize := Props.JsStr "13x13";
              Props.distanceKm := Props.JsUndefined;
              Props.gridData := None;
              Props.businessInfo :=
                Some {| Props.location :=
                          Some {| Props.loc_lat := Props.JsNum 40%float;
                                  Props.loc_lng := Props.JsNull |} |} |} in
  let StringToNumber := fun _ : string => PrimFloat.nan in
  Props.viewGridSize StringToNumber g = 13%float
  /\ Props.viewDistance StringToNumber g = 2.5%float
  /\ Props.viewLocation StringToNumber g = {| lat := 40%float; lng := 0%float |}.
Proof. repeat split; reflexivity. Qed.

(** ** Input validation *)

Import ValidationSpec.


(** With the stored size "13x13" the view computes with 13, while the CSV
    export of the first two copies keeps the string. *)
Remark csv_fallback_keeps_strings :
  let g := {| Props.gridSize := Props.JsStr "13x13";
              Props.distanceKm := Props.JsNum 2.5%float;
              Props.gridData := None; Props.businessInfo := None |} in
  Props.viewGridSize (fun _ => PrimFloat.nan) g = 13%float
  /\ Props.csvGridSize g = Props.JsStr "13x13".
Proof. split; reflexivity. Qed.

(** * Further properties of the marker loops *)

Lemma nth_flat_map_blocks {A B : Type} (f : A -> list B) (c : nat)
    (l : list A) (i j : nat) (x : A) :
  (forall y, In y l -> List.length (f y) = c) ->
  nth_error l i = Some x -> (j < c)%nat ->
  nth_error (flat_map f l) (i * c + j) = nth_error (f x) j.
Proof.
  revert i. induction l as [| y l IH]; intros i H Hi Hj.
  - destruct i; discriminate.
  - destruct i as [| i]; simpl in Hi |- *.
    + injection Hi as ->. apply nth_error_app1. rewrite H; auto using in_eq.
    + rewrite nth_error_app2 by (rewrite H; auto using in_eq; lia).
      rewrite H by auto using in_eq.
      replace (c + i * c + j - c)%nat with (i * c + j)%nat by lia.
      apply IH; auto using in_cons.
Qed.

Lemma nth_range (n : Z) (k : nat) :
  (k < Z.to_nat n)%nat -> nth_error (range n) k = Some (Z.of_nat k).
Proof.
  intros H. unfold range. rewrite nth_error_map, nth_error_seq.
  destruct (Nat.ltb_spec k (Z.to_nat n)); [reflexivity | lia].
Qed.

Section PointsOrder.
Context {N : Type} {num : Number N} {libm : MathLib N}.

Lemma nth_points (center : LatLng N) (n : Z) (d : N) (i j : nat) :
  (i < Z.to_nat n)%nat -> (j < Z.to_nat n)%nat ->
  nth_error (GoogleMap.points center n d) (i * Z.to_nat n + j)
  = Some (GoogleMap.gridPoint center n d (Z.of_nat i) (Z.of_nat j)).
Proof.
  intros Hi Hj. unfold GoogleMap.points.
  rewrite nth_flat_map_blocks with (c := Z.to_nat n) (x := Z.of_nat i).
  - rewrite nth_error_map, nth_range by exact Hj. reflexivity.
  - intros y _. now rewrite length_map, length_range.
  - now apply nth_range.
  - exact Hj.
Qed.

Lemma at_index_points (center : LatLng N) (n : Z) (d : N) (k : Z) :
  (0 < n)%Z -> (0 <= k < n * n)%Z ->
  at_index (GoogleMap.points center n d) k
  = Some (GoogleMap.gridPoint center n d (k / n) (Z.rem k n)).
Proof.
  intros Hn Hk.
  unfold at_index. destruct (Z.ltb_spec k 0); [lia |].
  rewrite Z.rem_mod_nonneg by lia.
  pose proof (Z.div_mod k n ltac:(lia)) as E.
  pose proof (Z.mod_pos_bound k n Hn) as Hm.
  assert (Hq : (0 <= k / n < n)%Z).
  { split; [apply Z.div_pos; lia |]. apply Z.div_lt_upper_bound; lia. }
  assert (Ek : Z.to_nat k
               = (Z.to_nat (k / n) * Z.to_nat n + Z.to_nat (k mod n))%nat).
  { rewrite E at 1.
    rewrite Z2Nat.inj_add, Z2Nat.inj_mul by (try apply Z.mul_nonneg_nonneg; lia).
    lia. }
  rewrite Ek.
  rewrite nth_points by lia.
  rewrite !Z2Nat.id by lia. reflexivity.
Qed.
End PointsOrder.

(** X1: [GoogleMap.initializeMap] generates [gridSize * gridSize] points in
    row-major order: point number [k] is the grid point of row
    [floor(k / gridSize)], column [k % gridSize]. *)
Theorem X1_points_row_major
    (N : Type) (num : Number N) (libm : MathLib N)
    (center : LatLng N) (gridSize : Z) (pointDistance : N) (k : Z) :
  (0 < gridSize)%Z -> (0 <= k < gridSize * gridSize)%Z ->
  List.length (GoogleMap.points center gridSize pointDistance)
  = Z.to_nat (gridSize * gridSize)
  /\ at_index (GoogleMap.points center gridSize pointDistance) k
     = Some (GoogleMap.gridPoint center gridSize pointDistance
                                 (k / gridSize) (Z.rem k gridSize)).
Proof.
  intros Hn Hk. split.
  - rewrite length_points. rewrite Z2Nat.inj_mul by lia. reflexivity.
  - now apply at_index_points.
Qed.

Lemma X1_points_row_major_witness :
  let center := {| lat := 40%R; lng := (-74)%R |} in
  (0 < 13)%Z /\ (0 <= 30 < 13 * 13)%Z
  /\ at_index (GoogleMap.points center 13 2.5%R) 30
     = Some (GoogleMap.gridPoint center 13 2.5%R (30 / 13) (Z.rem 30 13)).
Proof.
  split; [lia |]. split; [lia |].
  apply (@X1_points_row_major R _ _ {| lat := 40%R; lng := (-74)%R |}
                              13 2.5%R 30); lia.
Defined.

(** X2: every ranking marker of [GoogleMap.initializeMap] stands at the grid
    point of its own cell and shows the rank stored for that cell: the marker
    of [forEach] call [idx] is at row [floor(idx / gridSize)], column
    [idx % gridSize], and its colour, text and z-index are those of the
    nonzero rank [gridData[row][col]]. *)
Theorem X2_GoogleMap_marker_content
    (N : Type) (num : Number N) (libm : MathLib N)
    (center : LatLng N) (gridSize : Z) (pointDistance : N)
    (gridData : option (list (list Z)))
    (idx : Z) (m : GoogleMapMarkers.Marker N) :
  In (idx, m)
     (GoogleMapMarkers.markers center gridSize pointDistance gridData) ->
  exists (rows : list (list Z)) (row : list Z) (r : Z),
    gridData = Some rows
    /\ (0 <= idx < gridSize * gridSize)%Z
    /\ at_index rows (idx / gridSize) = Some row
    /\ at_index row (Z.rem idx gridSize) = Some r
    /\ r <> 0%Z
    /\ m = {| GoogleMapMarkers.position :=
                GoogleMap.gridPoint center gridSize pointDistance
                                    (idx / gridSize) (Z.rem idx gridSize);
              GoogleMapMarkers.iconColor := GoogleMapMarkers.iconColorOf r;
              GoogleMapMarkers.iconText := GoogleMapMarkers.iconTextOf r;
              GoogleMapMarkers.zIndex := GoogleMapMarkers.zIndexOf r;
              GoogleMapMarkers.ranking := r |}.
Proof.
  intros H. destruct gridData as [rows |]; [| destruct H].
  apply in_GoogleMap_markers in H.
  destruct H as (_ & point & Hn & Hidx & Hm).
  assert (Hlt : (Z.to_nat idx
                 < List.length (GoogleMap.points center gridSize pointDistance))%nat)
    by (apply nth_error_Some; congruence).
  rewrite length_points in Hlt.
  assert (Hpos : (0 < gridSize)%Z) by lia.
  assert (Hk : (0 <= idx < gridSize * gridSize)%Z) by nia.
  pose proof (at_index_points center pointDistance Hpos Hk) as Hp.
  unfold at_index in Hp. destruct (Z.ltb_spec idx 0); [lia |].
  rewrite Hn in Hp. injection Hp as ->.
  unfold GoogleMapMarkers.markerAt in Hm.
  destruct (at_index rows (idx / gridSize)) as [row |] eqn:E1; [| discriminate].
  destruct (at_index row (Z.rem idx gridSize)) as [r |] eqn:E2; [| discriminate].
  destruct (Z.eqb_spec r 0) as [| Hr]; [discriminate |].
  injection Hm as <-. exists rows, row, r. repeat split; auto; lia.
Qed.

Lemma X2_GoogleMap_marker_content_witness :
  let center := {| lat := 40%R; lng := (-74)%R |} in
  let m := {| GoogleMapMarkers.position :=
                GoogleMap.gridPoint center 2 2.5%R 1 1;
              GoogleMapMarkers.iconColor := "#8BC34A"%string;
              GoogleMapMarkers.iconText := "5"%string;
              GoogleMapMarkers.zIndex := 25%Z;
              GoogleMapMarkers.ranking := 5%Z |} in
  In (3%Z, m) (GoogleMapMarkers.markers center 2 2.5%R
                                       (Some [[2; 1]; [0; 5]]%Z))
  /\ exists (rows : list (list Z)) (row : list Z) (r : Z),
       Some [[2; 1]; [0; 5]]%Z = Some rows
       /\ (0 <= 3 < 2 * 2)%Z
       /\ at_index rows (3 / 2) = Some row
       /\ at_index row (Z.rem 3 2) = Some r
       /\ r <> 0%Z
       /\ m = {| GoogleMapMarkers.position :=
                   GoogleMap.gridPoint center 2 2.5%R (3 / 2) (Z.rem 3 2);
                 GoogleMapMarkers.iconColor := GoogleMapMarkers.iconColorOf r;
                 GoogleMapMarkers.iconText := GoogleMapMarkers.iconTextOf r;
                 GoogleMapMarkers.zIndex := GoogleMapMarkers.zIndexOf r;
                 GoogleMapMarkers.ranking := r |}.
Proof.
  assert (H : In (3%Z,
                  {| GoogleMapMarkers.position :=
                       GoogleMap.gridPoint {| lat := 40%R; lng := (-74)%R |}
                                           2 2.5%R 1 1;
                     GoogleMapMarkers.iconColor := "#8BC34A"%string;
                     GoogleMapMarkers.iconText := "5"%string;
                     GoogleMapMarkers.zIndex := 25%Z;
                     GoogleMapMarkers.ranking := 5%Z |})
                 (GoogleMapMarkers.markers {| lat := 40%R; lng := (-74)%R |}
                                           2 2.5%R (Some [[2; 1]; [0; 5]]%Z)))
    by (right; right; left; reflexivity).
  split; [exact H |].
  exact (@X2_GoogleMap_marker_content _ _ _ _ _ _ _ _ _ H).
Defined.

(** A [forEach] whose callback emits at most one item, tagged with its
    index, emits strictly increasing tags. *)
Lemma forEachFrom_tags_increasing {A B : Type}
    (f : A -> Z -> list (Z * B)) (a : list A) (k : Z) :
  (forall x idx, f x idx = [] \/ exists b, f x idx = [(idx, b)]) ->
  StronglySorted Z.lt (map fst (forEachFrom k f a))
  /\ Forall (fun p => (k <= fst p)%Z) (forEachFrom k f a).
Proof.
  intros Hf. revert k. induction a as [| x a IH]; intros k; simpl.
  - split; constructor.
  - destruct (IH (k + 1)%Z) as [S F].
    assert (F' : Forall (fun p => (k + 1 <= fst p)%Z)
                        (forEachFrom (k + 1) f a)) by exact F.
    destruct (Hf x k) as [-> | [b ->]]; simpl.
    + split; [exact S |].
      eapply Forall_impl; [| exact F']. simpl. intros; lia.
    + split.
      * constructor; [exact S |].
        apply Forall_map. eapply Forall_impl; [| exact F'].
        simpl. intros; lia.
      * constructor; [simpl; lia |].
        eapply Forall_impl; [| exact F']. simpl. intros; lia.
Qed.

(** X3: the ranking markers of [GoogleMap.initializeMap] are created in
    strictly increasing cell order (row-major); no cell gets two markers. *)
Theorem X3_GoogleMap_markers_ordered
    (N : Type) (num : Number N) (libm : MathLib N)
    (center : LatLng N) (gridSize : Z) (pointDistance : N)
    (gridData : option (list (list Z))) :
  let cells :=
    map fst (GoogleMapMarkers.markers center gridSize pointDistance gridData) in
  StronglySorted Z.lt cells /\ NoDup cells.
Proof.
  intros cells.
  assert (S : StronglySorted Z.lt cells).
  { subst cells. unfold GoogleMapMarkers.markers.
    destruct gridData as [rows |]; [| constructor].
    destruct (Z.of_nat (List.length rows) >? 0)%Z; [| constructor].
    unfold forEach. apply forEachFrom_tags_increasing.
    intros point idx.
    destruct (GoogleMapMarkers.markerAt gridSize rows point idx); eauto. }
  split; [exact S |].
  clear -S. induction S as [| c l _ IH F]; constructor; [| exact IH].
  intros Hin. rewrite Forall_forall in F. specialize (F c Hin). lia.
Qed.

Section DetailedMarkers.
Context {N : Type} {num : Number N} {libm : MathLib N}.

Lemma NoDup_flat_map {A B : Type} (f : A -> list B) (l : list A) :
  NoDup l -> (forall x, In x l -> NoDup (f x)) ->
  (forall x y z, In x l -> In y l -> In z (f x) -> In z (f y) -> x = y) ->
  NoDup (flat_map f l).
Proof.
  induction 1 as [| x l Hx Hl IH]; intros Hf Hd; simpl; [constructor |].
  apply NoDup_app.
  - apply Hf. now left.
  - apply IH; [intros; apply Hf; now right |].
    intros a b z Ha Hb. apply Hd; now right.
  - intros z Hz Hz'. apply in_flat_map in Hz'. destruct Hz' as (y & Hy & Hzy).
    assert (x = y) by (apply (Hd x y z); auto using in_eq, in_cons).
    subst y. contradiction.
Qed.

Lemma NoDup_range (n : Z) : NoDup (range n).
Proof.
  unfold range. apply Finite.Injective_map_NoDup; [| apply seq_NoDup].
  intros a b. apply Nat2Z.inj.
Qed.

Lemma NoDup_rankingMarker_cells make (location : LatLng N) distance n rows :
  NoDup (map fst (DetailedGridViewMarkers.rankingMarkers
                    make location distance n rows)).
Proof.
  unfold DetailedGridViewMarkers.rankingMarkers.
  rewrite !flat_map_concat_map, concat_map, map_map, <- flat_map_concat_map.
  apply NoDup_flat_map; [apply NoDup_range | |].
  - intros i _. rewrite flat_map_concat_map, concat_map, map_map,
      <- flat_map_concat_map.
    apply NoDup_flat_map; [apply NoDup_range | |].
    + intros j _.
      destruct (DetailedGridViewMarkers.markerFor _ _ _ _ _ i j); simpl;
        repeat constructor. intros [].
    + intros j j' z _ _ Hz Hz'.
      destruct (DetailedGridViewMarkers.markerFor _ _ _ _ _ i j); simpl in Hz;
        [| contradiction].
      destruct (DetailedGridViewMarkers.markerFor _ _ _ _ _ i j'); simpl in Hz';
        [| contradiction].
      destruct Hz as [<- | []], Hz' as [E | []]. congruence.
  - intros i i' z _ _ Hz Hz'.
    apply in_map_iff in Hz, Hz'.
    destruct Hz as (p & <- & Hp), Hz' as (p' & E & Hp').
    apply in_flat_map in Hp, Hp'.
    destruct Hp as (j & _ & Hp), Hp' as (j' & _ & Hp').
    destruct (DetailedGridViewMarkers.markerFor _ _ _ _ _ i j); simpl in Hp;
      [| contradiction].
    destruct (DetailedGridViewMarkers.markerFor _ _ _ _ _ i' j'); simpl in Hp';
      [| contradiction].
    destruct Hp as [<- | []], Hp' as [<- | []]. simpl in E. congruence.
Qed.
End DetailedMarkers.

(** X4: in the marker loops of the detailed view every marker belongs to one
    cell [(i, j)] of the grid whose rank [gridData[i][j]] is defined and
    nonzero, it is the marker built from that rank at the coordinate of that
    cell, and no cell gets two markers. *)
Theorem X4_detailed_marker_content
    (N : Type) (num : Number N) (libm : MathLib N)
    (make : DetailedGridViewMarkers.MarkerMaker)
    (location : LatLng N) (distance : N) (gridSize : Z)
    (gridData : list (list Z)) :
  let markers :=
    DetailedGridViewMarkers.rankingMarkers make location distance gridSize
                                           gridData in
  (forall i j m, In (i, j, m) markers ->
     (0 <= i < gridSize)%Z /\ (0 <= j < gridSize)%Z
     /\ exists row r,
          at_index gridData i = Some row /\ at_index row j = Some r
          /\ r <> 0%Z
          /\ m = make gridSize i j r
                   (DetailedGridView.cellCoordinate location distance
                                                    gridSize i j))
  /\ NoDup (map fst markers).
Proof.
  intros markers. subst markers. split.
  - intros i j m H. apply in_rankingMarkers in H.
    destruct H as (Hi & Hj & H). split; [exact Hi |]. split; [exact Hj |].
    unfold DetailedGridViewMarkers.markerFor in H.
    destruct (at_index gridData i) as [row |]; [| discriminate].
    destruct (at_index row j) as [r |] eqn:E; [| discriminate].
    destruct (Z.eqb_spec r 0); [discriminate |].
    injection H as <-. exists row, r. auto.
  - apply NoDup_rankingMarker_cells.
Qed.

(** X5: in [GoogleMap.initializeMap] every marker of a rank of at least 1 is
    stacked strictly between the service-area circle (z-index 1) and the
    business marker at the centre (z-index 1000). *)
Theorem X5_GoogleMap_layers
    (N : Type) (num : Number N) (libm : MathLib N)
    (center : LatLng N) (gridSize : Z) (pointDistance : N)
    (gridData : option (list (list Z)))
    (idx : Z) (m : GoogleMapMarkers.Marker N) :
  In (idx, m)
     (GoogleMapMarkers.markers center gridSize pointDistance gridData) ->
  (1 <= GoogleMapMarkers.ranking m)%Z ->
  (GoogleMapOverlay.serviceAreaZIndex < GoogleMapMarkers.zIndex m
   < GoogleMapOverlay.businessMarkerZIndex)%Z.
Proof.
  intros H Hr.
  destruct gridData as [rows |]; [| destruct H].
  apply in_GoogleMap_markers in H.
  destruct H as (_ & point & _ & _ & Hm).
  unfold GoogleMapMarkers.markerAt in Hm.
  destruct (at_index rows (idx / gridSize)) as [row |]; [| discriminate].
  destruct (at_index row (Z.rem idx gridSize)) as [r |]; [| discriminate].
  destruct (Z.eqb_spec r 0); [discriminate |].
  injection Hm as <-. simpl in Hr |- *.
  unfold GoogleMapMarkers.zIndexOf, GoogleMapOverlay.serviceAreaZIndex,
    GoogleMapOverlay.businessMarkerZIndex.
  destruct (Z.gtb_spec r 20); lia.
Qed.

Lemma X5_GoogleMap_layers_witness :
  let center := {| lat := 40%R; lng := (-74)%R |} in
  let m := {| GoogleMapMarkers.position :=
                GoogleMap.gridPoint center 2 2.5%R 1 1;
              GoogleMapMarkers.iconColor := "#8BC34A"%string;
              GoogleMapMarkers.iconText := "5"%string;
              GoogleMapMarkers.zIndex := 25%Z;
              GoogleMapMarkers.ranking := 5%Z |} in
  In (3%Z, m) (GoogleMapMarkers.markers center 2 2.5%R
                                       (Some [[2; 1]; [0; 5]]%Z))
  /\ (1 <= GoogleMapMarkers.ranking m)%Z
  /\ (GoogleMapOverlay.serviceAreaZIndex < GoogleMapMarkers.zIndex m
      < GoogleMapOverlay.businessMarkerZIndex)%Z.
Proof.
  assert (H : In (3%Z,
                  {| GoogleMapMarkers.position :=
                       GoogleMap.gridPoint {| lat := 40%R; lng := (-74)%R |}
                                           2 2.5%R 1 1;
                     GoogleMapMarkers.iconColor := "#8BC34A"%string;
                     GoogleMapMarkers.iconText := "5"%string;
                     GoogleMapMarkers.zIndex := 25%Z;
                     GoogleMapMarkers.ranking := 5%Z |})
                 (GoogleMapMarkers.markers {| lat := 40%R; lng := (-74)%R |}
                                           2 2.5%R (Some [[2; 1]; [0; 5]]%Z)))
    by (right; right; left; reflexivity).
  assert (Hr : (1 <= 5)%Z) by lia.
  split; [exact H |]. split; [exact Hr |].
  exact (@X5_GoogleMap_layers _ _ _ _ _ _ _ _ _ H Hr).
Defined.

(** * PNG export *)

Lemma forEachM_Returned {A B : Type} (l : list A) (body : A -> Outcome (list B))
    (outs : list B) :
  forEachM l body = Returned outs ->
  (forall x, In x l -> exists o, body x = Returned o)
  /\ outs = flat_map (fun x => match body x with
                               | Returned o => o
                               | Threw _ => []
                               end) l.
Proof.
  revert outs. induction l as [| x l IH]; simpl; intros outs H.
  - injection H as <-. split; [intros ? [] | reflexivity].
  - destruct (body x) as [o | msg] eqn:Ex; simpl in H; [| discriminate].
    destruct (forEachM l body) as [os | msg]; simpl in H; [| discriminate].
    injection H as <-. destruct (IH os eq_refl) as [Hall ->].
    split; [| reflexivity].
    intros y [<- | Hy]; [eauto | auto].
Qed.

Lemma forEachM_Threw {A B : Type} (l : list A) (body : A -> Outcome (list B)) :
  (exists message, forEachM l body = Threw message)
  <-> exists x message, In x l /\ body x = Threw message.
Proof.
  induction l as [| x l IH]; simpl.
  - split; [intros [m H]; discriminate | intros (x & m & [] & _)].
  - destruct (body x) as [o | msg] eqn:Ex; simpl.
    + destruct (forEachM l body) as [os | msg'] eqn:El; simpl.
      * split; [intros [m H]; discriminate |].
        intros (y & m & [<- | Hy] & E); [congruence |].
        destruct (proj2 IH) as [m' Hm']; [eauto | discriminate].
      * split; [| eauto].
        intros _. destruct (proj1 IH) as (y & m & Hy & E); eauto.
    + split; [intros _; exists x, msg; auto | eauto].
Qed.

Lemma drawCell_Threw (gridData : list (list Z)) (i j : Z) :
  (exists message, PNG.drawCell gridData i j = Threw message)
  <-> at_index gridData i = None.
Proof.
  unfold PNG.drawCell. destruct (at_index gridData i).
  - split; [intros [m H]; discriminate | discriminate].
  - split; eauto.
Qed.

Lemma at_index_None {A : Type} (a : list A) (k : Z) :
  (0 <= k)%Z -> at_index a k = None <-> (Z.of_nat (List.length a) <= k)%Z.
Proof.
  intros Hk. unfold at_index. destruct (Z.ltb_spec k 0); [lia |].
  rewrite nth_error_None. lia.
Qed.

Lemma cells_Threw (n : Z) (gridData : list (list Z)) :
  (exists message,
     forEachM (range n) (fun i =>
       forEachM (range n) (fun j => PNG.drawCell gridData i j))
     = Threw message)
  <-> (0 < n)%Z /\ (Z.of_nat (List.length gridData) < n)%Z.
Proof.
  rewrite forEachM_Threw. split.
  - intros (i & m & Hi & H). apply in_range in Hi.
    destruct (proj1 (forEachM_Threw _ _) (ex_intro _ m H))
      as (j & m' & Hj & H').
    apply in_range in Hj.
    pose proof (proj1 (drawCell_Threw gridData i j) (ex_intro _ m' H')) as E.
    apply at_index_None in E; lia.
  - intros [Hn Hl].
    destruct (proj2 (forEachM_Threw (range n)
                       (fun j => PNG.drawCell gridData (n - 1) j)))
      as [m Hm].
    + destruct (proj2 (drawCell_Threw gridData (n - 1) 0)) as [m Hm].
      * apply at_index_None; lia.
      * exists 0%Z, m. split; [apply in_range; lia | exact Hm].
    + exists (n - 1)%Z, m. split; [apply in_range; lia | exact Hm].
Qed.

Lemma filter_flat_map_count {A B : Type} (p : B -> bool) (f : A -> list B)
    (l : list A) (c : nat) :
  (forall x, In x l -> List.length (filter p (f x)) = c) ->
  List.length (filter p (flat_map f l)) = (List.length l * c)%nat.
Proof.
  induction l as [| x l IH]; intros H; simpl; [reflexivity |].
  rewrite filter_app, length_app, H, IH; auto using in_eq, in_cons.
Qed.

Lemma handleOpenPNG_Returned name searchTerm n gridData ops :
  PNG.handleOpenPNG name searchTerm n gridData = Returned ops ->
  exists cells,
    forEachM (range n) (fun i =>
      forEachM (range n) (fun j => PNG.drawCell gridData i j))
    = Returned cells
    /\ ops = PNG.FillRect "#FFFFFF" 0 0 (PNG.canvasWidth n) (PNG.canvasHeight n)
             :: PNG.FillText "#000000"
                  (name ++ " - " ++ PNG.dquote ++ searchTerm ++ PNG.dquote)%string
                  (PNG.canvasWidth n / 2) 30
             :: cells
             ++ [PNG.FillCircle "#3B82F6" "#FFFFFF"
                   (n / 2 * PNG.cellSize + PNG.padding + PNG.cellSize / 2)
                   (n / 2 * PNG.cellSize + PNG.padding + 60 + PNG.cellSize / 2)
                   8]%Z.
Proof.
  unfold PNG.handleOpenPNG. cbv zeta.
  destruct (forEachM (range n) _) as [cells | msg]; simpl; [| discriminate].
  intros H. injection H as <-. exists cells. split; reflexivity.
Qed.

(** X6: the PNG export throws exactly when the grid is not empty and the rank
    matrix has fewer rows than the grid (it reads [gridData[i][j]] without a
    guard, where the marker loops skip the cell); otherwise it draws one
    bordered cell per grid cell, missing entries included. *)
Theorem X6_png_export_outcome
    (name searchTerm : string) (gridSize : Z) (gridData : list (list Z)) :
  ((exists message,
      PNG.handleOpenPNG name searchTerm gridSize gridData = Threw message)
   <-> (0 < gridSize)%Z /\ (Z.of_nat (List.length gridData) < gridSize)%Z)
  /\ (forall ops,
        PNG.handleOpenPNG name searchTerm gridSize gridData = Returned ops ->
        List.length (filter PNG.isCellBorder ops)
        = (Z.to_nat gridSize * Z.to_nat gridSize)%nat).
Proof.
  split.
  - rewrite <- cells_Threw. unfold PNG.handleOpenPNG. cbv zeta.
    destruct (forEachM (range gridSize) _) as [cells | msg]; simpl.
    + split; intros [m H]; discriminate.
    + split; intros _; eauto.
  - intros ops H. apply handleOpenPNG_Returned in H.
    destruct H as (cells & Hc & ->).
    apply forEachM_Returned in Hc. destruct Hc as [Hrows ->].
    simpl. rewrite filter_app, length_app. simpl. rewrite Nat.add_0_r.
    rewrite filter_flat_map_count with (c := Z.to_nat gridSize);
      [now rewrite length_range |].
    intros i Hi. destruct (Hrows i Hi) as [o Ho]. rewrite Ho.
    apply forEachM_Returned in Ho. destruct Ho as [Hcells ->].
    rewrite filter_flat_map_count with (c := 1%nat);
      [rewrite length_range; lia |].
    intros j Hj. destruct (Hcells j Hj) as [o' Ho']. rewrite Ho'.
    unfold PNG.drawCell in Ho'.
    destruct (at_index gridData i) as [row |]; [| discriminate].
    injection Ho' as <-.
    destruct (PNG.cellText (at_index row j)); reflexivity.
Qed.

(** X7: when the PNG export of a grid of size at least 1 succeeds, every
    shape it draws (background, cell fills and borders, the marker disc)
    lies within the canvas and every text is anchored at a point of the
    canvas; the width of a text is not modelled, so nothing is said of how
    far a title or label extends.  The business marker (a disc of radius
    8) lies inside the rectangle of the middle cell
    [(floor(n/2), floor(n/2))]. *)
Theorem X7_png_shapes_on_canvas
    (name searchTerm : string) (gridSize : Z) (gridData : list (list Z))
    (ops : list PNG.DrawOp) :
  (1 <= gridSize)%Z ->
  PNG.handleOpenPNG name searchTerm gridSize gridData = Returned ops ->
  (forall op box,
     In op ops -> PNG.shapeBox op = Some box ->
     PNG.boxOnCanvas (PNG.canvasWidth gridSize) (PNG.canvasHeight gridSize)
                     box)
  /\ (forall op x y,
        In op ops -> PNG.textAnchor op = Some (x, y) ->
        (0 <= x <= PNG.canvasWidth gridSize
         /\ 0 <= y <= PNG.canvasHeight gridSize)%Z)
  /\ exists fillStyle strokeStyle cx cy,
       last ops (PNG.FillRect "" 0 0 0 0)
       = PNG.FillCircle fillStyle strokeStyle cx cy 8
       /\ (PNG.cellX (gridSize / 2) <= cx - 8
           /\ cx + 8 <= PNG.cellX (gridSize / 2) + PNG.cellSize
           /\ PNG.cellY (gridSize / 2) <= cy - 8
           /\ cy + 8 <= PNG.cellY (gridSize / 2) + PNG.cellSize)%Z.
Proof.
  intros Hn H. apply handleOpenPNG_Returned in H.
  destruct H as (cells & Hc & ->).
  assert (Hhalf : (0 <= gridSize / 2 < gridSize)%Z)
    by (split; [apply Z.div_pos; lia | apply Z.div_lt_upper_bound; lia]).
  set (placed := fun op =>
         (forall box, PNG.shapeBox op = Some box ->
            PNG.boxOnCanvas (PNG.canvasWidth gridSize)
                            (PNG.canvasHeight gridSize) box)
         /\ (forall x y, PNG.textAnchor op = Some (x, y) ->
               (0 <= x <= PNG.canvasWidth gridSize
                /\ 0 <= y <= PNG.canvasHeight gridSize)%Z)).
  assert (All : Forall placed
                  (PNG.FillRect "#FFFFFF" 0 0 (PNG.canvasWidth gridSize)
                                (PNG.canvasHeight gridSize)
                   :: PNG.FillText "#000000"
                        (name ++ " - " ++ PNG.dquote ++ searchTerm
                              ++ PNG.dquote)
                        (PNG.canvasWidth gridSize / 2) 30
                   :: cells
                   ++ [PNG.FillCircle "#3B82F6" "#FFFFFF"
                         (gridSize / 2 * PNG.cellSize + PNG.padding
                          + PNG.cellSize / 2)
                         (gridSize / 2 * PNG.cellSize + PNG.padding + 60
                          + PNG.cellSize / 2) 8])).
  { assert (Tac : forall op,
              match op with
              | PNG.FillRect _ x y w h | PNG.StrokeRect _ x y w h =>
                (0 <= x /\ x + w <= PNG.canvasWidth gridSize
                 /\ 0 <= y /\ y + h <= PNG.canvasHeight gridSize)%Z
              | PNG.FillText _ _ x y =>
                (0 <= x <= PNG.canvasWidth gridSize
                 /\ 0 <= y <= PNG.canvasHeight gridSize)%Z
              | PNG.FillCircle _ _ cx cy r =>
                (0 <= cx - r /\ cx + r <= PNG.canvasWidth gridSize
                 /\ 0 <= cy - r /\ cy + r <= PNG.canvasHeight gridSize)%Z
              end -> placed op).
    { intros op Hop. unfold placed.
      destruct op; simpl; split;
        try (intros box E; injection E as <-; simpl; exact Hop);
        try (intros x' y' E; injection E as <- <-; exact Hop);
        intros; discriminate. }
    unfold PNG.canvasWidth, PNG.canvasHeight, PNG.cellSize, PNG.padding in *.
    constructor; [apply Tac; lia |].
    constructor.
    { apply Tac. Z.to_euclidean_division_equations. lia. }
    apply Forall_app. split.
    + apply forEachM_Returned in Hc. destruct Hc as [Hrows ->].
      apply Forall_flat_map. apply Forall_forall. intros i Hi.
      destruct (Hrows i Hi) as [o Ho]. rewrite Ho.
      apply forEachM_Returned in Ho. destruct Ho as [Hcells ->].
      apply Forall_flat_map. apply Forall_forall. intros j Hj.
      destruct (Hcells j Hj) as [o' Ho']. rewrite Ho'.
      apply in_range in Hi, Hj.
      unfold PNG.drawCell, PNG.cellX, PNG.cellY, PNG.cellSize, PNG.padding
        in Ho'.
      destruct (at_index gridData i) as [row |]; [| discriminate].
      injection Ho' as <-. change (40 / 2)%Z with 20%Z.
      destruct (PNG.cellText (at_index row j));
        repeat (first [apply Forall_nil
                      | apply Forall_cons; [apply Tac; lia |]]).
    + change (40 / 2)%Z with 20%Z.
      repeat (first [apply Forall_nil
                    | apply Forall_cons; [apply Tac; lia |]]). }
  rewrite Forall_forall in All.
  split; [| split].
  - intros op box Hin. apply (All op Hin).
  - intros op x y Hin. apply (All op Hin).
  - eexists _, _, _, _. split.
    + rewrite !app_comm_cons, last_last. reflexivity.
    + unfold PNG.cellX, PNG.cellY, PNG.cellSize, PNG.padding.
      change (40 / 2)%Z with 20%Z. lia.
Qed.

Lemma X7_png_shapes_on_canvas_witness :
  let gridData := [[2; 1]; [0; 5]]%Z in
  exists ops,
    (1 <= 2)%Z
    /\ PNG.handleOpenPNG "Cafe" "coffee" 2 gridData = Returned ops
    /\ forall op box,
         In op ops -> PNG.shapeBox op = Some box ->
         PNG.boxOnCanvas (PNG.canvasWidth 2) (PNG.canvasHeight 2) box.
Proof.
  eexists. split; [lia |].
  assert (H : PNG.handleOpenPNG "Cafe" "coffee" 2 [[2; 1]; [0; 5]]%Z
              = Returned _) by (vm_compute; reflexivity).
  split; [exact H |].
  exact (proj1 (@X7_png_shapes_on_canvas "Cafe" "coffee" 2 [[2; 1]; [0; 5]]%Z
                  _ ltac:(lia) H)).
Defined.

(** * Thumbnail and competitor query *)

Lemma sampleIndex_bounds (n k : Z) :
  (1 <= n)%Z -> (0 <= k < 5)%Z -> (0 <= Thumbnail.sampleIndex n k < n)%Z.
Proof.
  intros Hn Hk. unfold Thumbnail.sampleIndex.
  split; [apply Z.div_pos; nia | apply Z.div_lt_upper_bound; nia].
Qed.

(** X8: the 5 x 5 thumbnail never reads outside a grid of size at least 1
    (sample [k] is row or column [floor(k * n / 5)], below [n]); for a full
    [n] x [n] rank matrix every thumbnail cell therefore shows an actual
    entry, and for [n >= 5] the five samples are strictly increasing, so
    the 25 cells show 25 different grid cells. *)
Theorem X8_thumbnail_samples
    (gridData : list (list Z)) (n : Z) (rowIndex colIndex : Z) :
  (1 <= n)%Z ->
  Z.of_nat (List.length gridData) = n ->
  (forall row, In row gridData -> Z.of_nat (List.length row) = n) ->
  (0 <= rowIndex < 5)%Z -> (0 <= colIndex < 5)%Z ->
  (exists row r,
     at_index gridData (Thumbnail.sampleIndex n rowIndex) = Some row
     /\ at_index row (Thumbnail.sampleIndex n colIndex) = Some r
     /\ Thumbnail.sampledRanking gridData n rowIndex colIndex = r)
  /\ (5 <= n ->
      forall k, (rowIndex < k < 5)%Z ->
        Thumbnail.sampleIndex n rowIndex < Thumbnail.sampleIndex n k)%Z.
Proof.
  intros Hn Hlen Hrows Hr Hc. split.
  - pose proof (sampleIndex_bounds Hn Hr) as Br.
    pose proof (sampleIndex_bounds Hn Hc) as Bc.
    unfold Thumbnail.sampledRanking. cbv zeta.
    destruct (at_index gridData (Thumbnail.sampleIndex n rowIndex))
      as [row |] eqn:E1.
    + assert (Hin : In row gridData).
      { unfold at_index in E1.
        destruct (Thumbnail.sampleIndex n rowIndex <? 0)%Z; [discriminate |].
        eapply nth_error_In; eauto. }
      destruct (at_index row (Thumbnail.sampleIndex n colIndex))
        as [r |] eqn:E2.
      * exists row, r. split; [reflexivity |]. split; [exact E2 |].
        destruct (Z.eqb_spec r 0); congruence.
      * apply at_index_None in E2; [| lia]. rewrite (Hrows row Hin) in E2. lia.
    + apply at_index_None in E1; lia.
  - intros H5 k Hk. unfold Thumbnail.sampleIndex.
    Z.to_euclidean_division_equations. nia.
Qed.

Lemma X8_thumbnail_samples_witness :
  let gridData := [[1; 2; 3; 4; 5; 6]; [7; 8; 9; 10; 11; 12];
                   [13; 14; 15; 16; 17; 18]; [19; 20; 21; 22; 23; 24];
                   [0; 0; 0; 0; 0; 0]; [1; 1; 1; 1; 1; 1]]%Z in
  (1 <= 6)%Z
  /\ Z.of_nat (List.length gridData) = 6%Z
  /\ (exists row r,
        at_index gridData (Thumbnail.sampleIndex 6 3) = Some row
        /\ at_index row (Thumbnail.sampleIndex 6 4) = Some r
        /\ Thumbnail.sampledRanking gridData 6 3 4 = r).
Proof.
  split; [lia |]. split; [reflexivity |].
  refine (proj1 (@X8_thumbnail_samples
                   [[1; 2; 3; 4; 5; 6]; [7; 8; 9; 10; 11; 12];
                    [13; 14; 15; 16; 17; 18]; [19; 20; 21; 22; 23; 24];
                    [0; 0; 0; 0; 0; 0]; [1; 1; 1; 1; 1; 1]]%Z
                   6 3 4 _ _ _ _ _)); try lia; try reflexivity.
  intros row H. simpl in H.
  repeat (destruct H as [<- | H]; [reflexivity |]). destruct H.
Defined.

Lemma mainTypes_head (types : list string) (main : string) (rest : list string) :
  CompetitorQuery.mainTypes types = main :: rest ->
  exists before after,
    types = before ++ main :: after
    /\ CompetitorQuery.isGeneric main = false
    /\ Forall (fun t => CompetitorQuery.isGeneric t = true) before.
Proof.
  unfold CompetitorQuery.mainTypes.
  induction types as [| t types IH]; simpl; [discriminate |].
  destruct (CompetitorQuery.isGeneric t) eqn:G; simpl.
  - intros H. destruct (IH H) as (before & after & -> & Hm & Hb).
    exists (t :: before), after. repeat split; auto.
  - intros H. injection H as <- _. exists [], types.
    repeat split; auto.
Qed.

(** X9: the business type read from place details is always one of the
    returned types: the first one that is not generic ('establishment',
    'point_of_interest', 'business'), every earlier type being generic, or
    the very first type when all of them are generic. *)
Theorem X9_type_from_details (types : list string) (type : string) :
  CompetitorQuery.typeFromDetails types = Some type ->
  In type types
  /\ ((CompetitorQuery.isGeneric type = false
       /\ exists before after,
            types = before ++ type :: after
            /\ Forall (fun t => CompetitorQuery.isGeneric t = true) before)
      \/ (Forall (fun t => CompetitorQuery.isGeneric t = true) types
          /\ exists rest, types = type :: rest)).
Proof.
  unfold CompetitorQuery.typeFromDetails.
  destruct types as [| first rest]; [discriminate |].
  destruct (CompetitorQuery.mainTypes (first :: rest)) as [| main ms] eqn:E.
  - intros H. injection H as <-. split; [now left |]. right. split; [| eauto].
    unfold CompetitorQuery.mainTypes in E.
    apply Forall_forall. intros t Ht.
    destruct (CompetitorQuery.isGeneric t) eqn:G; [reflexivity |].
    assert (In t (filter (fun type => negb (CompetitorQuery.isGeneric type))
                         (first :: rest)))
      by (apply filter_In; rewrite G; auto).
    rewrite E in H. destruct H.
  - intros H. injection H as <-.
    destruct (mainTypes_head _ E) as (before & after & Et & Hm & Hb).
    split.
    + rewrite Et. apply in_or_app. right. now left.
    + left. split; [exact Hm |]. eauto.
Qed.

Lemma X9_type_from_details_witness :
  CompetitorQuery.typeFromDetails
    ["establishment"; "cafe"; "food"; "point_of_interest"]%string
  = Some "cafe"%string
  /\ In "cafe"%string
        ["establishment"; "cafe"; "food"; "point_of_interest"]%string.
Proof.
  assert (H : CompetitorQuery.typeFromDetails
                ["establishment"; "cafe"; "food"; "point_of_interest"]%string
              = Some "cafe"%string) by reflexivity.
  split; [exact H |].
  exact (proj1 (X9_type_from_details _ H)).
Defined.

(** * The places-search route handlers *)

Lemma validRadius_bounds (radius : Js.Json) :
  PrimFloat.ltb 0 (PlacesApi.validRadius radius) = true
  /\ PrimFloat.leb (PlacesApi.validRadius radius) 50000 = true.
Proof.
  destruct radius as [| | b | r | s | items | fields];
    try (split; vm_compute; reflexivity).
  unfold PlacesApi.validRadius.
  destruct (PrimFloat.ltb 0 r) eqn:H0; destruct (PrimFloat.leb r 50000) eqn:H1;
    simpl; try (split; vm_compute; reflexivity).
  split; assumption.
Qed.

Lemma validRadius_keeps (r : float) :
  PrimFloat.ltb 0 r = true -> PrimFloat.leb r 50000 = true ->
  PlacesApi.validRadius (Js.JNumber r) = r.
Proof. intros H0 H1. unfold PlacesApi.validRadius. now rewrite H0, H1. Qed.

Lemma statusResponse_status (s : string) :
  In (PlacesApi.status (PlacesApi.statusResponse s)) [200; 400; 403; 429; 500]%Z
  /\ (PlacesApi.status (PlacesApi.statusResponse s) = 200%Z
      <-> s = "ZERO_RESULTS"%string)
  /\ (PlacesApi.status (PlacesApi.statusResponse s) = 429%Z
      <-> s = "OVER_QUERY_LIMIT"%string)
  /\ (PlacesApi.status (PlacesApi.statusResponse s) = 403%Z
      <-> s = "REQUEST_DENIED"%string).
Proof.
  unfold PlacesApi.statusResponse.
  repeat match goal with
         | |- context [String.eqb s ?c] => destruct (String.eqb_spec s c)
         end; subst; simpl;
    repeat split; intros; try discriminate; try congruence; tauto.
Qed.

Section RouteV1.
Import Js PlacesApi.
Variable NumberToString : float -> string.
Variable ObjectToString : Json -> Outcome string.
Variable placesNearby : PlacesSearchV1.Params -> Outcome Reply.

Lemma v1_answer_status (reply : Outcome Reply) :
  In (status (PlacesSearchV1.answer reply)) [200; 400; 403; 429; 500]%Z
  /\ (status (PlacesSearchV1.answer reply) = 200%Z ->
      exists data, reply = Returned data
        /\ (reply_status data = "OK" \/ reply_status data = "ZERO_RESULTS")%string)
  /\ (status (PlacesSearchV1.answer reply) = 429%Z <->
      exists data, reply = Returned data
        /\ reply_status data = "OVER_QUERY_LIMIT"%string)
  /\ (status (PlacesSearchV1.answer reply) = 403%Z <->
      exists data, reply = Returned data
        /\ reply_status data = "REQUEST_DENIED"%string).
Proof.
  destruct reply as [data | e]; simpl.
  2: { repeat split; try (simpl; tauto); try discriminate.
       all: intros (d & H & _); discriminate. }
  destruct (statusResponse_status (reply_status data)) as (S0 & S1 & S2 & S3).
  destruct (String.eqb_spec (reply_status data) "OK") as [E | E]; simpl.
  - destruct (mapM PlacesSearchV1.formatPlace (reply_results data)); simpl.
    + repeat split; try tauto; try discriminate; eauto.
      all: intros (d & H & H'); injection H as <-; rewrite E in H';
        discriminate.
    + repeat split; try tauto; try discriminate.
      all: intros (d & H & H'); injection H as <-; rewrite E in H';
        discriminate.
  - repeat split; auto.
    + intros H. exists data. split; [reflexivity |]. right. now apply S1.
    + intros H. exists data. split; [reflexivity |]. now apply S2.
    + intros (d & H & H'). injection H as <-. now apply S2.
    + intros H. exists data. split; [reflexivity |]. now apply S3.
    + intros (d & H & H'). injection H as <-. now apply S3.
Qed.
End RouteV1.

Section RouteV1Requests.
Import Js PlacesApi.
Variable NumberToString : float -> string.
Variable ObjectToString : Json -> Outcome string.
Variable placesNearby : PlacesSearchV1.Params -> Outcome Reply.

(** What the handler does once the body has been read. *)
Lemma v1_POST_cases (apiKey : option string) (json : Outcome Json) :
  let h := PlacesSearchV1.POST NumberToString ObjectToString placesNearby
                               apiKey json in
  (calls h = []
   /\ In (status (response h)) [400; 500]%Z
   /\ (keyMissing apiKey = true -> status (response h) = 500%Z))
  \/ exists b query location radius l,
       json = Returned b
       /\ field "query" b = Returned query
       /\ field "location" b = Returned location
       /\ field "radius" b = Returned radius
       /\ keyMissing apiKey = false
       /\ validLocation location = true
       /\ PlacesSearchV1.locationString NumberToString ObjectToString location
          = Returned l
       /\ h = mkHandled
                [PlacesSearchV1.mkParams (keyOf apiKey) l (validRadius radius)
                                         query "establishment"]
                (PlacesSearchV1.answer
                   (placesNearby
                      (PlacesSearchV1.mkParams (keyOf apiKey) l
                         (validRadius radius) query "establishment"))).
Proof.
  unfold PlacesSearchV1.POST.
  destruct json as [b | e]; simpl; [| left; simpl; auto].
  destruct (field "query" b) as [query | e] eqn:Fq; simpl; [| left; simpl; auto].
  destruct (field "location" b) as [location | e] eqn:Fl; simpl;
    [| left; simpl; auto].
  destruct (field "radius" b) as [radius | e] eqn:Fr; simpl; [| left; simpl; auto].
  destruct (keyMissing apiKey) eqn:K; [left; simpl; auto |].
  destruct (validLocation location) eqn:V; simpl;
    [| left; simpl; repeat split; auto; discriminate].
  destruct (PlacesSearchV1.locationString NumberToString ObjectToString
              location) as [l | e] eqn:L; simpl; [| left; simpl; auto].
  destruct (PlacesSearchV1.str NumberToString ObjectToString query)
    as [q | e]; simpl; [| left; simpl; auto].
  right. exists b, query, location, radius, l. repeat split; auto.
Qed.
End RouteV1Requests.

(** X10: whatever the request body and the environment, the first version
    of the places-search route sends at most one nearby search, and only
    when the API key is configured and the body holds a [location] object
    with [lat] and [lng]; the search carries that key, the type
    'establishment', the location as "lat,lng", and a radius that is
    always above 0 and at most 50000 metres. *)
Theorem X10_places_search_v1_request
    (NumberToString : float -> string)
    (ObjectToString : Js.Json -> Outcome string)
    (placesNearby : PlacesSearchV1.Params -> Outcome PlacesApi.Reply)
    (apiKey : option string) (json : Outcome Js.Json)
    (params : PlacesSearchV1.Params) :
  In params
     (PlacesApi.calls
        (PlacesSearchV1.POST NumberToString ObjectToString placesNearby
                             apiKey json)) ->
  PlacesApi.calls
    (PlacesSearchV1.POST NumberToString ObjectToString placesNearby
                         apiKey json) = [params]
  /\ PlacesApi.keyMissing apiKey = false
  /\ apiKey = Some (PlacesSearchV1.key params)
  /\ PlacesSearchV1.type params = "establishment"%string
  /\ PrimFloat.ltb 0 (PlacesSearchV1.radius params) = true
  /\ PrimFloat.leb (PlacesSearchV1.radius params) 50000 = true
  /\ exists body location,
       json = Returned body
       /\ Js.field "location" body = Returned location
       /\ PlacesApi.validLocation location = true
       /\ PlacesSearchV1.locationString NumberToString ObjectToString location
          = Returned (PlacesSearchV1.location params).
Proof.
  intros Hin.
  destruct (v1_POST_cases NumberToString ObjectToString placesNearby
                          apiKey json)
    as [(Hc & _ & _) | (b & query & location & radius & l & -> & Hq & Hl & Hr
                       & K & V & L & Hh)].
  - rewrite Hc in Hin. destruct Hin.
  - rewrite Hh in Hin |- *. simpl in Hin |- *.
    destruct Hin as [<- | []]. simpl.
    destruct (validRadius_bounds radius) as [B0 B1].
    repeat split; auto.
    + destruct apiKey as [k |]; [reflexivity | discriminate].
    + exists b, location. auto.
Qed.

Lemma X10_places_search_v1_request_witness :
  let body := Js.JObject
                [("query", Js.JString "pizza");
                 ("location", Js.JObject [("lat", Js.JNumber 40.5);
                                          ("lng", Js.JNumber (-74))]);
                 ("radius", Js.JNumber 80000)]%string in
  let params := PlacesSearchV1.mkParams "k" "n,n" 5000 (Js.JString "pizza")
                                        "establishment" in
  PlacesApi.calls
    (PlacesSearchV1.POST (fun _ => "n"%string) (fun _ => Threw "TypeError")
                         (fun _ => Threw "offline") (Some "k"%string)
                         (Returned body)) = [params]
  /\ PrimFloat.leb (PlacesSearchV1.radius params) 50000 = true.
Proof.
  refine ((fun H => conj (proj1 H) (proj1 (proj2 (proj2 (proj2 (proj2 (proj2 H)))))))
            (@X10_places_search_v1_request
               (fun _ => "n"%string) (fun _ => Threw "TypeError")
               (fun _ => Threw "offline") (Some "k"%string)
               (Returned _) (PlacesSearchV1.mkParams "k" "n,n" 5000
                                (Js.JString "pizza") "establishment") _)).
  vm_compute. left. reflexivity.
Defined.

(** X11: the first version of the route answers 200, 400, 403, 429 or 500
    and nothing else.  It answers 200 only after a nearby search that the
    Places API answered with OK or ZERO_RESULTS; it answers 429 exactly
    when the API said OVER_QUERY_LIMIT and 403 exactly when it said
    REQUEST_DENIED.  A missing API key always gives 500 without any
    search. *)
Theorem X11_places_search_v1_status
    (NumberToString : float -> string)
    (ObjectToString : Js.Json -> Outcome string)
    (placesNearby : PlacesSearchV1.Params -> Outcome PlacesApi.Reply)
    (apiKey : option string) (json : Outcome Js.Json) :
  let h := PlacesSearchV1.POST NumberToString ObjectToString placesNearby
                               apiKey json in
  let upstream (s : string) :=
    exists params data,
      PlacesApi.calls h = [params]
      /\ placesNearby params = Returned data
      /\ PlacesApi.reply_status data = s in
  In (PlacesApi.status (PlacesApi.response h)) [200; 400; 403; 429; 500]%Z
  /\ (PlacesApi.status (PlacesApi.response h) = 200%Z ->
      upstream "OK"%string \/ upstream "ZERO_RESULTS"%string)
  /\ (PlacesApi.status (PlacesApi.response h) = 429%Z <->
      upstream "OVER_QUERY_LIMIT"%string)
  /\ (PlacesApi.status (PlacesApi.response h) = 403%Z <->
      upstream "REQUEST_DENIED"%string)
  /\ (PlacesApi.keyMissing apiKey = true ->
      PlacesApi.calls h = []
      /\ PlacesApi.status (PlacesApi.response h) = 500%Z).
Proof.
  intros h upstream.
  destruct (v1_POST_cases NumberToString ObjectToString placesNearby
                          apiKey json)
    as [(Hc & Hs & Hk) | (b & query & location & radius & l & -> & Hq & Hl
                          & Hr & K & V & L & Hh)].
  - fold h in Hc, Hs, Hk.
    assert (Hno : forall s, ~ upstream s).
    { intros s (p & d & Hp & _). rewrite Hc in Hp. discriminate. }
    split; [simpl in *; tauto |].
    split; [intros E; rewrite E in Hs; simpl in Hs; lia |].
    split; [split; [intros E; rewrite E in Hs; simpl in Hs; lia
                   | intros U; destruct (Hno _ U)] |].
    split; [split; [intros E; rewrite E in Hs; simpl in Hs; lia
                   | intros U; destruct (Hno _ U)] |].
    auto.
  - fold h in Hh.
    set (params := PlacesSearchV1.mkParams (PlacesApi.keyOf apiKey) l
                     (PlacesApi.validRadius radius) query "establishment")
      in Hh.
    destruct (v1_answer_status (placesNearby params)) as (A0 & A1 & A2 & A3).
    assert (Hup : forall s, upstream s <->
                    exists data, placesNearby params = Returned data
                                 /\ PlacesApi.reply_status data = s).
    { intros s. unfold upstream. rewrite Hh. simpl. split.
      - intros (p & d & Hp & Hd & Hst). injection Hp as <-. eauto.
      - intros (d & Hd & Hst). exists params, d. auto. }
    rewrite Hh at 1 2 3 4. simpl PlacesApi.status.
    split; [exact A0 |].
    split.
    { intros E. destruct (A1 E) as (d & Hd & [Ho | Hz]);
        [left | right]; apply Hup; eauto. }
    split; [rewrite Hup; exact A2 |].
    split; [rewrite Hup; exact A3 |].
    intros K'. congruence.
Qed.

Lemma X11_places_search_v1_status_witness :
  let h := PlacesSearchV1.POST (fun _ => "n"%string)
             (fun _ => Threw "TypeError")
             (fun _ => Returned (PlacesApi.mkReply "OK" [] Js.JUndefined))
             None (Returned (Js.JObject [])) in
  PlacesApi.keyMissing None = true
  /\ PlacesApi.calls h = []
  /\ PlacesApi.status (PlacesApi.response h) = 500%Z.
Proof.
  split; [reflexivity |].
  exact (proj2 (proj2 (proj2 (proj2
           (@X11_places_search_v1_status
              (fun _ => "n"%string) (fun _ => Threw "TypeError")
              (fun _ => Returned (PlacesApi.mkReply "OK" [] Js.JUndefined))
              None (Returned (Js.JObject [])))))) eq_refl).
Defined.

Section Route.
Import Js PlacesApi.
Variable StringToNumber : string -> float.
Variable NumberToString : float -> string.
Variable ObjectToNumber : Json -> Outcome float.
Variable ObjectToString : Json -> Outcome string.
Variable trim : string -> string.
Variable textSearch : PlacesSearch.TextParams -> Outcome Reply.
Variable placesNearby : PlacesSearch.NearbyParams -> Outcome Reply.

Lemma page_status (format : Json -> Outcome Json) (data : Reply) :
  status (PlacesSearch.page format data) = 200%Z
  \/ status (PlacesSearch.page format data) = 500%Z.
Proof.
  unfold PlacesSearch.page.
  destruct (mapM format (reply_results data)); simpl; auto.
Qed.

(** What the handler does once the body has been read. *)
Lemma POST_cases (apiKey : option string) (json : Outcome Json) :
  let h := PlacesSearch.POST StringToNumber NumberToString ObjectToNumber
             ObjectToString trim textSearch placesNearby apiKey json in
  (calls h = []
   /\ In (status (response h)) [400; 500]%Z
   /\ (keyMissing apiKey = true -> status (response h) = 500%Z))
  \/ (exists f p,
        bind json PlacesSearch.destructure = Returned f
        /\ keyMissing apiKey = false
        /\ PlacesSearch.isNationwideSearch StringToNumber ObjectToNumber f
           = Returned true
        /\ PlacesSearch.textParams NumberToString ObjectToString apiKey f
           = Returned p
        /\ h = mkHandled [PlacesSearch.TextSearch p]
                         (PlacesSearch.answerText (textSearch p)))
  \/ (exists f l p,
        bind json PlacesSearch.destructure = Returned f
        /\ keyMissing apiKey = false
        /\ PlacesSearch.isNationwideSearch StringToNumber ObjectToNumber f
           = Returned false
        /\ validLocation (PlacesSearch.f_location f) = true
        /\ PlacesSearch.locationString NumberToString ObjectToString
             (PlacesSearch.f_location f) = Returned l
        /\ PlacesSearch.nearbyParams trim apiKey f l
             (validRadius (PlacesSearch.f_radius f)) = Returned p
        /\ h = mkHandled [PlacesSearch.PlacesNearby p]
                         (PlacesSearch.answerNearby (placesNearby p))).
Proof.
  unfold PlacesSearch.POST.
  destruct (bind json PlacesSearch.destructure) as [f | e] eqn:D;
    [| left; simpl; auto].
  destruct (keyMissing apiKey) eqn:K; [left; simpl; auto |].
  destruct (PlacesSearch.isNationwideSearch StringToNumber ObjectToNumber f)
    as [[|] | e] eqn:N; [| | left; simpl; auto].
  - unfold PlacesSearch.textBranch.
    destruct (PlacesSearch.str NumberToString ObjectToString
                (PlacesSearch.f_query f)); [| left; simpl; auto].
    destruct (PlacesSearch.textParams NumberToString ObjectToString apiKey f)
      as [p | e] eqn:P; [| left; simpl; auto].
    right. left. exists f, p. auto.
  - unfold PlacesSearch.nearbyBranch.
    destruct (validLocation (PlacesSearch.f_location f)) eqn:V; simpl;
      [| left; simpl; repeat split; auto; discriminate].
    destruct (PlacesSearch.locationString NumberToString ObjectToString
                (PlacesSearch.f_location f)) as [l | e] eqn:L; simpl;
      [| left; simpl; auto].
    destruct (PlacesSearch.str NumberToString ObjectToString
                (orElse (PlacesSearch.f_query f)
                        (JString "nearby businesses"))); simpl;
      [| left; simpl; auto].
    destruct (if truthy (PlacesSearch.f_type f)
              then PlacesSearch.str NumberToString ObjectToString
                     (PlacesSearch.f_type f)
              else Returned ""%string); simpl; [| left; simpl; auto].
    destruct (PlacesSearch.nearbyParams trim apiKey f l
                (validRadius (PlacesSearch.f_radius f))) as [p | e] eqn:P;
      [| left; simpl; auto].
    right. right. exists f, l, p. repeat split; auto.
Qed.

(** The parameters the nearby search is given. *)
Lemma nearbyParams_shape (apiKey : option string) (f : PlacesSearch.Fields)
    (l : string) (r : float) (p : PlacesSearch.NearbyParams) :
  PlacesSearch.nearbyParams trim apiKey f l r = Returned p ->
  PlacesSearch.key p = keyOf apiKey
  /\ PlacesSearch.location p = l
  /\ truthy (PlacesSearch.type p) = true
  /\ ((exists token, PlacesSearch.pagetoken p = Some token
                     /\ token = PlacesSearch.f_pageToken f
                     /\ truthy token = true
                     /\ PlacesSearch.rankby p = None
                     /\ PlacesSearch.radius p = None
                     /\ PlacesSearch.keyword p = None)
      \/ (PlacesSearch.pagetoken p = None
          /\ PlacesSearch.rankby p = Some "distance"%string
          /\ PlacesSearch.radius p = None)
      \/ (PlacesSearch.pagetoken p = None
          /\ PlacesSearch.rankby p = None
          /\ PlacesSearch.radius p = Some r))
  /\ (forall k, PlacesSearch.keyword p = Some k ->
        k = PlacesSearch.f_query f
        /\ exists s, k = JString s /\ trim s <> ""%string).
Proof.
  unfold PlacesSearch.nearbyParams.
  assert (T : truthy (orElse (PlacesSearch.f_type f) (JString "establishment"))
              = true).
  { unfold orElse. destruct (truthy (PlacesSearch.f_type f)) eqn:E; auto. }
  destruct (truthy (PlacesSearch.f_pageToken f)) eqn:Tok.
  { intros H. injection H as <-. simpl. repeat split; auto.
    - left. exists (PlacesSearch.f_pageToken f). repeat split; auto.
    - discriminate.
    - discriminate. }
  assert (K : forall kw,
             (if truthy (PlacesSearch.f_query f)
              then bind (PlacesSearch.trimmed trim (PlacesSearch.f_query f))
                     (fun t => Returned (if negb (String.eqb t "")
                                         then Some (PlacesSearch.f_query f)
                                         else None))
              else Returned None) = Returned kw ->
             forall k, kw = Some k ->
               k = PlacesSearch.f_query f
               /\ exists s, k = JString s /\ trim s <> ""%string).
  { intros kw Hkw k ->.
    destruct (truthy (PlacesSearch.f_query f)); [| discriminate].
    destruct (PlacesSearch.f_query f) as [| | b | x | s | items | fields];
      simpl in Hkw; try discriminate.
    destruct (String.eqb_spec (trim s) ""); simpl in Hkw; [discriminate |].
    injection Hkw as <-. split; [reflexivity |]. eauto. }
  destruct (PlacesSearch.byDistance (PlacesSearch.f_rankBy f)); cbv zeta beta.
  - destruct (if truthy (PlacesSearch.f_query f)
              then bind (PlacesSearch.trimmed trim (PlacesSearch.f_query f)) _
              else Returned None) as [kw | e] eqn:Ekw; simpl;
      [| discriminate].
    intros H. injection H as <-. simpl. repeat split; auto.
    + destruct (negb (truthy (PlacesSearch.f_query f))
                && negb (truthy (PlacesSearch.f_type f))); auto.
    + eapply K; eauto.
    + eapply K; eauto.
  - destruct (if truthy (PlacesSearch.f_query f)
              then bind (PlacesSearch.trimmed trim (PlacesSearch.f_query f)) _
              else Returned None) as [kw | e] eqn:Ekw; simpl;
      [| discriminate].
    intros H. injection H as <-. simpl. repeat split; auto.
    + eapply K; eauto.
    + eapply K; eauto.
Qed.
End Route.

(** X12: every nearby search the places-search route sends is the only
    request of that call, carries the configured API key and a non-empty
    type, and uses exactly one of three modes: a page token alone (no
    radius, ranking or keyword), ranking by distance without a radius, or
    a radius, which is then above 0 and at most 50000 metres.  A keyword
    is sent only for a string query that is not blank. *)
Theorem X12_places_search_nearby_request
    (StringToNumber : string -> float) (NumberToString : float -> string)
    (ObjectToNumber : Js.Json -> Outcome float)
    (ObjectToString : Js.Json -> Outcome string)
    (trim : string -> string)
    (textSearch : PlacesSearch.TextParams -> Outcome PlacesApi.Reply)
    (placesNearby : PlacesSearch.NearbyParams -> Outcome PlacesApi.Reply)
    (apiKey : option string) (json : Outcome Js.Json)
    (p : PlacesSearch.NearbyParams) :
  let h := PlacesSearch.POST StringToNumber NumberToString ObjectToNumber
             ObjectToString trim textSearch placesNearby apiKey json in
  In (PlacesSearch.PlacesNearby p) (PlacesApi.calls h) ->
  PlacesApi.calls h = [PlacesSearch.PlacesNearby p]
  /\ apiKey = Some (PlacesSearch.key p)
  /\ PlacesSearch.key p <> ""%string
  /\ Js.truthy (PlacesSearch.type p) = true
  /\ ((exists token, PlacesSearch.pagetoken p = Some token
                     /\ Js.truthy token = true
                     /\ PlacesSearch.rankby p = None
                     /\ PlacesSearch.radius p = None
                     /\ PlacesSearch.keyword p = None)
      \/ (PlacesSearch.pagetoken p = None
          /\ PlacesSearch.rankby p = Some "distance"%string
          /\ PlacesSearch.radius p = None)
      \/ (PlacesSearch.pagetoken p = None
          /\ PlacesSearch.rankby p = None
          /\ exists r, PlacesSearch.radius p = Some r
                       /\ PrimFloat.ltb 0 r = true
                       /\ PrimFloat.leb r 50000 = true))
  /\ (forall k, PlacesSearch.keyword p = Some k ->
        exists s, k = Js.JString s /\ trim s <> ""%string).
Proof.
  intros h Hin.
  destruct (POST_cases StringToNumber NumberToString ObjectToNumber
              ObjectToString trim textSearch placesNearby apiKey json)
    as [(Hc & _) | [(f & q & _ & _ & _ & _ & Hh)
                   | (f & l & p' & D & K & N & V & L & P & Hh)]];
    fold h in Hc || fold h in Hh.
  - rewrite Hc in Hin. destruct Hin.
  - rewrite Hh in Hin. simpl in Hin. destruct Hin as [H | []]. discriminate.
  - rewrite Hh in Hin |- *. simpl in Hin |- *.
    destruct Hin as [H | []]. injection H as ->.
    destruct (nearbyParams_shape _ _ _ _ _ P) as (Hk & Hl & Ht & Hm & Hw).
    destruct (validRadius_bounds (PlacesSearch.f_radius f)) as [B0 B1].
    split; [reflexivity |].
    split; [destruct apiKey; [simpl in Hk; congruence | discriminate] |].
    split.
    { rewrite Hk. destruct apiKey as [k |]; [| discriminate]. simpl in *.
      now destruct (String.eqb_spec k ""). }
    split; [exact Ht |].
    split.
    { destruct Hm as [(token & H1 & H2 & H3 & H4 & H5 & H6)
                     | [(H1 & H2 & H3) | (H1 & H2 & H3)]].
      - left. exists token. auto.
      - right. left. auto.
      - right. right. repeat split; auto. eauto. }
    intros k Hkw. destruct (Hw k Hkw) as (_ & s & Hs). eauto.
Qed.

Lemma X12_places_search_nearby_request_witness :
  let body := Js.JObject
                [("query", Js.JString "pizza");
                 ("location", Js.JObject [("lat", Js.JNumber 40.5);
                                          ("lng", Js.JNumber (-74))]);
                 ("radius", Js.JNumber 1500);
                 ("rankBy", Js.JString "distance")]%string in
  let p := PlacesSearch.mkNearbyParams "k" "n,n" (Js.JString "establishment")
             None (Some "distance"%string) None (Some (Js.JString "pizza")) in
  let h := PlacesSearch.POST (fun _ => PrimFloat.nan) (fun _ => "n"%string)
             (fun _ => Threw "TypeError") (fun _ => Threw "TypeError")
             (fun s => s) (fun _ => Threw "offline") (fun _ => Threw "offline")
             (Some "k"%string) (Returned body) in
  PlacesApi.calls h = [PlacesSearch.PlacesNearby p].
Proof.
  refine (proj1 (@X12_places_search_nearby_request
                   (fun _ => PrimFloat.nan) (fun _ => "n"%string)
                   (fun _ => Threw "TypeError") (fun _ => Threw "TypeError")
                   (fun s => s) (fun _ => Threw "offline")
                   (fun _ => Threw "offline")
                   (Some "k"%string) (Returned _)
                   (PlacesSearch.mkNearbyParams "k" "n,n"
                      (Js.JString "establishment") None
                      (Some "distance"%string) None
                      (Some (Js.JString "pizza"))) _)).
  vm_compute. left. reflexivity.
Defined.

Section RouteText.
Import Js PlacesApi.
Variable NumberToString : float -> string.
Variable ObjectToString : Json -> Outcome string.

Lemma textParams_shape (apiKey : option string) (f : PlacesSearch.Fields)
    (p : PlacesSearch.TextParams) :
  PlacesSearch.textParams NumberToString ObjectToString apiKey f
  = Returned p ->
  PlacesSearch.text_key p = keyOf apiKey
  /\ PlacesSearch.text_query p = PlacesSearch.f_query f
  /\ PlacesSearch.text_pagetoken p
     = (if truthy (PlacesSearch.f_pageToken f)
        then Some (PlacesSearch.f_pageToken f) else None)
  /\ ((PlacesSearch.text_location p = None
       /\ PlacesSearch.text_radius p = None
       /\ truthy (PlacesSearch.f_location f)
          && truthy (get "lat" (PlacesSearch.f_location f))
          && truthy (get "lng" (PlacesSearch.f_location f)) = false)
      \/ (exists l,
            PlacesSearch.locationString NumberToString ObjectToString
              (PlacesSearch.f_location f) = Returned l
            /\ PlacesSearch.text_location p = Some l
            /\ PlacesSearch.text_radius p = Some 50000%float
            /\ truthy (PlacesSearch.f_location f)
               && truthy (get "lat" (PlacesSearch.f_location f))
               && truthy (get "lng" (PlacesSearch.f_location f)) = true)).
Proof.
  unfold PlacesSearch.textParams.
  destruct (truthy (PlacesSearch.f_location f)
            && truthy (get "lat" (PlacesSearch.f_location f))
            && truthy (get "lng" (PlacesSearch.f_location f))) eqn:C.
  - destruct (PlacesSearch.locationString NumberToString ObjectToString
                (PlacesSearch.f_location f)) as [l | e] eqn:L; simpl;
      [| discriminate].
    intros H. injection H as <-. simpl. repeat split; auto.
    right. exists l. auto.
  - intros H. injection H as <-. simpl. repeat split; auto.
Qed.
End RouteText.

(** X13: every text search the places-search route sends is the only
    request of that call and carries the configured API key and the
    request's query, which is never empty.  The location bias is all or
    nothing: either no location and no radius are sent, or the location as
    "lat,lng" together with the radius 50000; it is sent exactly when the
    request has a location whose [lat] and [lng] are both truthy, so a
    latitude or longitude of 0 drops the bias. *)
Theorem X13_places_search_text_request
    (StringToNumber : string -> float) (NumberToString : float -> string)
    (ObjectToNumber : Js.Json -> Outcome float)
    (ObjectToString : Js.Json -> Outcome string)
    (trim : string -> string)
    (textSearch : PlacesSearch.TextParams -> Outcome PlacesApi.Reply)
    (placesNearby : PlacesSearch.NearbyParams -> Outcome PlacesApi.Reply)
    (apiKey : option string) (json : Outcome Js.Json)
    (p : PlacesSearch.TextParams) :
  let h := PlacesSearch.POST StringToNumber NumberToString ObjectToNumber
             ObjectToString trim textSearch placesNearby apiKey json in
  In (PlacesSearch.TextSearch p) (PlacesApi.calls h) ->
  PlacesApi.calls h = [PlacesSearch.TextSearch p]
  /\ apiKey = Some (PlacesSearch.text_key p)
  /\ Js.truthy (PlacesSearch.text_query p) = true
  /\ (forall token, PlacesSearch.text_pagetoken p = Some token ->
        Js.truthy token = true)
  /\ exists body location,
       json = Returned body
       /\ Js.field "query" body = Returned (PlacesSearch.text_query p)
       /\ Js.field "location" body = Returned location
       /\ ((PlacesSearch.text_location p = None
            /\ PlacesSearch.text_radius p = None
            /\ Js.truthy location && Js.truthy (Js.get "lat" location)
               && Js.truthy (Js.get "lng" location) = false)
           \/ (exists l,
                 PlacesSearch.locationString NumberToString ObjectToString
                   location = Returned l
                 /\ PlacesSearch.text_location p = Some l
                 /\ PlacesSearch.text_radius p = Some 50000%float
                 /\ Js.truthy location && Js.truthy (Js.get "lat" location)
                    && Js.truthy (Js.get "lng" location) = true)).
Proof.
  intros h Hin.
  destruct (POST_cases StringToNumber NumberToString ObjectToNumber
              ObjectToString trim textSearch placesNearby apiKey json)
    as [(Hc & _) | [(f & p' & D & K & N & P & Hh)
                   | (f & l & p' & _ & _ & _ & _ & _ & _ & Hh)]];
    fold h in Hc || fold h in Hh.
  - rewrite Hc in Hin. destruct Hin.
  - rewrite Hh in Hin |- *. simpl in Hin |- *.
    destruct Hin as [H | []]. injection H as ->.
    destruct (textParams_shape _ _ _ _ P) as (Hk & Hq & Ht & Hb).
    split; [reflexivity |].
    split; [destruct apiKey; [simpl in Hk; congruence | discriminate] |].
    split.
    { rewrite Hq. unfold PlacesSearch.isNationwideSearch in N.
      destruct (Js.truthy (PlacesSearch.f_query f)); [reflexivity |].
      discriminate. }
    split.
    { intros token Htok. rewrite Ht in Htok.
      destruct (Js.truthy (PlacesSearch.f_pageToken f)) eqn:E;
        [| discriminate].
      injection Htok as <-. exact E. }
    destruct json as [body | e]; [| discriminate]. simpl in D.
    unfold PlacesSearch.destructure in D.
    destruct (Js.field "query" body) as [query |] eqn:Fq; [| discriminate].
    destruct (Js.field "location" body) as [location |] eqn:Fl;
      [| discriminate].
    simpl in D.
    destruct (Js.field "radius" body); [| discriminate].
    destruct (Js.field "type" body); [| discriminate].
    destruct (Js.field "rankBy" body); [| discriminate].
    destruct (Js.field "pageToken" body); [| discriminate].
    simpl in D. injection D as <-. simpl in *.
    exists body, location. rewrite Hq. auto.
  - rewrite Hh in Hin. simpl in Hin. destruct Hin as [H | []]. discriminate.
Qed.

Lemma X13_places_search_text_request_witness :
  let body := Js.JObject
                [("query", Js.JString "pizza");
                 ("location", Js.JObject [("lat", Js.JNumber 0);
                                          ("lng", Js.JNumber (-74))]);
                 ("radius", Js.JNumber 80000)]%string in
  let p := PlacesSearch.mkTextParams "k" (Js.JString "pizza") None None None in
  let h := PlacesSearch.POST (fun _ => PrimFloat.nan) (fun _ => "n"%string)
             (fun _ => Threw "TypeError") (fun _ => Threw "TypeError")
             (fun s => s) (fun _ => Threw "offline") (fun _ => Threw "offline")
             (Some "k"%string) (Returned body) in
  PlacesApi.calls h = [PlacesSearch.TextSearch p].
Proof.
  refine (proj1 (@X13_places_search_text_request
                   (fun _ => PrimFloat.nan) (fun _ => "n"%string)
                   (fun _ => Threw "TypeError") (fun _ => Threw "TypeError")
                   (fun s => s) (fun _ => Threw "offline")
                   (fun _ => Threw "offline")
                   (Some "k"%string) (Returned _)
                   (PlacesSearch.mkTextParams "k" (Js.JString "pizza")
                      None None None) _)).
  vm_compute. left. reflexivity.
Defined.

Lemma answerText_status (reply : Outcome PlacesApi.Reply) :
  In (PlacesApi.status (PlacesSearch.answerText reply))
     [200; 400; 403; 429; 500]%Z
  /\ (PlacesApi.status (PlacesSearch.answerText reply) = 200%Z ->
      exists data, reply = Returned data
        /\ (PlacesApi.reply_status data = "OK"
            \/ PlacesApi.reply_status data = "ZERO_RESULTS")%string)
  /\ (PlacesApi.status (PlacesSearch.answerText reply) = 429%Z <->
      exists data, reply = Returned data
        /\ PlacesApi.reply_status data = "OVER_QUERY_LIMIT"%string)
  /\ (PlacesApi.status (PlacesSearch.answerText reply) = 403%Z <->
      exists data, reply = Returned data
        /\ PlacesApi.reply_status data = "REQUEST_DENIED"%string).
Proof.
  destruct reply as [data | e]; simpl.
  2: { repeat split; try (simpl; tauto); try discriminate.
       all: intros (d & H & _); discriminate. }
  destruct (statusResponse_status (PlacesApi.reply_status data))
    as (S0 & S1 & S2 & S3).
  destruct (String.eqb_spec (PlacesApi.reply_status data) "OK") as [E | E];
    [| destruct (String.eqb_spec (PlacesApi.reply_status data) "ZERO_RESULTS")
        as [E' | E']]; simpl.
  1, 2: destruct (page_status PlacesSearch.formatTextPlace data) as [P | P];
    rewrite P; repeat split; try (simpl; tauto); try discriminate; eauto;
    intros (d & H & H'); injection H as <-; congruence.
  repeat split; auto.
  - intros H. apply S1 in H. contradiction.
  - intros H. exists data. split; [reflexivity |]. now apply S2.
  - intros (d & H & H'). injection H as <-. now apply S2.
  - intros H. exists data. split; [reflexivity |]. now apply S3.
  - intros (d & H & H'). injection H as <-. now apply S3.
Qed.

Lemma answerNearby_status (reply : Outcome PlacesApi.Reply) :
  In (PlacesApi.status (PlacesSearch.answerNearby reply))
     [200; 400; 403; 429; 500]%Z
  /\ (PlacesApi.status (PlacesSearch.answerNearby reply) = 200%Z ->
      exists data, reply = Returned data
        /\ (PlacesApi.reply_status data = "OK"
            \/ PlacesApi.reply_status data = "ZERO_RESULTS")%string)
  /\ (PlacesApi.status (PlacesSearch.answerNearby reply) = 429%Z <->
      exists data, reply = Returned data
        /\ PlacesApi.reply_status data = "OVER_QUERY_LIMIT"%string)
  /\ (PlacesApi.status (PlacesSearch.answerNearby reply) = 403%Z <->
      exists data, reply = Returned data
        /\ PlacesApi.reply_status data = "REQUEST_DENIED"%string).
Proof.
  destruct reply as [data | e]; simpl.
  2: { repeat split; try (simpl; tauto); try discriminate.
       all: intros (d & H & _); discriminate. }
  destruct (statusResponse_status (PlacesApi.reply_status data))
    as (S0 & S1 & S2 & S3).
  destruct (String.eqb_spec (PlacesApi.reply_status data) "OK") as [E | E];
    simpl.
  1: destruct (page_status PlacesSearch.formatNearbyPlace data) as [P | P];
    rewrite P; repeat split; try (simpl; tauto); try discriminate; eauto;
    intros (d & H & H'); injection H as <-; congruence.
  repeat split; auto.
  - intros H. exists data. split; [reflexivity |]. right. now apply S1.
  - intros H. exists data. split; [reflexivity |]. now apply S2.
  - intros (d & H & H'). injection H as <-. now apply S2.
  - intros H. exists data. split; [reflexivity |]. now apply S3.
  - intros (d & H & H'). injection H as <-. now apply S3.
Qed.

(** X14: the places-search route sends at most one request to the Places
    API and answers 200, 400, 403, 429 or 500 and nothing else.  It answers
    200 only after a search that the API answered with OK or ZERO_RESULTS,
    429 exactly when the API said OVER_QUERY_LIMIT and 403 exactly when it
    said REQUEST_DENIED.  A missing API key always gives 500 without any
    request. *)
Theorem X14_places_search_status
    (StringToNumber : string -> float) (NumberToString : float -> string)
    (ObjectToNumber : Js.Json -> Outcome float)
    (ObjectToString : Js.Json -> Outcome string)
    (trim : string -> string)
    (textSearch : PlacesSearch.TextParams -> Outcome PlacesApi.Reply)
    (placesNearby : PlacesSearch.NearbyParams -> Outcome PlacesApi.Reply)
    (apiKey : option string) (json : Outcome Js.Json) :
  let h := PlacesSearch.POST StringToNumber NumberToString ObjectToNumber
             ObjectToString trim textSearch placesNearby apiKey json in
  let upstream (s : string) :=
    exists call data,
      PlacesApi.calls h = [call]
      /\ PlacesSearch.send textSearch placesNearby call = Returned data
      /\ PlacesApi.reply_status data = s in
  (List.length (PlacesApi.calls h) <= 1)%nat
  /\ In (PlacesApi.status (PlacesApi.response h)) [200; 400; 403; 429; 500]%Z
  /\ (PlacesApi.status (PlacesApi.response h) = 200%Z ->
      upstream "OK"%string \/ upstream "ZERO_RESULTS"%string)
  /\ (PlacesApi.status (PlacesApi.response h) = 429%Z <->
      upstream "OVER_QUERY_LIMIT"%string)
  /\ (PlacesApi.status (PlacesApi.response h) = 403%Z <->
      upstream "REQUEST_DENIED"%string)
  /\ (PlacesApi.keyMissing apiKey = true ->
      PlacesApi.calls h = []
      /\ PlacesApi.status (PlacesApi.response h) = 500%Z).
Proof.
  intros h upstream.
  assert (Hgen : forall call answer,
            h = PlacesApi.mkHandled [call] answer ->
            PlacesApi.keyMissing apiKey = false ->
            (In (PlacesApi.status answer) [200; 400; 403; 429; 500]%Z
             /\ (PlacesApi.status answer = 200%Z ->
                 exists data,
                   PlacesSearch.send textSearch placesNearby call
                   = Returned data
                   /\ (PlacesApi.reply_status data = "OK"
                       \/ PlacesApi.reply_status data = "ZERO_RESULTS")%string)
             /\ (PlacesApi.status answer = 429%Z <->
                 exists data,
                   PlacesSearch.send textSearch placesNearby call
                   = Returned data
                   /\ PlacesApi.reply_status data = "OVER_QUERY_LIMIT"%string)
             /\ (PlacesApi.status answer = 403%Z <->
                 exists data,
                   PlacesSearch.send textSearch placesNearby call
                   = Returned data
                   /\ PlacesApi.reply_status data = "REQUEST_DENIED"%string)) ->
            (List.length (PlacesApi.calls h) <= 1)%nat
            /\ In (PlacesApi.status (PlacesApi.response h))
                  [200; 400; 403; 429; 500]%Z
            /\ (PlacesApi.status (PlacesApi.response h) = 200%Z ->
                upstream "OK"%string \/ upstream "ZERO_RESULTS"%string)
            /\ (PlacesApi.status (PlacesApi.response h) = 429%Z <->
                upstream "OVER_QUERY_LIMIT"%string)
            /\ (PlacesApi.status (PlacesApi.response h) = 403%Z <->
                upstream "REQUEST_DENIED"%string)
            /\ (PlacesApi.keyMissing apiKey = true ->
                PlacesApi.calls h = []
                /\ PlacesApi.status (PlacesApi.response h) = 500%Z)).
  { intros call answer Hh K (A0 & A1 & A2 & A3).
    assert (Hup : forall s, upstream s <->
                    exists data,
                      PlacesSearch.send textSearch placesNearby call
                      = Returned data
                      /\ PlacesApi.reply_status data = s).
    { intros s. unfold upstream. rewrite Hh. simpl. split.
      - intros (c & d & Hc & Hd & Hst). injection Hc as <-. eauto.
      - intros (d & Hd & Hst). exists call, d. auto. }
    rewrite Hh at 1 2 3 4 5. simpl PlacesApi.status. simpl PlacesApi.calls.
    split; [simpl; lia |].
    split; [exact A0 |].
    split.
    { intros E. destruct (A1 E) as (d & Hd & [Ho | Hz]);
        [left | right]; apply Hup; eauto. }
    split; [rewrite Hup; exact A2 |].
    split; [rewrite Hup; exact A3 |].
    intros K'. congruence. }
  destruct (POST_cases StringToNumber NumberToString ObjectToNumber
              ObjectToString trim textSearch placesNearby apiKey json)
    as [(Hc & Hs & Hk) | [(f & p & _ & K & _ & _ & Hh)
                         | (f & l & p & _ & K & _ & _ & _ & _ & Hh)]].
  - fold h in Hc, Hs, Hk.
    assert (Hno : forall s, ~ upstream s).
    { intros s (p & d & Hp & _). rewrite Hc in Hp. discriminate. }
    split; [rewrite Hc; simpl; lia |].
    split; [simpl in *; tauto |].
    split; [intros E; rewrite E in Hs; simpl in Hs; lia |].
    split; [split; [intros E; rewrite E in Hs; simpl in Hs; lia
                   | intros U; destruct (Hno _ U)] |].
    split; [split; [intros E; rewrite E in Hs; simpl in Hs; lia
                   | intros U; destruct (Hno _ U)] |].
    auto.
  - fold h in Hh. apply (Hgen _ _ Hh K). simpl.
    apply answerText_status.
  - fold h in Hh. apply (Hgen _ _ Hh K). simpl.
    apply answerNearby_status.
Qed.

Lemma X14_places_search_status_witness :
  let h := PlacesSearch.POST (fun _ => PrimFloat.nan) (fun _ => "n"%string)
             (fun _ => Threw "TypeError") (fun _ => Threw "TypeError")
             (fun s => s)
             (fun _ => Returned (PlacesApi.mkReply "OK" [] Js.JUndefined))
             (fun _ => Returned (PlacesApi.mkReply "OK" [] Js.JUndefined))
             (Some ""%string) (Returned (Js.JObject [])) in
  PlacesApi.keyMissing (Some ""%string) = true
  /\ PlacesApi.calls h = []
  /\ PlacesApi.status (PlacesApi.response h) = 500%Z.
Proof.
  split; [reflexivity |].
  exact (proj2 (proj2 (proj2 (proj2 (proj2
           (@X14_places_search_status
              (fun _ => PrimFloat.nan) (fun _ => "n"%string)
              (fun _ => Threw "TypeError") (fun _ => Threw "TypeError")
              (fun s => s)
              (fun _ => Returned (PlacesApi.mkReply "OK" [] Js.JUndefined))
              (fun _ => Returned (PlacesApi.mkReply "OK" [] Js.JUndefined))
              (Some ""%string) (Returned (Js.JObject []))))))) eq_refl).
Defined.

(** * Competitor searches: from the component to the route *)

Section CompetitorRequests.
Import Js PlacesApi.
Variable StringToNumber : string -> float.
Variable NumberToString : float -> string.
Variable ObjectToNumber : Json -> Outcome float.
Variable ObjectToString : Json -> Outcome string.
Variable trim : string -> string.
Variable textSearch : PlacesSearch.TextParams -> Outcome Reply.
Variable placesNearby : PlacesSearch.NearbyParams -> Outcome Reply.

Lemma str_jsonNumber (x : float) :
  exists s, Js.toString NumberToString ObjectToString
              (Competitors.jsonNumber x) = Returned s.
Proof.
  unfold Competitors.jsonNumber.
  destruct (PrimFloat.is_finite x); [destruct (PrimFloat.is_zero x) |];
    simpl; eauto.
Qed.

Lemma locationString_jsonLocation (location : LatLng float) :
  exists l, PlacesSearch.locationString NumberToString ObjectToString
              (Competitors.jsonLocation location) = Returned l.
Proof.
  unfold PlacesSearch.locationString, PlacesSearch.str. simpl.
  destruct (str_jsonNumber (lat location)) as [a ->].
  destruct (str_jsonNumber (lng location)) as [b ->].
  simpl. eauto.
Qed.
End CompetitorRequests.

Section CompetitorsViewRequest.
Import Js PlacesApi.
Variable StringToNumber : string -> float.
Variable NumberToString : float -> string.
Variable ObjectToNumber : Json -> Outcome float.
Variable ObjectToString : Json -> Outcome string.
Variable trim : string -> string.
Variable textSearch : PlacesSearch.TextParams -> Outcome Reply.
Variable placesNearby : PlacesSearch.NearbyParams -> Outcome Reply.
Variable apiKey : option string.
Variables businessType searchTerm : string.
Variable location : option Json.

(** What the route reads from the body of [handleCompetitorsView]. *)
Lemma competitorsView_POST :
  keyMissing apiKey = false ->
  PlacesSearch.POST StringToNumber NumberToString ObjectToNumber
    ObjectToString trim textSearch placesNearby apiKey
    (Returned (Competitors.competitorsViewBody businessType searchTerm
                                               location))
  = let f := PlacesSearch.mkFields
               (JString (CompetitorQuery.searchQuery businessType searchTerm))
               (match location with Some v => v | None => JUndefined end)
               JUndefined (JString businessType) (JString "distance")
               JUndefined in
    match PlacesSearch.isNationwideSearch StringToNumber ObjectToNumber f with
    | Threw _ => mkHandled [] processingFailed
    | Returned true =>
      PlacesSearch.textBranch NumberToString ObjectToString textSearch
                              apiKey f
    | Returned false =>
      PlacesSearch.nearbyBranch NumberToString ObjectToString trim
                                placesNearby apiKey f
    end.
Proof.
  intros K. unfold PlacesSearch.POST.
  replace (bind (Returned (Competitors.competitorsViewBody businessType
                             searchTerm location))
                PlacesSearch.destructure)
    with (Returned
            (PlacesSearch.mkFields
               (JString (CompetitorQuery.searchQuery businessType searchTerm))
               (match location with Some v => v | None => JUndefined end)
               JUndefined (JString businessType) (JString "distance")
               JUndefined))
    by (destruct location; reflexivity).
  rewrite K. reflexivity.
Qed.

Lemma competitorsView_nationwide :
  PlacesSearch.isNationwideSearch StringToNumber ObjectToNumber
    (PlacesSearch.mkFields
       (JString (CompetitorQuery.searchQuery businessType searchTerm))
       (match location with Some v => v | None => JUndefined end)
       JUndefined (JString businessType) (JString "distance") JUndefined)
  = Returned
      (negb (String.eqb (CompetitorQuery.searchQuery businessType searchTerm)
                        "")
       && negb (truthy (match location with
                        | Some v => v
                        | None => JUndefined
                        end))).
Proof.
  unfold PlacesSearch.isNationwideSearch.
  cbn [PlacesSearch.f_query PlacesSearch.f_location PlacesSearch.f_radius
       truthy].
  destruct (String.eqb (CompetitorQuery.searchQuery businessType searchTerm)
                       ""); [reflexivity |].
  destruct (truthy (match location with
                    | Some v => v
                    | None => JUndefined
                    end)); reflexivity.
Qed.
End CompetitorsViewRequest.

(** X15: what the competitor search of [handleCompetitorsView] becomes at
    the Places API, the key being configured.  If the business has a
    location object with [lat] and [lng], it is exactly one nearby search
    ranked by distance, without radius or page token; a known business type
    is sent as type and keyword, otherwise the type is 'establishment' and
    the search term is the keyword, and a blank query sends no keyword.  If
    the location is missing (or falsy), the request is instead a text
    search for the query without location bias, or is refused with 400
    when the query is empty too; a location that is not an object with
    [lat] and [lng] is refused with 400. *)
Theorem X15_competitors_view_request
    (StringToNumber : string -> float) (NumberToString : float -> string)
    (ObjectToNumber : Js.Json -> Outcome float)
    (ObjectToString : Js.Json -> Outcome string)
    (trim : string -> string)
    (textSearch : PlacesSearch.TextParams -> Outcome PlacesApi.Reply)
    (placesNearby : PlacesSearch.NearbyParams -> Outcome PlacesApi.Reply)
    (apiKey : option string)
    (businessType searchTerm : string) (location : option Js.Json) :
  PlacesApi.keyMissing apiKey = false ->
  let query := CompetitorQuery.searchQuery businessType searchTerm in
  let posted := match location with Some v => v | None => Js.JUndefined end in
  let h := PlacesSearch.POST StringToNumber NumberToString ObjectToNumber
             ObjectToString trim textSearch placesNearby apiKey
             (Returned
                (Competitors.competitorsViewBody businessType searchTerm
                                                 location)) in
  let nearby (l : string) :=
    PlacesSearch.PlacesNearby
      (PlacesSearch.mkNearbyParams
         (PlacesApi.keyOf apiKey) l
         (Js.JString (if String.eqb businessType ""
                      then "establishment" else businessType))
         None (Some "distance"%string) None
         (if negb (String.eqb query "") && negb (String.eqb (trim query) "")
          then Some (Js.JString query) else None)) in
  (forall l,
     PlacesApi.validLocation posted = true ->
     PlacesSearch.locationString NumberToString ObjectToString posted
     = Returned l ->
     PlacesApi.calls h = [nearby l])
  /\ (forall point : LatLng float,
        location = Some (Competitors.jsonLocation point) ->
        exists l, PlacesApi.calls h = [nearby l])
  /\ (Js.truthy posted = false -> query <> ""%string ->
      PlacesApi.calls h
      = [PlacesSearch.TextSearch
           (PlacesSearch.mkTextParams (PlacesApi.keyOf apiKey)
                                      (Js.JString query) None None None)])
  /\ (Js.truthy posted = false -> query = ""%string ->
      PlacesApi.calls h = []
      /\ PlacesApi.response h = PlacesApi.invalidLocation)
  /\ (Js.truthy posted = true -> PlacesApi.validLocation posted = false ->
      PlacesApi.calls h = []
      /\ PlacesApi.response h = PlacesApi.invalidLocation).
Proof.
  intros K query posted h nearby.
  assert (Hh := @competitorsView_POST StringToNumber NumberToString
                  ObjectToNumber ObjectToString trim textSearch placesNearby
                  apiKey businessType searchTerm location K).
  fold h in Hh. cbv zeta in Hh.
  rewrite (@competitorsView_nationwide StringToNumber ObjectToNumber
             businessType searchTerm location) in Hh.
  fold query posted in Hh.
  assert (Near : forall l,
            PlacesApi.validLocation posted = true ->
            PlacesSearch.locationString NumberToString ObjectToString posted
            = Returned l ->
            PlacesApi.calls h = [nearby l]).
  { intros l V L.
    assert (T : Js.truthy posted = true).
    { unfold PlacesApi.validLocation in V.
      destruct (Js.truthy posted); [reflexivity | discriminate]. }
    rewrite T, Bool.andb_false_r in Hh. rewrite Hh.
    unfold PlacesSearch.nearbyBranch.
    cbn [PlacesSearch.f_query PlacesSearch.f_location PlacesSearch.f_radius
         PlacesSearch.f_type PlacesSearch.f_rankBy PlacesSearch.f_pageToken].
    rewrite V. cbn [negb]. rewrite L.
    unfold nearby, PlacesSearch.nearbyParams, PlacesSearch.str, Js.orElse.
    cbn [PlacesSearch.f_query PlacesSearch.f_location PlacesSearch.f_radius
         PlacesSearch.f_type PlacesSearch.f_rankBy PlacesSearch.f_pageToken].
    cbn [Js.truthy PlacesSearch.byDistance PlacesSearch.trimmed].
    replace (String.eqb "distance" "distance") with true by reflexivity.
    destruct (String.eqb query "") eqn:Q;
      destruct (String.eqb businessType "") eqn:B; cbn;
      try destruct (String.eqb (trim query) ""); reflexivity. }
  split; [exact Near |]. split; [| split; [| split]].
  - intros point ->.
    destruct (locationString_jsonLocation NumberToString ObjectToString point)
      as [l L].
    exists l. apply Near; [reflexivity | exact L].
  - intros T Q. rewrite T in Hh.
    destruct (String.eqb_spec query "") as [| _]; [contradiction |].
    cbn [negb andb] in Hh. rewrite Hh.
    unfold PlacesSearch.textBranch, PlacesSearch.textParams, PlacesSearch.str.
    cbn [PlacesSearch.f_query PlacesSearch.f_location PlacesSearch.f_pageToken
         Js.toString Js.truthy].
    rewrite T. reflexivity.
  - intros T ->. cbn [String.eqb negb andb] in Hh. rewrite Hh.
    unfold PlacesSearch.nearbyBranch, PlacesApi.validLocation.
    cbn [PlacesSearch.f_location]. rewrite T. split; reflexivity.
  - intros T V. rewrite T, Bool.andb_false_r in Hh. rewrite Hh.
    unfold PlacesSearch.nearbyBranch.
    cbn [PlacesSearch.f_location]. rewrite V. split; reflexivity.
Qed.

Lemma X15_competitors_view_request_witness :
  PlacesApi.calls
    (PlacesSearch.POST (fun _ => PrimFloat.nan) (fun _ => "n"%string)
       (fun _ => Threw "TypeError") (fun _ => Threw "TypeError")
       (fun s => s) (fun _ => Threw "offline") (fun _ => Threw "offline")
       (Some "k"%string)
       (Returned (Competitors.competitorsViewBody "" "pizza" None)))
  = [PlacesSearch.TextSearch
       (PlacesSearch.mkTextParams "k" (Js.JString "pizza") None None None)].
Proof.
  exact (proj1 (proj2 (proj2
           (@X15_competitors_view_request
              (fun _ => PrimFloat.nan) (fun _ => "n"%string)
              (fun _ => Threw "TypeError") (fun _ => Threw "TypeError")
              (fun s => s) (fun _ => Threw "offline")
              (fun _ => Threw "offline")
              (Some "k"%string) "" "pizza" None eq_refl)))
           eq_refl ltac:(discriminate)).
Defined.

(** X16: with the API key configured, the search a marker click posts
    (query, grid point, radius 1500, rankBy 'prominence') reaches the
    Places API, through either version of the route, as exactly one nearby
    search of type 'establishment' whose radius is the 1500 metres asked
    for, never the 5000 default; the later version omits the keyword when
    the search term is blank, the first one always sends it. *)
Theorem X16_marker_click_request
    (StringToNumber : string -> float) (NumberToString : float -> string)
    (ObjectToNumber : Js.Json -> Outcome float)
    (ObjectToString : Js.Json -> Outcome string)
    (trim : string -> string)
    (textSearch : PlacesSearch.TextParams -> Outcome PlacesApi.Reply)
    (placesNearby : PlacesSearch.NearbyParams -> Outcome PlacesApi.Reply)
    (placesNearbyV1 : PlacesSearchV1.Params -> Outcome PlacesApi.Reply)
    (apiKey : option string)
    (searchTerm : string) (gridPoint : LatLng float) :
  PlacesApi.keyMissing apiKey = false ->
  exists l,
    PlacesSearch.locationString NumberToString ObjectToString
      (Competitors.jsonLocation gridPoint) = Returned l
    /\ PlacesApi.calls
         (PlacesSearch.POST StringToNumber NumberToString ObjectToNumber
            ObjectToString trim textSearch placesNearby apiKey
            (Returned (Competitors.markerClickBody searchTerm gridPoint)))
       = [PlacesSearch.PlacesNearby
            (PlacesSearch.mkNearbyParams
               (PlacesApi.keyOf apiKey) l (Js.JString "establishment")
               None None (Some 1500%float)
               (if negb (String.eqb searchTerm "")
                   && negb (String.eqb (trim searchTerm) "")
                then Some (Js.JString searchTerm) else None))]
    /\ PlacesApi.calls
         (PlacesSearchV1.POST NumberToString ObjectToString placesNearbyV1
            apiKey
            (Returned (Competitors.markerClickBody searchTerm gridPoint)))
       = [PlacesSearchV1.mkParams (PlacesApi.keyOf apiKey) l 1500
                                  (Js.JString searchTerm) "establishment"].
Proof.
  intros K.
  destruct (locationString_jsonLocation NumberToString ObjectToString gridPoint)
    as [l L].
  exists l. split; [exact L |]. split.
  - unfold PlacesSearch.POST, Competitors.markerClickBody.
    cbn [bind PlacesSearch.destructure Js.field Js.get Js.lookup String.eqb
         Ascii.eqb Bool.eqb].
    rewrite K.
    unfold PlacesSearch.isNationwideSearch.
    cbn [PlacesSearch.f_query PlacesSearch.f_location PlacesSearch.f_radius
         PlacesSearch.f_type PlacesSearch.f_rankBy PlacesSearch.f_pageToken].
    assert (N : (if negb (Js.truthy (Js.JString searchTerm))
                 then Returned false
                 else if negb (Js.truthy (Competitors.jsonLocation gridPoint))
                      then Returned true
                      else Js.greaterThan StringToNumber ObjectToNumber
                             (Js.JNumber 1500) 50000) = Returned false).
    { destruct (negb (Js.truthy (Js.JString searchTerm))); reflexivity. }
    rewrite N.
    unfold PlacesSearch.nearbyBranch.
    cbn [PlacesSearch.f_query PlacesSearch.f_location PlacesSearch.f_radius
         PlacesSearch.f_type PlacesSearch.f_rankBy PlacesSearch.f_pageToken].
    replace (PlacesApi.validLocation (Competitors.jsonLocation gridPoint))
      with true by reflexivity.
    replace (PlacesApi.validRadius (Js.JNumber 1500)) with 1500%float
      by reflexivity.
    cbn [negb]. rewrite L.
    unfold PlacesSearch.nearbyParams, PlacesSearch.str, Js.orElse.
    cbn [PlacesSearch.f_query PlacesSearch.f_location PlacesSearch.f_radius
         PlacesSearch.f_type PlacesSearch.f_rankBy PlacesSearch.f_pageToken].
    cbn [Js.truthy PlacesSearch.byDistance PlacesSearch.trimmed].
    replace (String.eqb "prominence" "distance") with false by reflexivity.
    destruct (String.eqb searchTerm "") eqn:Q; cbn;
      try destruct (String.eqb (trim searchTerm) ""); reflexivity.
  - unfold PlacesSearchV1.POST, Competitors.markerClickBody.
    cbn [bind Js.field Js.get Js.lookup String.eqb Ascii.eqb Bool.eqb].
    rewrite K.
    replace (PlacesApi.validLocation (Competitors.jsonLocation gridPoint))
      with true by reflexivity.
    replace (PlacesApi.validRadius (Js.JNumber 1500)) with 1500%float
      by reflexivity.
    cbn [negb].
    change (PlacesSearchV1.locationString NumberToString ObjectToString
              (Competitors.jsonLocation gridPoint))
      with (PlacesSearch.locationString NumberToString ObjectToString
              (Competitors.jsonLocation gridPoint)).
    rewrite L. reflexivity.
Qed.

Lemma X16_marker_click_request_witness :
  exists l,
    PlacesSearch.locationString (fun _ => "n"%string)
      (fun _ => Threw "TypeError")
      (Competitors.jsonLocation (mkLatLng 40.5%float (-74)%float)) = Returned l
    /\ PlacesApi.calls
         (PlacesSearch.POST (fun _ => PrimFloat.nan) (fun _ => "n"%string)
            (fun _ => Threw "TypeError") (fun _ => Threw "TypeError")
            (fun s => s) (fun _ => Threw "offline") (fun _ => Threw "offline")
            (Some "k"%string)
            (Returned
               (Competitors.markerClickBody "pizza"
                  (mkLatLng 40.5%float (-74)%float))))
       = [PlacesSearch.PlacesNearby
            (PlacesSearch.mkNearbyParams "k" l (Js.JString "establishment")
               None None (Some 1500%float) (Some (Js.JString "pizza")))]
    /\ PlacesApi.calls
         (PlacesSearchV1.POST (fun _ => "n"%string)
            (fun _ => Threw "TypeError") (fun _ => Threw "offline")
            (Some "k"%string)
            (Returned
               (Competitors.markerClickBody "pizza"
                  (mkLatLng 40.5%float (-74)%float))))
       = [PlacesSearchV1.mkParams "k" l 1500 (Js.JString "pizza")
                                  "establishment"].
Proof.
  exact (@X16_marker_click_request
           (fun _ => PrimFloat.nan) (fun _ => "n"%string)
           (fun _ => Threw "TypeError") (fun _ => Threw "TypeError")
           (fun s => s) (fun _ => Threw "offline") (fun _ => Threw "offline")
           (fun _ => Threw "offline")
           (Some "k"%string) "pizza" (mkLatLng 40.5%float (-74)%float)
           eq_refl).
Defined.

(** * Competitor lists *)

Section CompetitorLists.
Variable Place : Type.
Local Open Scope Z_scope.

Lemma nth_results (l : list Place) (i : nat) :
  nth_error (Competitors.results l) i
  = option_map (fun place => Competitors.mkCompetitor place (Z.of_nat i + 1))
               (nth_error l i).
Proof.
  unfold Competitors.results, forEach.
  assert (G : forall k,
             nth_error
               (forEachFrom k
                  (fun place index =>
                     [Competitors.mkCompetitor place (index + 1)]) l) i
             = option_map
                 (fun place =>
                    Competitors.mkCompetitor place (k + Z.of_nat i + 1))
                 (nth_error l i)).
  { revert i. induction l as [| x l IH]; intros i k; simpl.
    - destruct i; reflexivity.
    - destruct i as [| i]; simpl.
      + rewrite Z.add_0_r. reflexivity.
      + rewrite IH. destruct (nth_error l i); simpl; [| reflexivity].
        do 2 f_equal. lia. }
  rewrite G. destruct (nth_error l i); simpl; [| reflexivity].
  do 2 f_equal.
Qed.

Lemma length_results (l : list Place) :
  List.length (Competitors.results l) = List.length l.
Proof.
  unfold Competitors.results, forEach.
  rewrite length_forEachFrom with (n := 1%nat); [lia | reflexivity].
Qed.

Lemma in_results (l : list Place) (c : Competitors.Competitor Place) :
  In c (Competitors.results l) ->
  at_index l (Competitors.ranking c - 1) = Some (Competitors.place c)
  /\ 1 <= Competitors.ranking c <= Z.of_nat (List.length l).
Proof.
  intros H. apply In_nth_error in H. destruct H as [i H].
  rewrite nth_results in H.
  destruct (nth_error l i) as [place |] eqn:E; [| discriminate].
  injection H as <-. simpl.
  assert (i < List.length l)%nat by (apply nth_error_Some; congruence).
  split; [| lia].
  unfold at_index. destruct (Z.ltb_spec (Z.of_nat i + 1 - 1) 0); [lia |].
  replace (Z.to_nat (Z.of_nat i + 1 - 1)) with i by lia. exact E.
Qed.

Lemma results_sorted_from (l : list Place) (k : Z) :
  StronglySorted (fun a b => Competitors.ranking a < Competitors.ranking b)
    (forEachFrom k
       (fun place index => [Competitors.mkCompetitor place (index + 1)]) l)
  /\ Forall (fun c => k < Competitors.ranking c)
       (forEachFrom k
          (fun place index => [Competitors.mkCompetitor place (index + 1)])
          l).
Proof.
  revert k. induction l as [| x l IH]; intros k; simpl.
  - split; constructor.
  - destruct (IH (k + 1)) as [S F]. split.
    + constructor; [exact S |].
      eapply Forall_impl; [| exact F]. simpl. intros c Hc. lia.
    + constructor; [simpl; lia |].
      eapply Forall_impl; [| exact F]. simpl. intros c Hc. lia.
Qed.

Lemma StronglySorted_weaken (A : Type) (R R' : A -> A -> Prop) (l : list A) :
  (forall a b, R a b -> R' a b) ->
  StronglySorted R l -> StronglySorted R' l.
Proof.
  intros HR. induction 1 as [| x l S IH F]; constructor; [exact IH |].
  eapply Forall_impl; [| exact F]. auto.
Qed.

(** Sorting a list that already ascends leaves it as it is. *)
Lemma sort_sorted (A : Type) (compare : A -> A -> Z) (l : list A) :
  StronglySorted (fun a b => compare a b <= 0) l ->
  Competitors.sort compare l = l.
Proof.
  induction 1 as [| x l S IH F]; [reflexivity |].
  unfold Competitors.sort in *. simpl. rewrite IH.
  destruct l as [| y l]; [reflexivity |]. simpl.
  inversion F as [| ? ? Hy _]; subst.
  destruct (Z.leb_spec (compare x y) 0); [reflexivity | lia].
Qed.
End CompetitorLists.

(** X17: in [handleCompetitorsView] the sort by ranking changes nothing:
    the array handed to [setCompetitors] is the first 20 places of the
    route's answer, in the answer's order, the place at position k carrying
    ranking k + 1.  (The table renders a filtered and re-sorted copy of
    that state; this is about the state, not the rendering.) *)
Theorem X17_top_results_keep_api_order
    (Place : Type) (competitorResults : list Place) :
  Competitors.topResults competitorResults
  = firstn 20 (Competitors.results competitorResults)
  /\ List.length (Competitors.topResults competitorResults)
     = Nat.min 20 (List.length competitorResults)
  /\ forall k : Z,
       (0 <= k)%Z ->
       at_index (Competitors.topResults competitorResults) k
       = if (k <? 20)%Z
         then option_map
                (fun place => Competitors.mkCompetitor place (k + 1))
                (at_index competitorResults k)
         else None.
Proof.
  assert (E : Competitors.topResults competitorResults
              = firstn 20 (Competitors.results competitorResults)).
  { unfold Competitors.topResults. f_equal. apply sort_sorted.
    unfold Competitors.results, forEach.
    destruct (results_sorted_from competitorResults 0) as [S _].
    eapply StronglySorted_weaken; [| exact S].
    unfold Competitors.byRanking. intros a b H. lia. }
  split; [exact E |]. rewrite E. split.
  - rewrite length_firstn, length_results. reflexivity.
  - intros k Hk. unfold at_index.
    destruct (Z.ltb_spec k 0); [lia |].
    destruct (Z.ltb_spec k 20).
    + rewrite nth_error_firstn.
      destruct (Nat.ltb_spec (Z.to_nat k) 20); [| lia].
      rewrite nth_results. rewrite Z2Nat.id by lia. reflexivity.
    + rewrite nth_error_firstn.
      destruct (Nat.ltb_spec (Z.to_nat k) 20); [lia | reflexivity].
Qed.

Lemma X17_top_results_keep_api_order_witness :
  (0 <= 1)%Z
  /\ at_index (Competitors.topResults ["a"; "b"; "c"]%string) 1
     = Some (Competitors.mkCompetitor "b"%string 2).
Proof.
  split; [lia |].
  exact (proj2 (proj2 (@X17_top_results_keep_api_order
                         string ["a"; "b"; "c"]%string))
               1%Z ltac:(lia)).
Defined.

(** X18: after a marker click the list is sorted by distance and cut to
    20, whatever order the sort produces: it holds min(20, n) competitors
    with distinct rankings, and the ranking each one shows is still its
    position (counted from 1) in the route's answer, not its position in
    the list. *)
Theorem X18_nearest_keep_api_ranking
    (Place : Type) (competitorResults : list Place)
    (sorted : list (Competitors.Competitor Place)) :
  Permutation sorted (Competitors.results competitorResults) ->
  List.length (Competitors.nearest sorted)
  = Nat.min 20 (List.length competitorResults)
  /\ NoDup (map (@Competitors.ranking Place) (Competitors.nearest sorted))
  /\ forall c, In c (Competitors.nearest sorted) ->
       at_index competitorResults (Competitors.ranking c - 1)
       = Some (Competitors.place c).
Proof.
  intros P. unfold Competitors.nearest. split; [| split].
  - rewrite length_firstn, (Permutation_length P), length_results.
    reflexivity.
  - assert (N : NoDup (map (@Competitors.ranking Place) sorted)).
    { eapply Permutation_NoDup;
        [apply Permutation_map; symmetry; exact P |].
      unfold Competitors.results, forEach.
      destruct (results_sorted_from competitorResults 0) as [S _].
      clear P. induction S as [| c l S IH F]; simpl; constructor.
      - intros Hin. apply in_map_iff in Hin. destruct Hin as (c' & E & Hc').
        rewrite Forall_forall in F. specialize (F c' Hc'). lia.
      - exact IH. }
    rewrite <- (firstn_skipn 20 sorted), map_app in N.
    eapply NoDup_app_remove_r. exact N.
  - intros c Hc. apply in_results.
    eapply Permutation_in; [exact P |].
    rewrite <- (firstn_skipn 20 sorted). apply in_or_app. now left.
Qed.

Lemma X18_nearest_keep_api_ranking_witness :
  let sorted := [Competitors.mkCompetitor "b"%string 2;
                 Competitors.mkCompetitor "a"%string 1] in
  Permutation sorted (Competitors.results ["a"; "b"]%string)
  /\ List.length (Competitors.nearest sorted) = 2%nat.
Proof.
  assert (P : Permutation [Competitors.mkCompetitor "b"%string 2;
                           Competitors.mkCompetitor "a"%string 1]
                          (Competitors.results ["a"; "b"]%string))
    by apply perm_swap.
  split; [exact P |].
  exact (proj1 (@X18_nearest_keep_api_ranking _ _ _ P)).
Defined.

(** * The place-photo and place-details routes *)

Lemma orString_nonempty (s : option string) (d : string) :
  d <> ""%string ->
  PlacePhoto.orString s d <> ""%string
  /\ (s = Some (PlacePhoto.orString s d)
      \/ (PlacePhoto.missing s = true /\ PlacePhoto.orString s d = d)).
Proof.
  intros Hd. destruct s as [v |]; simpl; [| auto].
  destruct (String.eqb_spec v ""); auto.
Qed.

(** X19: the place-photo route fetches at most one URL, and only when the
    photo reference and the API key are both present and non-empty; the
    URL always carries non-empty maxwidth and maxheight, each the request's
    own value or '400'.  A missing reference is answered 400 even when the
    key is missing too, and an image answer always has a non-empty
    Content-Type and comes from a successful fetch. *)
Theorem X19_place_photo
    (Bytes : Type) (fetch : string -> Outcome (PlacePhoto.Fetched Bytes))
    (apiKey reference maxwidth maxheight : option string) :
  let h := PlacePhoto.GET fetch apiKey reference maxwidth maxheight in
  (forall url, In url (PlacePhoto.fetched h) ->
     PlacePhoto.fetched h = [url]
     /\ exists r w t k,
          reference = Some r /\ r <> ""%string
          /\ apiKey = Some k /\ k <> ""%string
          /\ url = PlacePhoto.googleUrl r w t k
          /\ w <> ""%string /\ t <> ""%string
          /\ (maxwidth = Some w
              \/ (PlacePhoto.missing maxwidth = true /\ w = "400"%string))
          /\ (maxheight = Some t
              \/ (PlacePhoto.missing maxheight = true /\ t = "400"%string)))
  /\ (PlacePhoto.missing reference = true ->
      PlacePhoto.fetched h = []
      /\ PlacePhoto.response h
         = PlacePhoto.JsonError 400 "Missing photo reference")
  /\ (forall imageData type cache,
        PlacePhoto.response h = PlacePhoto.Image imageData type cache ->
        type <> ""%string
        /\ cache = "public, max-age=86400"%string
        /\ exists url answer,
             PlacePhoto.fetched h = [url]
             /\ fetch url = Returned answer
             /\ PlacePhoto.ok answer = true
             /\ PlacePhoto.arrayBuffer answer = Returned imageData).
Proof.
  intros h. unfold h, PlacePhoto.GET. cbv zeta.
  destruct (PlacePhoto.missing reference) eqn:R.
  { simpl. repeat split; try tauto; intros; discriminate. }
  destruct (PlacePhoto.missing apiKey) eqn:K.
  { simpl. repeat split; try tauto; intros; discriminate. }
  destruct reference as [r |]; [| discriminate].
  destruct apiKey as [k |]; [| discriminate].
  simpl in R, K.
  destruct (String.eqb_spec r "") as [| Hr]; [discriminate |].
  destruct (String.eqb_spec k "") as [| Hk]; [discriminate |].
  assert (Er : PlacePhoto.orString (Some r) "" = r).
  { simpl. destruct (String.eqb_spec r ""); congruence. }
  assert (Ek : PlacePhoto.orString (Some k) "" = k).
  { simpl. destruct (String.eqb_spec k ""); congruence. }
  rewrite Er, Ek.
  destruct (@orString_nonempty maxwidth "400") as [W1 W2]; [discriminate |].
  destruct (@orString_nonempty maxheight "400") as [H1 H2]; [discriminate |].
  cbn [PlacePhoto.fetched PlacePhoto.response].
  split; [| split].
  - intros url [<- | []]. split; [reflexivity |].
    exists r, (PlacePhoto.orString maxwidth "400"),
      (PlacePhoto.orString maxheight "400"), k.
    repeat split; auto.
  - discriminate.
  - intros imageData type cache.
    destruct (fetch _) as [answer | e] eqn:F; [| discriminate].
    destruct (PlacePhoto.ok answer) eqn:O; simpl; [| discriminate].
    destruct (PlacePhoto.arrayBuffer answer) as [data | e] eqn:A;
      [| discriminate].
    intros E. injection E as <- <- <-.
    split; [apply orString_nonempty; discriminate |].
    split; [reflexivity |]. eauto 6.
Qed.

Lemma X19_place_photo_witness :
  let h := PlacePhoto.GET (fun _ : string => @Threw (PlacePhoto.Fetched unit)
                                                    "offline")
                          None None (Some "120"%string) None in
  PlacePhoto.missing None = true
  /\ PlacePhoto.fetched h = []
  /\ PlacePhoto.response h = PlacePhoto.JsonError 400 "Missing photo reference".
Proof.
  split; [reflexivity |].
  exact (proj1 (proj2
           (@X19_place_photo unit
              (fun _ : string => @Threw (PlacePhoto.Fetched unit) "offline")
              None None (Some "120"%string) None)) eq_refl).
Defined.

(** X20: the place-details route answers 200, 400 or 500.  It fetches at
    most one URL, exactly when the body holds a truthy place id that can be
    written into the URL, and it does so whether or not the API key is
    configured.  It answers 200 only with the upstream document itself,
    whose status is 'OK'; every other upstream status, rate limiting
    included, is answered 400 with a non-empty error. *)
Theorem X20_place_details
    (NumberToString : float -> string)
    (ObjectToString : Js.Json -> Outcome string)
    (fetchJson : string -> Outcome Js.Json)
    (apiKey : option string) (json : Outcome Js.Json) :
  let h := PlaceDetails.POST NumberToString ObjectToString fetchJson
                             apiKey json in
  In (PlaceDetails.status (PlaceDetails.response h)) [200; 400; 500]%Z
  /\ (forall url, In url (PlaceDetails.fetched h) <->
        exists body placeId id,
          json = Returned body
          /\ Js.field "placeId" body = Returned placeId
          /\ Js.truthy placeId = true
          /\ Js.toString NumberToString ObjectToString placeId = Returned id
          /\ url = PlaceDetails.detailsUrl id (PlaceDetails.keyString apiKey))
  /\ (List.length (PlaceDetails.fetched h) <= 1)%nat
  /\ (PlaceDetails.status (PlaceDetails.response h) = 200%Z ->
      exists url,
        PlaceDetails.fetched h = [url]
        /\ fetchJson url = Returned (PlaceDetails.body (PlaceDetails.response h))
        /\ Js.get "status" (PlaceDetails.body (PlaceDetails.response h))
           = Js.JString "OK")
  /\ (PlaceDetails.status (PlaceDetails.response h) = 400%Z ->
      exists message,
        PlaceDetails.body (PlaceDetails.response h)
        = PlaceDetails.errorBody message
        /\ Js.truthy message = true).
Proof.
  intros h. unfold h, PlaceDetails.POST, PlaceDetails.failed.
  destruct json as [b | e]; simpl.
  2: { split; [simpl; tauto |].
       split; [intros url; split;
               [intros [] | intros (b & p & i & H & _); discriminate] |].
       split; [simpl; lia |]. split; intros; discriminate. }
  destruct (Js.field "placeId" b) as [placeId | e] eqn:Fp.
  2: { split; [simpl; tauto |].
       split; [intros url; split;
               [intros []
               | intros (b' & p & i & H & H' & _); injection H as <-;
                 congruence] |].
       split; [simpl; lia |]. split; intros; discriminate. }
  destruct (Js.truthy placeId) eqn:T; simpl.
  2: { split; [simpl; tauto |].
       split; [intros url; split;
               [intros []
               | intros (b' & p & i & H & H' & H'' & _); injection H as <-;
                 congruence] |].
       split; [simpl; lia |].
       split; [intros; discriminate |].
       intros _. eexists. split; reflexivity. }
  destruct (Js.toString NumberToString ObjectToString placeId) as [id | e]
    eqn:S.
  2: { split; [simpl; tauto |].
       split; [intros url; split;
               [intros []
               | intros (b' & p & i & H & H' & H'' & H3 & _);
                 injection H as <-; congruence] |].
       split; [simpl; lia |]. split; intros; discriminate. }
  cbn [PlaceDetails.fetched PlaceDetails.response].
  set (url := PlaceDetails.detailsUrl id (PlaceDetails.keyString apiKey)).
  assert (Hurl : forall u, In u [url] <->
            exists body placeId0 id0,
              Returned b = Returned body
              /\ Js.field "placeId" body = Returned placeId0
              /\ Js.truthy placeId0 = true
              /\ Js.toString NumberToString ObjectToString placeId0
                 = Returned id0
              /\ u = PlaceDetails.detailsUrl id0
                       (PlaceDetails.keyString apiKey)).
  { intros u. split.
    - intros [<- | []]. exists b, placeId, id. auto.
    - intros (b' & p & i & H & H' & H'' & H3 & ->). injection H as <-.
      left. unfold url. congruence. }
  destruct (fetchJson url) as [data | e] eqn:F.
  2: { split; [simpl; tauto |]. split; [exact Hurl |].
       split; [simpl; lia |]. split; intros; discriminate. }
  destruct (Js.field "status" data) as [st | e] eqn:Fs.
  2: { split; [simpl; tauto |]. split; [exact Hurl |].
       split; [simpl; lia |]. split; intros; discriminate. }
  destruct (PlaceDetails.notOK st) eqn:N.
  - split; [simpl; tauto |]. split; [exact Hurl |].
    split; [simpl; lia |]. split; [intros; discriminate |].
    intros _. eexists. split; [reflexivity |].
    unfold Js.orElse.
    destruct (Js.truthy (Js.get "error_message" data)) eqn:E; auto.
  - split; [simpl; tauto |]. split; [exact Hurl |].
    split; [simpl; lia |]. split; [| intros; discriminate].
    intros _. exists url. simpl. split; [reflexivity |]. split; [exact F |].
    destruct st as [| | ? | ? | s | ? | ?]; try discriminate.
    simpl in N. destruct (String.eqb_spec s "OK"); [subst | discriminate].
    unfold Js.field in Fs.
    destruct data; try discriminate; injection Fs as Fs; exact Fs.
Qed.

Lemma X20_place_details_witness :
  let h := PlaceDetails.POST (fun _ => "n"%string)
             (fun _ => Threw "TypeError")
             (fun _ => Returned (Js.JObject
                                   [("status"%string, Js.JString "OK")]))
             None
             (Returned (Js.JObject [("placeId"%string, Js.JString "abc")])) in
  PlaceDetails.status (PlaceDetails.response h) = 200%Z
  /\ exists url,
       PlaceDetails.fetched h = [url]
       /\ url = PlaceDetails.detailsUrl "abc" "undefined".
Proof.
  split; [reflexivity |].
  destruct (proj1 (proj2 (proj2 (proj2
              (@X20_place_details (fun _ => "n"%string)
                 (fun _ => Threw "TypeError")
                 (fun _ => Returned (Js.JObject
                                       [("status"%string, Js.JString "OK")]))
                 None
                 (Returned (Js.JObject
                              [("placeId"%string, Js.JString "abc")]))))))
              eq_refl) as (url & H & _).
  exists url. split; [exact H |].
  simpl in H. injection H as <-. reflexivity.
Defined.

(** X21: for a grid of [size] >= 1, the marker GridVisualization draws as
    the centre is at index [floor(size * size / 2)], which is inside the
    grid and lies in row [floor(size / 2)] of a row-major layout; its
    column is [floor(size / 2)], the true centre, only for an odd size.
    For an even size it is column 0, the left edge. *)
Theorem X21_center_marker_index (size : Z) :
  (1 <= size)%Z ->
  let c := GridVisualization.centerIndex size in
  (0 <= c < size * size)%Z
  /\ (c / size = size / 2)%Z
  /\ (c mod size = if Z.odd size then size / 2 else 0)%Z
  /\ forall index,
       GridVisualization.iconSize size index = 24%Z <-> index = c.
Proof.
  intros Hs c. unfold c, GridVisualization.centerIndex.
  assert (E : (size * size / 2
               = size / 2 * size + if Z.odd size then size / 2 else 0)%Z).
  { pose proof (Z.div_mod size 2 ltac:(lia)) as D. rewrite Zmod_odd in D.
    revert D. generalize (size / 2)%Z. intros m D.
    symmetry. destruct (Z.odd size).
    - apply Z.div_unique with (r := 1%Z); [lia | nia].
    - apply Z.div_unique with (r := 0%Z); [lia | nia]. }
  assert (B : (0 <= (if Z.odd size then size / 2 else 0) < size)%Z).
  { destruct (Z.odd size); [| lia].
    Z.to_euclidean_division_equations. lia. }
  split; [| split; [| split]].
  - Z.to_euclidean_division_equations. nia.
  - symmetry.
    apply Z.div_unique with (r := if Z.odd size then (size / 2)%Z else 0%Z);
      [left; exact B | rewrite E; ring].
  - symmetry. apply Z.mod_unique with (q := (size / 2)%Z);
      [left; exact B | rewrite E; ring].
  - intros index. unfold GridVisualization.iconSize,
      GridVisualization.isCenter, GridVisualization.centerIndex.
    destruct (Z.eqb_spec index (size * size / 2)); split; intros; auto;
      try discriminate; contradiction.
Qed.

Lemma X21_center_marker_index_witness :
  (1 <= 4)%Z
  /\ (GridVisualization.centerIndex 4 mod 4 = 0)%Z
  /\ (GridVisualization.centerIndex 4 / 4 = 2)%Z.
Proof.
  split; [lia |].
  pose proof (@X21_center_marker_index 4 ltac:(lia)) as (_ & R & C & _).
  split; [exact C | exact R].
Defined.

(** * Markers and their style *)

Section MarkerStyle.
Context {N : Type} {num : Number N} {libm : MathLib N}.

(** One iteration of the detailed view's marker loops makes a marker
    exactly for a defined, nonzero entry, and then the maker's marker for
    that rank at the cell's coordinate. *)
Lemma markerFor_spec (make : DetailedGridViewMarkers.MarkerMaker)
    (location : LatLng N) (distance : N) (n : Z) (rows : list (list Z))
    (i j : Z) (m : DetailedGridViewMarkers.Marker N) :
  DetailedGridViewMarkers.markerFor make location distance n rows i j
  = Some m
  <-> exists row r,
        at_index rows i = Some row /\ at_index row j = Some r
        /\ r <> 0%Z
        /\ m = make n i j r
                 (DetailedGridView.cellCoordinate location distance n i j).
Proof.
  unfold DetailedGridViewMarkers.markerFor.
  destruct (at_index rows i) as [row |] eqn:E1.
  - destruct (at_index row j) as [r |] eqn:E2.
    + destruct (Z.eqb_spec r 0) as [-> | Hr].
      * split; [discriminate |].
        intros (row' & r' & F1 & F2 & Hr' & _).
        injection F1 as <-. rewrite E2 in F2. injection F2 as <-.
        contradiction.
      * split.
        -- intros H. injection H as <-. exists row, r. auto.
        -- intros (row' & r' & F1 & F2 & _ & ->).
           injection F1 as <-. rewrite E2 in F2. injection F2 as <-.
           reflexivity.
    + split; [discriminate |].
      intros (row' & r' & F1 & F2 & _). injection F1 as <-. congruence.
  - split; [discriminate |]. intros (row' & r' & F1 & _). discriminate.
Qed.

Lemma rankingMarkers_spec (make : DetailedGridViewMarkers.MarkerMaker)
    (location : LatLng N) (distance : N) (n : Z)
    (gridData : option (list (list Z)))
    (i j : Z) (m : DetailedGridViewMarkers.Marker N) :
  (0 <= i < n)%Z -> (0 <= j < n)%Z ->
  In (i, j, m)
     (DetailedGridViewMarkers.rankingMarkers make location distance n
        (Props.arrayOrEmpty gridData))
  <-> exists r,
        (exists rows row,
           gridData = Some rows /\ at_index rows i = Some row
           /\ at_index row j = Some r /\ r <> 0%Z)
        /\ m = make n i j r
                 (DetailedGridView.cellCoordinate location distance n i j).
Proof.
  intros Hi Hj. rewrite in_rankingMarkers, markerFor_spec. split.
  - intros (_ & _ & row & r & E1 & E2 & Hr & ->).
    destruct gridData as [rows |].
    + exists r. split; [| reflexivity]. exists rows, row. auto.
    + simpl in E1. unfold at_index in E1.
      destruct (i <? 0)%Z; [discriminate |].
      destruct (Z.to_nat i); discriminate.
  - intros (r & (rows & row & -> & E1 & E2 & Hr) & ->).
    split; [exact Hi |]. split; [exact Hj |].
    exists row, r. auto.
Qed.

(** The [forEach] call of cell [(i, j)] in [GoogleMap.initializeMap]. *)
Lemma GoogleMap_marker_spec (center : LatLng N) (n : Z) (d : N)
    (gridData : option (list (list Z)))
    (i j : Z) (m : GoogleMapMarkers.Marker N) :
  (0 <= i < n)%Z -> (0 <= j < n)%Z ->
  In ((i * n + j)%Z, m) (GoogleMapMarkers.markers center n d gridData)
  <-> exists r,
        (exists rows row,
           gridData = Some rows /\ at_index rows i = Some row
           /\ at_index row j = Some r /\ r <> 0%Z)
        /\ m = {| GoogleMapMarkers.position :=
                    GoogleMap.gridPoint center n d i j;
                  GoogleMapMarkers.iconColor :=
                    GoogleMapMarkers.iconColorOf r;
                  GoogleMapMarkers.iconText := GoogleMapMarkers.iconTextOf r;
                  GoogleMapMarkers.zIndex := GoogleMapMarkers.zIndexOf r;
                  GoogleMapMarkers.ranking := r |}.
Proof.
  intros Hi Hj.
  assert (Hn : (0 < n)%Z) by lia.
  assert (Hk : (0 <= i * n + j < n * n)%Z) by nia.
  assert (Er : ((i * n + j) / n = i)%Z)
    by (symmetry; apply (Z.div_unique_pos _ _ i j); lia).
  assert (Ec : Z.rem (i * n + j) n = j).
  { rewrite Z.rem_mod_nonneg by nia.
    symmetry; apply (Z.mod_unique_pos _ _ i j); lia. }
  pose proof (at_index_points center d Hn Hk) as Hp.
  rewrite Er, Ec in Hp. unfold at_index in Hp.
  destruct (Z.ltb_spec (i * n + j) 0); [lia |].
  destruct gridData as [rows |].
  - rewrite in_GoogleMap_markers. unfold GoogleMapMarkers.markerAt.
    rewrite Er, Ec. split.
    + intros (_ & point & Hnth & _ & Hm).
      rewrite Hp in Hnth. injection Hnth as <-.
      destruct (at_index rows i) as [row |] eqn:E1; [| discriminate].
      destruct (at_index row j) as [r |] eqn:E2; [| discriminate].
      destruct (Z.eqb_spec r 0) as [| Hr]; [discriminate |].
      injection Hm as <-. exists r. split; [| reflexivity].
      exists rows, row. auto.
    + intros (r & (rows' & row & E & E1 & E2 & Hr) & ->).
      injection E as <-. split.
      * intros ->. unfold at_index in E1.
        destruct (i <? 0)%Z; [discriminate |].
        destruct (Z.to_nat i); discriminate.
      * exists (GoogleMap.gridPoint center n d i j).
        split; [exact Hp |]. split; [lia |].
        rewrite E1, E2.
        destruct (Z.eqb_spec r 0); [contradiction | reflexivity].
  - simpl. split; [intros [] |].
    intros (r & (rows & row & E & _) & _). discriminate.
Qed.
End MarkerStyle.

(** C6: for a cell [(i, j)] of the grid, the markers created for it are
    exactly the styled markers of a supplied, defined, nonzero entry
    [gridData[i][j]]: in each of the three marker loops of the detailed
    view the marker stands at the cell's coordinate and carries the rank's
    icon (or the rank's colour and label) and z-index, in
    [GoogleMap.initializeMap] (whose [forEach] call number
    [i * gridSize + j] is the one of cell [(i, j)]) it stands at the cell's
    grid point and carries the rank and its colour, text and z-index.  A
    cell without a rank matrix, with an undefined entry or with rank 0 gets
    no marker at all. *)
Theorem C6_marker_iff_ranked
    (N : Type) (num : Number N) (libm : MathLib N)
    (center : LatLng N) (spacing : N) (gridSize : Z)
    (gridData : option (list (list Z))) (i j : Z) :
  (0 <= i < gridSize)%Z -> (0 <= j < gridSize)%Z ->
  let entry (r : Z) :=
    exists rows row,
      gridData = Some rows /\ at_index rows i = Some row
      /\ at_index row j = Some r /\ r <> 0%Z in
  let pos := DetailedGridView.cellCoordinate center spacing gridSize i j in
  let rows := Props.arrayOrEmpty gridData in
  (forall m,
     In (i, j, m)
        (DetailedGridViewMarkers.rankingMarkers
           DetailedGridViewMarkers.rankIconMarker center spacing gridSize rows)
     <-> exists r,
           entry r
           /\ m = {| DetailedGridViewMarkers.position := pos;
                     DetailedGridViewMarkers.icon :=
                       DetailedGridViewMarkers.IconUrl
                         (DetailedGridViewMarkers.rankIconUrl r);
                     DetailedGridViewMarkers.label := None;
                     DetailedGridViewMarkers.zIndex :=
                       DetailedGridViewMarkers.zIndex_rankIcons r |})
  /\ (forall m,
        In (i, j, m)
           (DetailedGridViewMarkers.rankingMarkers
              DetailedGridViewMarkers.circleMarker center spacing gridSize
              rows)
        <-> exists r,
              entry r
              /\ m = {| DetailedGridViewMarkers.position := pos;
                        DetailedGridViewMarkers.icon :=
                          DetailedGridViewMarkers.IconCircle
                            (DetailedGridViewMarkers.getRankingColor r);
                        DetailedGridViewMarkers.label :=
                          Some (DetailedGridViewMarkers.formatRankingLabel r);
                        DetailedGridViewMarkers.zIndex :=
                          DetailedGridViewMarkers.zIndex_circles r |})
  /\ (forall m,
        In (i, j, m)
           (DetailedGridViewMarkers.rankingMarkers
              DetailedGridViewMarkers.cellOrderMarker center spacing gridSize
              rows)
        <-> exists r,
              entry r
              /\ m = {| DetailedGridViewMarkers.position := pos;
                        DetailedGridViewMarkers.icon :=
                          DetailedGridViewMarkers.IconUrl
                            (DetailedGridViewMarkers.rankIconUrl r);
                        DetailedGridViewMarkers.label := Some (toString r);
                        DetailedGridViewMarkers.zIndex :=
                          DetailedGridViewMarkers.zIndex_byCell gridSize i j |})
  /\ (forall m,
        In ((i * gridSize + j)%Z, m)
           (GoogleMapMarkers.markers center gridSize spacing gridData)
        <-> exists r,
              entry r
              /\ m = {| GoogleMapMarkers.position :=
                          GoogleMap.gridPoint center gridSize spacing i j;
                        GoogleMapMarkers.iconColor :=
                          GoogleMapMarkers.iconColorOf r;
                        GoogleMapMarkers.iconText :=
                          GoogleMapMarkers.iconTextOf r;
                        GoogleMapMarkers.zIndex := GoogleMapMarkers.zIndexOf r;
                        GoogleMapMarkers.ranking := r |}).
Proof.
  intros Hi Hj entry pos rows. subst entry pos rows.
  split; [| split; [| split]]; intros m.
  - apply (rankingMarkers_spec DetailedGridViewMarkers.rankIconMarker
             center spacing gridData m Hi Hj).
  - apply (rankingMarkers_spec DetailedGridViewMarkers.circleMarker
             center spacing gridData m Hi Hj).
  - apply (rankingMarkers_spec DetailedGridViewMarkers.cellOrderMarker
             center spacing gridData m Hi Hj).
  - apply (GoogleMap_marker_spec center spacing gridData m Hi Hj).
Qed.

Lemma C6_marker_iff_ranked_witness :
  let gridData := Some [[2; 1]; [0; 5]]%Z in
  let center := {| lat := 40%R; lng := (-74)%R |} in
  (0 <= 1 < 2)%Z
  /\ In (1%Z, 1%Z,
         {| DetailedGridViewMarkers.position :=
              DetailedGridView.cellCoordinate center 2.5%R 2 1 1;
            DetailedGridViewMarkers.icon :=
              DetailedGridViewMarkers.IconUrl "/images/rank-icons/5.png";
            DetailedGridViewMarkers.label := None;
            DetailedGridViewMarkers.zIndex := 16%Z |})
        (DetailedGridViewMarkers.rankingMarkers
           DetailedGridViewMarkers.rankIconMarker center 2.5%R 2
           (Props.arrayOrEmpty gridData))
  /\ In ((1 * 2 + 1)%Z,
         {| GoogleMapMarkers.position := GoogleMap.gridPoint center 2 2.5%R 1 1;
            GoogleMapMarkers.iconColor := "#8BC34A"%string;
            GoogleMapMarkers.iconText := "5"%string;
            GoogleMapMarkers.zIndex := 25%Z;
            GoogleMapMarkers.ranking := 5%Z |})
        (GoogleMapMarkers.markers center 2 2.5%R gridData).
Proof.
  split; [lia |].
  pose proof (@C6_marker_iff_ranked R _ _ {| lat := 40%R; lng := (-74)%R |}
                2.5%R 2 (Some [[2; 1]; [0; 5]]%Z) 1 1
                ltac:(lia) ltac:(lia)) as (H1 & _ & _ & H4).
  split.
  - apply H1. exists 5%Z. split; [| reflexivity].
    exists [[2; 1]; [0; 5]]%Z, [0; 5]%Z.
    repeat split; try reflexivity. discriminate.
  - apply H4. exists 5%Z. split; [| reflexivity].
    exists [[2; 1]; [0; 5]]%Z, [0; 5]%Z.
    repeat split; try reflexivity. discriminate.
Defined.

(** * NaN and the infinities through the arithmetic *)

Module NonFinite.
Import SpecFloat FloatOps FloatAxioms.

Lemma SFeqb_refl (x : spec_float) : x <> S754_nan -> SFeqb x x = true.
Proof.
  intros H. unfold SFeqb, SFcompare.
  destruct x as [s | s | | s m e]; try congruence; try (destruct s; reflexivity).
  destruct s; rewrite Z.compare_refl.
  - rewrite Pos.compare_cont_refl. reflexivity.
  - rewrite Pos.compare_cont_refl. reflexivity.
Qed.

Lemma is_nan_spec (x : float) :
  PrimFloat.is_nan x = true <-> Prim2SF x = S754_nan.
Proof.
  unfold PrimFloat.is_nan. rewrite FloatAxioms.eqb_spec. split.
  - intros H. destruct (Prim2SF x) eqn:E; try reflexivity;
      rewrite SFeqb_refl in H by discriminate; discriminate.
  - intros ->. reflexivity.
Qed.


Lemma add_nan_l (x y : float) :
  PrimFloat.is_nan x = true -> PrimFloat.is_nan (x + y) = true.
Proof.
  rewrite !is_nan_spec, add_spec. intros ->. reflexivity.
Qed.

Lemma sub_nan_l (x y : float) :
  PrimFloat.is_nan x = true -> PrimFloat.is_nan (x - y) = true.
Proof.
  rewrite !is_nan_spec, sub_spec. intros ->. reflexivity.
Qed.

Lemma sub_nan_r (x y : float) :
  PrimFloat.is_nan y = true -> PrimFloat.is_nan (x - y) = true.
Proof.
  rewrite !is_nan_spec, sub_spec. intros ->.
  destruct (Prim2SF x); reflexivity.
Qed.

Lemma mul_nan_r (x y : float) :
  PrimFloat.is_nan y = true -> PrimFloat.is_nan (x * y) = true.
Proof.
  rewrite !is_nan_spec, mul_spec. intros ->.
  destruct (Prim2SF x); reflexivity.
Qed.

Lemma div_nan_l (x y : float) :
  PrimFloat.is_nan x = true -> PrimFloat.is_nan (x / y) = true.
Proof.
  rewrite !is_nan_spec, div_spec. intros ->. reflexivity.
Qed.

End NonFinite.

(** * Input validation: what the code does with malformed input *)


(** * Fallbacks of the view and of its CSV export *)

(** C10: the parameters the view parses once ([Number(x) || d]) are as
    claimed: grid size 13 when [Number(gridSize)] is NaN or 0, spacing 2.5
    when [Number(distanceKm)] is NaN or 0, latitude and longitude 0 when
    missing or not numeric, and none of the four is ever NaN.  The claim's
    conclusion fails all the same in the first two copies of the component:
    [handleCSVDownload] reads [gridResult.gridSize || 13] again, without
    [Number(...)].  It agrees with the view on every numeric size and
    spacing, but a stored size that is a non-empty string and not a number
    (such as "13x13") is kept, the arithmetic turns it into NaN, and every
    latitude and longitude written to the CSV is NaN. *)
Theorem C10_fallbacks (StringToNumber : string -> float) (g : Props.GridResult) :
  let falsy x := PrimFloat.is_nan x = true \/ PrimFloat.eqb x 0%float = true in
  let num := Props.toNumber StringToNumber in
  (falsy (num (Props.gridSize g)) ->
   Props.viewGridSize StringToNumber g = 13%float)
  /\ (falsy (num (Props.distanceKm g)) ->
      Props.viewDistance StringToNumber g = 2.5%float)
  /\ (Props.businessInfo g = None ->
      Props.viewLocation StringToNumber g = {| lat := 0%float; lng := 0%float |})
  /\ (PrimFloat.is_nan (num (Props.latField g)) = true ->
      lat (Props.viewLocation StringToNumber g) = 0%float)
  /\ (PrimFloat.is_nan (num (Props.lngField g)) = true ->
      lng (Props.viewLocation StringToNumber g) = 0%float)
  /\ PrimFloat.is_nan (Props.viewGridSize StringToNumber g) = false
  /\ PrimFloat.is_nan (Props.viewDistance StringToNumber g) = false
  /\ PrimFloat.is_nan (lat (Props.viewLocation StringToNumber g)) = false
  /\ PrimFloat.is_nan (lng (Props.viewLocation StringToNumber g)) = false
  /\ (forall x, Props.gridSize g = Props.JsNum x ->
      Props.csvGridSize g = Props.JsNum (Props.orDefault x 13%float))
  /\ (forall x, Props.distanceKm g = Props.JsNum x ->
      Props.csvDistance g = Props.JsNum (Props.orDefault x 2.5%float))
  /\ (forall (libm : MathLib float) (s : string),
        Props.gridSize g = Props.JsStr s ->
        s <> ""%string ->
        PrimFloat.is_nan (StringToNumber s) = true ->
        Props.viewGridSize StringToNumber g = 13%float
        /\ Props.csvGridSize g = Props.JsStr s
        /\ PrimFloat.is_nan (CsvFallback.gridSize StringToNumber g) = true
        /\ forall rowIndex colIndex : Z,
             PrimFloat.is_nan (CsvFallback.rowLat StringToNumber g rowIndex)
             = true
             /\ PrimFloat.is_nan
                  (CsvFallback.colLng StringToNumber libm g colIndex)
                = true).
Proof.
  intros falsy num. subst falsy num.
  unfold Props.viewGridSize, Props.viewDistance, Props.viewLocation,
    Props.csvGridSize, Props.csvDistance.
  cbn [lat lng].
  repeat match goal with |- _ /\ _ => split end;
    try (intros x ->; unfold Props.orDefault; simpl;
         destruct (Props.truthy x); reflexivity).
  - apply orDefault_cases.
  - apply orDefault_cases.
  - intros E. unfold Props.latField, Props.lngField. rewrite E. reflexivity.
  - intros E. apply orDefault_cases. auto.
  - intros E. apply orDefault_cases. auto.
  - apply orDefault_cases. reflexivity.
  - apply orDefault_cases. reflexivity.
  - apply orDefault_cases. reflexivity.
  - apply orDefault_cases. reflexivity.
  - intros libm s E Hs Hnan.
    assert (T : Props.valueTruthy (Props.JsStr s) = true).
    { simpl. destruct (String.eqb_spec s ""); [contradiction | reflexivity]. }
    assert (G : PrimFloat.is_nan (CsvFallback.gridSize StringToNumber g)
                = true).
    { unfold CsvFallback.gridSize, Props.csvGridSize. rewrite E, T.
      exact Hnan. }
    split.
    { rewrite E. simpl. apply orDefault_cases. left. exact Hnan. }
    split; [rewrite E, T; reflexivity |].
    split; [exact G |].
    intros rowIndex colIndex.
    unfold CsvFallback.rowLat, CsvFallback.colLng, CsvFallback.startLat,
      CsvFallback.startLng.
    cbn [add sub mul div Binary64.number].
    split; apply NonFinite.add_nan_l, NonFinite.sub_nan_r,
      NonFinite.div_nan_l, NonFinite.mul_nan_r, NonFinite.sub_nan_l; exact G.
Qed.

Lemma C10_fallbacks_witness :
  let g := {| Props.gridSize := Props.JsStr "13x13";
              Props.distanceKm := Props.JsNum 2.5%float;
              Props.gridData := None; Props.businessInfo := None |} in
  let StringToNumber := fun _ : string => PrimFloat.nan in
  "13x13"%string <> ""%string
  /\ PrimFloat.is_nan (StringToNumber "13x13"%string) = true
  /\ Props.viewGridSize StringToNumber g = 13%float
  /\ forall (libm : MathLib float) (rowIndex colIndex : Z),
       PrimFloat.is_nan (CsvFallback.rowLat StringToNumber g rowIndex) = true
       /\ PrimFloat.is_nan (CsvFallback.colLng StringToNumber libm g colIndex)
          = true.
Proof.
  split; [discriminate |]. split; [reflexivity |].
  split; [reflexivity |].
  intros libm rowIndex colIndex.
  assert (H := proj2 (proj2 (proj2 (proj2 (proj2 (proj2 (proj2 (proj2 (proj2
                 (proj2 (proj2
                 (@C10_fallbacks (fun _ : string => PrimFloat.nan)
                    {| Props.gridSize := Props.JsStr "13x13";
                       Props.distanceKm := Props.JsNum 2.5%float;
                       Props.gridData := None;
                       Props.businessInfo := None |})))))))))))
               libm "13x13"%string eq_refl ltac:(discriminate) eq_refl).
  exact (proj2 (proj2 (proj2 H)) rowIndex colIndex).
Defined.
